(** * SECoP-PLC code generator: the business-rule validation engine

    A shallow embedding of
      - [codegen/model/secnode.py]      (the Schema Model),
      - [codegen/rules/types.py]        (Severity, Finding),
      - [codegen/rules/secop_rules.py]  (protocol rules),
      - [codegen/rules/plc_rules.py]    (tooling rules),
      - [codegen/validators/validate_config.py] (the orchestrator),
    followed by the properties of the rule catalog.

    Conventions of the embedding.
      - A Python [dict] is an association list in insertion order (the
        order the rules iterate in); [d.get(k)] is the first entry under
        [k] (keys are unique in a dict).
      - [Optional[T]] is [option T]; [int] is [Z]; [float] is the IEEE-754
        specification type [spec_float] with its comparison [SFcompare].
      - [str] is [string], the text in UTF-8 (the encoding the
        configuration file is read in): equality, prefixes and order of
        texts are those of their bytes.  The white-space class of
        [str.strip] is Python's: the code points U+0009..U+000D,
        U+001C..U+0020, U+0085, U+00A0, U+1680, U+2000..U+200A, U+2028,
        U+2029, U+202F, U+205F and U+3000, recognised by their encodings
        of one, two and three bytes.  (A lone surrogate, which a JSON
        escape can put into a [str] and UTF-8 cannot hold, is outside the
        embedding; it is not white space.)
      - A value typed [Any] by the Schema Model (the fragments of a tuple's
        [members]) is a parsed JSON value, [Py.json].
      - An f-string is kept as the list of its pieces ([Types.text]): the
        literal parts and interpolated [str] values as [Lit], and the other
        interpolated values unrendered, so that [str()] / [repr()] of
        numbers and lists need no model.
      - The only exception a rule can raise is [IndexError]; code that can
        raise returns [Py.result]. *)

From Stdlib Require Import String Ascii List NArith ZArith Bool Lia.
From Stdlib Require Import SpecFloat.
Import ListNotations.
Open Scope string_scope.
Open Scope Z_scope.

Set Warnings "-register-all".
Declare Scope py_scope.

(* ===================================================================== *)
(** ** Python values and built-ins used by the rules                      *)
(* ===================================================================== *)

Module Py.

(** [str.isspace] on a character of one byte:
    TAB, LF, VT, FF, CR, FS, GS, RS, US and SPACE. *)
Definition isspace (c : ascii) : bool :=
  let n := N_of_ascii c in
  (((9 <=? n) && (n <=? 13)) || ((28 <=? n) && (n <=? 32)))%N.

(** [str.isspace] on a character of two bytes:
    U+0085 (C2 85) and U+00A0 (C2 A0). *)
Definition isspace2 (c d : ascii) : bool :=
  let a := N_of_ascii c in
  let b := N_of_ascii d in
  ((a =? 194) && ((b =? 133) || (b =? 160)))%N.

(** [str.isspace] on a character of three bytes:
    U+1680 (E1 9A 80), U+2000..U+200A (E2 80 80 .. E2 80 8A),
    U+2028, U+2029 (E2 80 A8, E2 80 A9), U+202F (E2 80 AF),
    U+205F (E2 81 9F) and U+3000 (E3 80 80). *)
Definition isspace3 (c d e : ascii) : bool :=
  let a := N_of_ascii c in
  let b := N_of_ascii d in
  let x := N_of_ascii e in
  (((a =? 225) && (b =? 154) && (x =? 128)) ||
   ((a =? 226) && (b =? 128) &&
    (((128 <=? x) && (x <=? 138)) || (x =? 168) || (x =? 169) || (x =? 175))) ||
   ((a =? 226) && (b =? 129) && (x =? 159)) ||
   ((a =? 227) && (b =? 128) && (x =? 128)))%N.

(** [s.lstrip()]: the leading white-space characters are dropped, one,
    two or three bytes at a time. *)
Fixpoint lstrip (s : string) : string :=
  match s with
  | EmptyString => EmptyString
  | String c r =>
      if isspace c then lstrip r
      else
        match r with
        | EmptyString => s
        | String d r2 =>
            if isspace2 c d then lstrip r2
            else
              match r2 with
              | EmptyString => s
              | String e r3 => if isspace3 c d e then lstrip r3 else s
              end
        end
  end.

(** Nothing but white space: [s.lstrip() == ""]. *)
Definition blank (s : string) : bool := (lstrip s =? "")%string.

(** [s.rstrip()]: the text is cut where nothing but white space follows
    (a white-space character starts with a byte that continues no other
    character, so the cut falls between two characters). *)
Fixpoint rstrip (s : string) : string :=
  match s with
  | EmptyString => EmptyString
  | String c r => if blank s then EmptyString else String c (rstrip r)
  end.

(** [s.strip()] *)
Definition strip (s : string) : string := rstrip (lstrip s).

(** [chr(cp)], the text of the one code point [cp]. *)
Definition utf8 (cp : N) : string :=
  let byte (n : N) (r : string) := String (ascii_of_N n) r in
  if (cp <? 128)%N then byte cp ""
  else if (cp <? 2048)%N then
    byte (192 + cp / 64)%N (byte (128 + cp mod 64)%N "")
  else if (cp <? 65536)%N then
    byte (224 + cp / 4096)%N
      (byte (128 + (cp / 64) mod 64)%N (byte (128 + cp mod 64)%N ""))
  else
    byte (240 + cp / 262144)%N
      (byte (128 + (cp / 4096) mod 64)%N
         (byte (128 + (cp / 64) mod 64)%N (byte (128 + cp mod 64)%N ""))).

(** [s.startswith(p)] *)
Definition startswith (s p : string) : bool := prefix p s.

(** [x in l] for a list / tuple / set of [str]. *)
Definition str_in (x : string) (l : list string) : bool :=
  existsb (String.eqb x) l.

(** [value or ""] for an [Optional[str]]. *)
Definition or_empty (v : option string) : string :=
  match v with Some s => s | None => "" end.

(** [v is not None] *)
Definition is_some {A} (v : option A) : bool :=
  match v with Some _ => true | None => false end.

(** *** Dictionaries *)

Definition dict (V : Type) := list (string * V).

(** [d.get(k)] *)
Fixpoint get {V} (d : dict V) (k : string) : option V :=
  match d with
  | [] => None
  | (k', v) :: r => if (k' =? k)%string then Some v else get r k
  end.

(** [k in d] *)
Definition contains {V} (k : string) (d : dict V) : bool := is_some (get d k).

(** [d.keys()] *)
Definition keys {V} (d : dict V) : list string := map fst d.

(** [d[k] = v]: an existing key keeps its position. *)
Fixpoint set {V} (d : dict V) (k : string) (v : V) : dict V :=
  match d with
  | [] => [(k, v)]
  | (k', v') :: r =>
      if (k' =? k)%string then (k, v) :: r else (k', v') :: set r k v
  end.

(** *** [sorted] on a list of [str] (insertion sort, code-point order) *)

Fixpoint insert_sorted (x : string) (l : list string) : list string :=
  match l with
  | [] => [x]
  | y :: r => if (x <=? y)%string then x :: l else y :: insert_sorted x r
  end.

Definition sorted (l : list string) : list string :=
  fold_right insert_sorted [] l.

(** *** Parsed JSON values (what a field typed [Any] can hold) *)

Inductive json :=
| JNull
| JBool (b : bool)
| JInt (n : Z)
| JFloat (f : spec_float)
| JStr (s : string)
| JList (l : list json)
| JDict (d : list (string * json)).

(** The exact comparison [f == n] of a float with an int. *)
Definition float_eq_int (f : spec_float) (n : Z) : bool :=
  match f with
  | S754_zero _ => n =? 0
  | S754_finite s m e =>
      let v := if s then Z.neg m else Z.pos m in
      if 0 <=? e then v * 2 ^ e =? n else v =? n * 2 ^ (- e)
  | _ => false
  end.

(** [v == n] for an int [n]: numbers compare by value, [True] is 1 and
    [False] is 0, everything else differs from an int. *)
Definition eq_int (v : json) (n : Z) : bool :=
  match v with
  | JInt m => m =? n
  | JBool b => (if b then 1 else 0) =? n
  | JFloat f => float_eq_int f n
  | _ => false
  end.

(** [v == s] for a str [s]. *)
Definition eq_str (v : json) (s : string) : bool :=
  match v with
  | JStr t => (t =? s)%string
  | _ => false
  end.

(** [o == n] / [o == s] where [o] comes from [d.get(k)]: [None] equals
    neither an int nor a str. *)
Definition opt_eq_int (o : option json) (n : Z) : bool :=
  match o with Some v => eq_int v n | None => false end.

Definition opt_eq_str (o : option json) (s : string) : bool :=
  match o with Some v => eq_str v s | None => false end.

(** *** Float comparisons [a >= b], [a > b], [a < b] (IEEE: false on NaN) *)

Definition float_ge (a b : spec_float) : bool :=
  match SFcompare a b with
  | Some Gt | Some Eq => true
  | _ => false
  end.

Definition float_gt (a b : spec_float) : bool :=
  match SFcompare a b with
  | Some Gt => true
  | _ => false
  end.

Definition float_lt (a b : spec_float) : bool := SFltb a b.

Definition float_eq (a b : spec_float) : bool := SFeqb a b.

(** [float(n)] for a small integer literal, as a binary64 value. *)
Definition float_of_Z (n : Z) : spec_float :=
  binary_normalize 53 1024 n 0 false.

(** *** Exceptions *)

Inductive exn := IndexError.

Inductive result (A : Type) :=
| Ok (a : A)
| Raise (e : exn).
Arguments Ok {A} a.
Arguments Raise {A} e.

Definition bind {A B} (c : result A) (k : A -> result B) : result B :=
  match c with
  | Ok a => k a
  | Raise e => Raise e
  end.

Definition returns {A} (c : result A) : Prop := exists a, c = Ok a.

End Py.

Notation "x <- c ;; k" := (Py.bind c (fun x => k))
(at level 61, c at next level, right associativity) : py_scope.
Open Scope py_scope.

(* ===================================================================== *)
(** ** codegen/model/secnode.py: the Schema Model                         *)
(* ===================================================================== *)

Module Model.
Import Py.

Record PlcTcpConfig := {
  server_ip : option string;
  server_port : option Z;
  interface_healthy_tag : option string
}.

Record PlcNodeConfig := {
  tcp : option PlcTcpConfig;
  secop_version : option string;
  plc_timestamp_tag : option string
}.

(** [members: Optional[Union[Dict[str, int], List[Dict[str, Any]]]]] *)
Inductive Members :=
| MembersDict (d : dict Z)
| MembersList (l : list (dict json)).

(** [DataInfo]; [argument] and [result] are nested [DataInfo] values. *)
Inductive DataInfo := mkDataInfo {
  di_type : string;
  di_unit : option string;
  di_min : option spec_float;
  di_max : option spec_float;
  di_maxchars : option Z;
  di_maxlen : option Z;
  di_members : option Members;
  di_argument : option DataInfo;
  di_result : option DataInfo
}.

Record Accessible := {
  acc_description : string;
  datainfo : DataInfo;
  readonly : bool;
  checkable : option bool
}.

(** What the input document gives for one accessible, and the model
    instance built from it: [readonly: bool = False] and
    [checkable: Optional[bool] = None] are the declared defaults. *)
Record AccessibleInput := {
  in_description : string;
  in_datainfo : DataInfo;
  in_readonly : option bool;
  in_checkable : option bool
}.

Definition Accessible_validate (i : AccessibleInput) : Accessible :=
  {| acc_description := in_description i;
     datainfo := in_datainfo i;
     readonly := match in_readonly i with Some b => b | None => false end;
     checkable := in_checkable i |}.

Record PlcValueConfig := {
  read_expr : option string;
  val_enum_tag : option string;
  enum_member_map : option (dict string)
}.

Record PlcStatusConfig := {
  disabled_expr : option string;
  disabled_description : option string;
  hw_error_expr : option string;
  hw_error_description : option string
}.

Record PlcTargetConfig := {
  write_stmt : option string;
  tgt_enum_tag : option string;
  change_possible_expr : option string;
  reach_timeout_s : option Z;
  reach_abs_tolerance : option spec_float
}.

Record PlcClearErrorsConfig := {
  cmd_stmt : option string
}.

Record PlcModuleConfig := {
  timestamp_tag : option string;
  xp_value : option PlcValueConfig;
  xp_status : option PlcStatusConfig;
  xp_target : option PlcTargetConfig;
  xp_clear_errors : option PlcClearErrorsConfig
}.

Record Module_ := {
  interface_classes : list string;
  features : list string;
  mod_description : string;
  implementation : string;
  accessibles : dict Accessible;
  mod_x_plc : option PlcModuleConfig
}.

Record SecNodeConfig := {
  equipment_id : string;
  description : string;
  firmware : string;
  modules : dict Module_;
  x_plc : option PlcNodeConfig
}.

End Model.

(* ===================================================================== *)
(** ** codegen/rules/types.py                                             *)
(* ===================================================================== *)

Module Types.
Import Py.

Inductive Severity := ERROR | WARNING.

Definition Severity_eqb (a b : Severity) : bool :=
  match a, b with
  | ERROR, ERROR | WARNING, WARNING => true
  | _, _ => false
  end.

(** One piece of an f-string. *)
Inductive piece :=
| Lit (s : string)              (* literal text, or an interpolated str *)
| FmtInt (n : Z)                (* an interpolated int *)
| FmtVal (v : option json)      (* an interpolated d.get(k) *)
| FmtList (l : list string).    (* an interpolated list of str *)

Definition text := list piece.

Record Finding := {
  rule_id : string;
  severity : Severity;
  path : string;
  message : text;
  hint : option text;
  category : option string;
  plc_refs : list string
}.

(** [Finding(rule_id=.., severity=.., path=.., message=..)] with the
    defaults [hint=None], [category=None], [plc_refs=[]]. *)
Definition mk (rid : string) (sev : Severity) (p : string) (msg : text)
  : Finding :=
  {| rule_id := rid; severity := sev; path := p; message := msg;
     hint := None; category := None; plc_refs := [] |}.

Definition mk_hint (rid : string) (sev : Severity) (p : string)
  (msg h : text) : Finding :=
  {| rule_id := rid; severity := sev; path := p; message := msg;
     hint := Some h; category := None; plc_refs := [] |}.

Definition mk_impl (rid : string) (sev : Severity) (p : string)
  (msg : text) (refs : list string) : Finding :=
  {| rule_id := rid; severity := sev; path := p; message := msg;
     hint := None; category := Some "implementation"; plc_refs := refs |}.

End Types.

(* ===================================================================== *)
(** ** codegen/rules/secop_rules.py: protocol rules                       *)
(* ===================================================================== *)

Module SecopRules.
Import Py Model Types.

Definition PROTOCOL_TYPES : list string :=
  ["double"; "scaled"; "int"; "bool"; "enum"; "string";
   "blob"; "array"; "tuple"; "struct"; "matrix"; "command"].

Definition PLC_UNSUPPORTED_TYPES : list string :=
  ["scaled"; "blob"; "matrix"; "struct"].

(** [PROTOCOL_TYPES - PLC_UNSUPPORTED_TYPES] *)
Definition ALLOWED_TYPES_THIS_CODEGEN : list string :=
  filter (fun t => negb (str_in t PLC_UNSUPPORTED_TYPES)) PROTOCOL_TYPES.

(** *** Helpers *)

Definition _has_class (m : Module_) (cls_name : string) : bool :=
  str_in cls_name (interface_classes m).

Definition _is_drivable (m : Module_) : bool :=
  _has_class m "Drivable".

Definition _is_writable (m : Module_) : bool :=
  _has_class m "Writable" || _is_drivable m.

Definition _is_readable (m : Module_) : bool :=
  _has_class m "Readable" || _is_writable m.

(** The result is a set; it is listed here without repetition. *)
Definition _required_accessibles_for_module (m : Module_) : list string :=
  (if _is_readable m then ["value"; "status"; "pollinterval"] else []) ++
  (if _is_writable m then ["target"] else []) ++
  (if _is_drivable m then ["stop"] else []).

(** [for mod_name, mod in cfg.modules.items(): findings += body(..)] *)
Definition for_each_module (body : string -> Module_ -> list Finding)
  (cfg : SecNodeConfig) : list Finding :=
  flat_map (fun '(mod_name, m) => body mod_name m) (modules cfg).

(** The same with the inner loop
    [for acc_name, acc in (mod.accessibles or {}).items()]. *)
Definition for_each_accessible
  (body : string -> string -> Accessible -> list Finding)
  (cfg : SecNodeConfig) : list Finding :=
  for_each_module
    (fun mod_name m =>
       flat_map (fun '(acc_name, acc) => body mod_name acc_name acc)
                (accessibles m))
    cfg.

Definition mod_path (mod_name : string) : string :=
  "$.modules." ++ mod_name.

Definition acc_path (mod_name acc_name : string) : string :=
  "$.modules." ++ mod_name ++ ".accessibles." ++ acc_name.

(** *** R-NODE-001 *)

Definition rule_non_empty_modules (cfg : SecNodeConfig) : list Finding :=
  match modules cfg with
  | [] => [mk "R-NODE-001" ERROR "$.modules"
              [Lit "Node must contain at least one module"]]
  | _ :: _ => []
  end.

(** *** R-MOD-001 *)

Definition invalid_class (mod_name cls : string) : Finding :=
  mk_hint "R-MOD-001" ERROR (mod_path mod_name ++ ".interface_classes")
    [Lit "Invalid interface class '"; Lit cls; Lit "'"]
    [Lit "Allowed values are: Readable, Writable, Drivable. ";
     Lit "Readable is implicit in Writable, and Writable is implicit in Drivable."].

Definition not_one_class (mod_name : string) : Finding :=
  mk_hint "R-MOD-001" ERROR (mod_path mod_name ++ ".interface_classes")
    [Lit "interface_classes must be a list with exactly one element"]
    [Lit "Use exactly one of: ['Readable'], ['Writable'], or ['Drivable']. ";
     Lit "Readable is implicit in Writable, and Writable is implicit in Drivable."].

Definition rule_interface_classes_single_body (mod_name : string)
  (m : Module_) : list Finding :=
  match interface_classes m with
  | [cls] =>
      if negb (str_in cls ["Readable"; "Writable"; "Drivable"])
      then [invalid_class mod_name cls]
      else []
  | _ => (* len(classes) != 1 *) [not_one_class mod_name]
  end.

Definition rule_interface_classes_single : SecNodeConfig -> list Finding :=
  for_each_module rule_interface_classes_single_body.

(** *** R-MOD-002 *)

Definition rule_features_and_offset_not_supported_on_plc_body
  (mod_name : string) (m : Module_) : list Finding :=
  let feats := features m in
  let unknown := filter (fun f => negb (f =? "HasOffset")%string) feats in
  (match unknown with
   | [] => []
   | _ :: _ =>
       [mk_hint "R-MOD-002" ERROR (mod_path mod_name ++ ".features")
          [Lit "Unsupported feature(s) in module.features (not implemented on this PLC SEC node)."]
          [Lit "Only supported protocol feature name is 'HasOffset' (but PLC does not implement it). Unknown=";
           FmtList unknown]]
   end) ++
  (if str_in "HasOffset" feats then
     [mk_hint "R-MOD-002" ERROR (mod_path mod_name ++ ".features")
        [Lit "features includes 'HasOffset', but this PLC SEC node does not implement HasOffset."]
        [Lit "For PLC nodes, offset/scaling/format conversions should be handled directly in PLC logic; provide the final scaled value via 'value'."]]
   else []) ++
  (if contains "offset" (accessibles m) then
     [mk_hint "R-MOD-002" ERROR (mod_path mod_name ++ ".accessibles.offset")
        [Lit "Module defines 'offset', but this PLC SEC node does not implement the offset accessible."]
        [Lit "For PLC nodes, apply offsets in PLC logic and expose only the final scaled value via 'value'."]]
   else []).

Definition rule_features_and_offset_not_supported_on_plc
  : SecNodeConfig -> list Finding :=
  for_each_module rule_features_and_offset_not_supported_on_plc_body.

(** *** R-CLS-001 / R-CLS-002 / R-CLS-003 *)

Definition missing_readable (mod_name : string) (missing : list string)
  : Finding :=
  mk_hint "R-CLS-001" ERROR (mod_path mod_name ++ ".accessibles")
    [Lit "Readable modules must define value/status/pollinterval"]
    [Lit "Missing: "; FmtList missing].

Definition missing_target (mod_name : string) : Finding :=
  mk "R-CLS-002" ERROR (mod_path mod_name ++ ".accessibles.target")
     [Lit "Writable/Drivable modules must define target"].

Definition missing_stop (mod_name : string) : Finding :=
  mk "R-CLS-003" ERROR (mod_path mod_name ++ ".accessibles.stop")
     [Lit "Drivable modules must define stop command"].

(** [[k for k in ("value", "status", "pollinterval") if k not in accs]] *)
Definition missing_of (accs : dict Accessible) : list string :=
  filter (fun k => negb (contains k accs)) ["value"; "status"; "pollinterval"].

Definition rule_required_accessibles_body (mod_name : string) (m : Module_)
  : list Finding :=
  let accs := accessibles m in
  (if _is_readable m then
     let missing := missing_of accs in
     match missing with
     | [] => []
     | _ :: _ => [missing_readable mod_name missing]
     end
   else []) ++
  (if _is_writable m && negb (contains "target" accs)
   then [missing_target mod_name] else []) ++
  (if _is_drivable m && negb (contains "stop" accs)
   then [missing_stop mod_name] else []).

Definition rule_required_accessibles : SecNodeConfig -> list Finding :=
  for_each_module rule_required_accessibles_body.

(** *** R-CLS-004 *)

Definition allowed_by_class : dict (list string) :=
  [("Readable", ["value"; "status"; "pollinterval"; "clear_errors"]);
   ("Writable", ["value"; "status"; "pollinterval"; "target";
                 "target_limits"; "clear_errors"]);
   ("Drivable", ["value"; "status"; "pollinterval"; "target";
                 "target_limits"; "clear_errors"; "stop"])].

Definition forbidden_finding (mod_name cls acc : string) : Finding :=
  mk_hint "R-CLS-004" ERROR (acc_path mod_name acc)
    [Lit "Accessible '"; Lit acc;
     Lit "' is not allowed for interface class '"; Lit cls; Lit "'"]
    [Lit "Supported non-customised accessibles are: ";
     Lit "Readable: value, status, pollinterval, clear_errors; ";
     Lit "Writable: Readable + target, target_limits; ";
     Lit "Drivable: Writable + stop."].

(** One iteration of the module loop. [mod.interface_classes[0]] raises
    [IndexError] on an empty list. *)
Definition rule_forbidden_accessibles_by_class_body (mod_name : string)
  (m : Module_) : result (list Finding) :=
  match interface_classes m with
  | [] => Raise IndexError
  | cls :: _ =>
      let allowed :=
        match get allowed_by_class cls with
        | Some s => s
        | None => []
        end in
      Ok (flat_map
            (fun acc =>
               if startswith acc "_" then []
               else if negb (str_in acc allowed)
                    then [forbidden_finding mod_name cls acc]
                    else [])
            (keys (accessibles m)))
  end.

(** The module loop, with the findings gathered so far. *)
Fixpoint rule_forbidden_accessibles_by_class_loop (mods : dict Module_)
  (findings : list Finding) : result (list Finding) :=
  match mods with
  | [] => Ok findings
  | (mod_name, m) :: rest =>
      fs <- rule_forbidden_accessibles_by_class_body mod_name m ;;
      rule_forbidden_accessibles_by_class_loop rest (findings ++ fs)
  end.

Definition rule_forbidden_accessibles_by_class (cfg : SecNodeConfig)
  : result (list Finding) :=
  rule_forbidden_accessibles_by_class_loop (modules cfg) [].

(** *** R-STAT-001 .. R-STAT-005 *)

Definition base_required : dict Z :=
  [("IDLE", 100); ("WARN", 200); ("ERROR", 400)].

Definition allowed_status_keys : list string :=
  ["DISABLED"; "IDLE"; "WARN"; "BUSY"; "ERROR"].

Definition status_members_path (mod_name : string) : string :=
  mod_path mod_name ++ ".accessibles.status.datainfo.members[0].members".

Definition stat_rid (key : string) : string :=
  if (key =? "BUSY")%string then "R-STAT-003" else "R-STAT-002".

Definition missing_code (mod_name key : string) (expected : Z) : Finding :=
  mk (stat_rid key) ERROR (status_members_path mod_name)
     [Lit key; Lit ":"; FmtInt expected; Lit " is required"].

Definition wrong_code (mod_name key : string) (expected : Z)
  (actual : option json) : Finding :=
  mk_hint (stat_rid key) ERROR (status_members_path mod_name)
    [Lit "Wrong status code for '"; Lit key; Lit "': expected ";
     FmtInt expected; Lit ", got "; FmtVal actual]
    [Lit "Status codes are fixed by the SECoP protocol."].

Definition busy_forbidden (mod_name : string) : Finding :=
  mk "R-STAT-003" ERROR (status_members_path mod_name)
     [Lit "BUSY is forbidden for non-Drivable modules"].

Definition wrong_disabled_code (mod_name : string) (actual : option json)
  : Finding :=
  mk_hint "R-STAT-004" ERROR (status_members_path mod_name)
    [Lit "Wrong status code for 'DISABLED': expected 0, got "; FmtVal actual]
    [Lit "DISABLED status code is fixed by the SECoP protocol."].

Definition extra_members (mod_name : string) (extra_keys : list string)
  : Finding :=
  mk "R-STAT-005" WARNING (status_members_path mod_name)
     [Lit "Status enum contains unsupported members for current PLC SEC node version; ";
      Lit "they will be ignored by the generator. Extra=";
      FmtList extra_keys].

(** Step 2a for one expected key: missing, or present with a wrong code. *)
Definition check_expected_code (mod_name : string) (enum_members : dict json)
  (key : string) (expected : Z) : list Finding :=
  if negb (contains key enum_members) then
    [missing_code mod_name key expected]
  else
    let actual := get enum_members key in
    if negb (opt_eq_int actual expected)
    then [wrong_code mod_name key expected actual]
    else [].

(** Step 2: the expected codes, BUSY among them iff Drivable. *)
Definition expected_codes (m : Module_) : dict Z :=
  if _is_drivable m then set base_required "BUSY" 300 else base_required.

(** Step 3: forbidden keys. *)
Definition check_forbidden_busy (mod_name : string) (m : Module_)
  (enum_members : dict json) : list Finding :=
  if negb (_is_drivable m) && contains "BUSY" enum_members
  then [busy_forbidden mod_name] else [].

(** Step 4: DISABLED, if present, must use the fixed code 0. *)
Definition check_disabled_code (mod_name : string)
  (enum_members : dict json) : list Finding :=
  if contains "DISABLED" enum_members
     && negb (opt_eq_int (get enum_members "DISABLED") 0)
  then [wrong_disabled_code mod_name (get enum_members "DISABLED")]
  else [].

(** Step 5: extra status codes (WARNING). *)
Definition check_extra_keys (mod_name : string) (enum_members : dict json)
  : list Finding :=
  let extra_keys :=
    sorted (filter (fun k => negb (str_in k allowed_status_keys))
                   (keys enum_members)) in
  match extra_keys with
  | [] => []
  | _ :: _ => [extra_members mod_name extra_keys]
  end.

(** Steps 2 to 5, once the structure tuple(enum, string) is established.
    ([disabled_expr] is computed by the source here and not used.) *)
Definition check_status_codes (mod_name : string) (m : Module_)
  (enum_members : dict json) : list Finding :=
  let disabled_expr :=
    match mod_x_plc m with
    | Some xplc =>
        match xp_status xplc with
        | Some st => strip (or_empty (disabled_expr st))
        | None => ""
        end
    | None => ""
    end in
  flat_map (fun '(key, expected) =>
              check_expected_code mod_name enum_members key expected)
           (expected_codes m) ++
  check_forbidden_busy mod_name m enum_members ++
  check_disabled_code mod_name enum_members ++
  check_extra_keys mod_name enum_members.

(** The elements of a tuple's [members] are dicts by the Schema Model's
    type, so [isinstance(member0, dict)] holds. *)
Definition rule_status_structure_and_codes_body (mod_name : string)
  (m : Module_) : list Finding :=
  match get (accessibles m) "status" with
  | None => []
  | Some status =>
      let di := datainfo status in
      if negb (di_type di =? "tuple")%string then
        [mk "R-STAT-001" ERROR
            (mod_path mod_name ++ ".accessibles.status.datainfo.type")
            [Lit "status must be datainfo.type == 'tuple'"]]
      else
        match di_members di with
        | Some (MembersList [member0; member1]) =>
            if negb (opt_eq_str (get member0 "type") "enum") then
              [mk "R-STAT-001" ERROR
                  (mod_path mod_name ++ ".accessibles.status.datainfo.members[0]")
                  [Lit "status.members[0] must be an enum definition"]]
            else if negb (opt_eq_str (get member1 "type") "string") then
              [mk "R-STAT-001" ERROR
                  (mod_path mod_name ++ ".accessibles.status.datainfo.members[1]")
                  [Lit "status.members[1] must be a string definition"]]
            else
              match get member0 "members" with
              | Some (JDict enum_members) =>
                  check_status_codes mod_name m enum_members
              | _ =>
                  [mk "R-STAT-001" ERROR (status_members_path mod_name)
                      [Lit "status enum members must be a dictionary"]]
              end
        | _ =>
            [mk "R-STAT-001" ERROR
                (mod_path mod_name ++ ".accessibles.status.datainfo.members")
                [Lit "status must be tuple(enum,string) with exactly 2 members, as defined by the protocol"]]
        end
  end.

Definition rule_status_structure_and_codes : SecNodeConfig -> list Finding :=
  for_each_module rule_status_structure_and_codes_body.

(** *** R-ACC-001 *)

Definition rule_custom_command_accessibles_warn_body
  (mod_name acc_name : string) (acc : Accessible) : list Finding :=
  if startswith acc_name "_" && (di_type (datainfo acc) =? "command")%string
  then
    [mk_hint "R-ACC-001" WARNING (acc_path mod_name acc_name)
       [Lit "Custom command accessible '"; Lit acc_name;
        Lit "' is not generated automatically; ";
        Lit "the generator will emit placeholders and the developer must implement it manually."]
       [Lit "Implement the command behaviour manually in the PLC project (or follow the demo patterns)."]]
  else [].

Definition rule_custom_command_accessibles_warn
  : SecNodeConfig -> list Finding :=
  for_each_accessible rule_custom_command_accessibles_warn_body.

(** *** R-ACC-002 *)

Definition is_members_dict (o : option Members) : bool :=
  match o with Some (MembersDict _) => true | _ => false end.

Definition is_members_list (o : option Members) : bool :=
  match o with Some (MembersList _) => true | _ => false end.

Definition rule_accessible_members_by_type_body
  (mod_name acc_name : string) (acc : Accessible) : list Finding :=
  let di := datainfo acc in
  let p := acc_path mod_name acc_name ++ ".datainfo.members" in
  if (di_type di =? "enum")%string then
    if negb (is_members_dict (di_members di)) then
      [mk "R-ACC-002" ERROR p
          [Lit "Invalid datainfo.members for type 'enum' (must be a dict)."]]
    else []
  else if (di_type di =? "tuple")%string then
    if negb (is_members_list (di_members di)) then
      [mk "R-ACC-002" ERROR p
          [Lit "Invalid datainfo.members for type 'tuple' (must be a list)."]]
    else []
  else if (di_type di =? "array")%string then
    if negb (is_members_dict (di_members di)) then
      [mk "R-ACC-002" ERROR p
          [Lit "Invalid datainfo.members for type 'array' (must be an object/dict)."]]
    else []
  else [].

Definition rule_accessible_members_by_type : SecNodeConfig -> list Finding :=
  for_each_accessible rule_accessible_members_by_type_body.

(** *** R-ACC-003 *)

Definition range_finding (mod_name acc_name : string) : Finding :=
  mk "R-ACC-003" ERROR (acc_path mod_name acc_name ++ ".datainfo")
     [Lit "Invalid numeric range: min must be < max."].

Definition rule_numeric_ranges_coherent_body
  (mod_name acc_name : string) (acc : Accessible) : list Finding :=
  let di := datainfo acc in
  match di_min di, di_max di with
  | Some lo, Some hi =>
      if float_ge lo hi then [range_finding mod_name acc_name] else []
  | _, _ => []
  end.

Definition rule_numeric_ranges_coherent : SecNodeConfig -> list Finding :=
  for_each_accessible rule_numeric_ranges_coherent_body.

(** *** R-ACC-004 *)

Definition rule_target_limits_within_target_body (mod_name : string)
  (m : Module_) : list Finding :=
  let accs := accessibles m in
  match get accs "target", get accs "target_limits" with
  | Some target, Some target_limits =>
      let target_di := datainfo target in
      let limits_di := datainfo target_limits in
      let p := mod_path mod_name ++ ".accessibles.target_limits.datainfo" in
      (match di_min target_di, di_min limits_di with
       | Some tmin, Some lmin =>
           if float_lt lmin tmin then
             [mk "R-ACC-004" ERROR p
                 [Lit "target_limits.min must be >= target.min (target_limits restricts target)."]]
           else []
       | _, _ => []
       end) ++
      (match di_max target_di, di_max limits_di with
       | Some tmax, Some lmax =>
           if float_gt lmax tmax then
             [mk "R-ACC-004" ERROR p
                 [Lit "target_limits.max must be <= target.max (target_limits restricts target)."]]
           else []
       | _, _ => []
       end)
  | _, _ => []
  end.

Definition rule_target_limits_within_target : SecNodeConfig -> list Finding :=
  for_each_module rule_target_limits_within_target_body.

(** *** R-ACC-005 / R-ACC-006 *)

Definition missing_or_not_positive (o : option Z) : bool :=
  match o with
  | None => true
  | Some n => n <=? 0
  end.

Definition rule_string_requires_maxchars_body
  (mod_name acc_name : string) (acc : Accessible) : list Finding :=
  let di := datainfo acc in
  if (di_type di =? "string")%string
     && missing_or_not_positive (di_maxchars di) then
    [mk_hint "R-ACC-005" ERROR
       (acc_path mod_name acc_name ++ ".datainfo.maxchars")
       [Lit "datainfo.maxchars is required (>0) when datainfo.type == 'string'."]
       [Lit "Set maxchars so the generator can declare a PLC STRING with a fixed length."]]
  else [].

Definition rule_string_requires_maxchars : SecNodeConfig -> list Finding :=
  for_each_accessible rule_string_requires_maxchars_body.

Definition rule_array_requires_maxlen_body
  (mod_name acc_name : string) (acc : Accessible) : list Finding :=
  let di := datainfo acc in
  if (di_type di =? "array")%string
     && missing_or_not_positive (di_maxlen di) then
    [mk_hint "R-ACC-006" ERROR
       (acc_path mod_name acc_name ++ ".datainfo.maxlen")
       [Lit "datainfo.maxlen is required (>0) when datainfo.type == 'array'."]
       [Lit "Set maxlen so the generator can declare a PLC ARRAY with a fixed length."]]
  else [].

Definition rule_array_requires_maxlen : SecNodeConfig -> list Finding :=
  for_each_accessible rule_array_requires_maxlen_body.

(** *** R-ACC-007 *)

(** [name in accs and accs[name].readonly is not <want>] *)
Definition readonly_is_not (accs : dict Accessible) (name : string)
  (want : bool) : bool :=
  match get accs name with
  | Some acc => negb (Bool.eqb (readonly acc) want)
  | None => false
  end.

Definition readonly_finding (mod_name name : string) (msg : string)
  : Finding :=
  mk "R-ACC-007" ERROR (acc_path mod_name name ++ ".readonly") [Lit msg].

Definition rule_standard_accessible_readonly_policy_body (mod_name : string)
  (m : Module_) : list Finding :=
  let accs := accessibles m in
  (if readonly_is_not accs "value" true then
     [readonly_finding mod_name "value"
        "Accessible 'value' must have readonly=true."]
   else []) ++
  (if readonly_is_not accs "status" true then
     [readonly_finding mod_name "status"
        "Accessible 'status' must have readonly=true."]
   else []) ++
  (if readonly_is_not accs "target" false then
     [readonly_finding mod_name "target"
        "Accessible 'target' must have readonly=false."]
   else []).

Definition rule_standard_accessible_readonly_policy
  : SecNodeConfig -> list Finding :=
  for_each_module rule_standard_accessible_readonly_policy_body.

(** *** R-ACC-008 *)

Definition rule_target_datainfo_type_matches_value_body (mod_name : string)
  (m : Module_) : list Finding :=
  if negb (_is_writable m) then []
  else
    let accs := accessibles m in
    match get accs "value", get accs "target" with
    | Some value, Some target =>
        let value_type := strip (di_type (datainfo value)) in
        let target_type := strip (di_type (datainfo target)) in
        (if negb (target_type =? value_type)%string then
           [mk_hint "R-ACC-008" ERROR
              (mod_path mod_name ++ ".accessibles.target.datainfo.type")
              [Lit "target.datainfo.type must match value.datainfo.type"]
              [Lit "value.type='"; Lit value_type; Lit "', target.type='";
               Lit target_type; Lit "'"]]
         else []) ++
        (match get accs "target_limits" with
         | Some target_limits =>
             let lim_type := strip (di_type (datainfo target_limits)) in
             if negb (lim_type =? value_type)%string then
               [mk_hint "R-ACC-008" ERROR
                  (mod_path mod_name ++ ".accessibles.target_limits.datainfo.type")
                  [Lit "target_limits.datainfo.type must match value.datainfo.type"]
                  [Lit "value.type='"; Lit value_type;
                   Lit "', target_limits.type='"; Lit lim_type; Lit "'"]]
             else []
         | None => []
         end)
    | _, _ => []
    end.

Definition rule_target_datainfo_type_matches_value
  : SecNodeConfig -> list Finding :=
  for_each_module rule_target_datainfo_type_matches_value_body.

(** *** R-ACC-009 *)

Definition rule_checkable_requires_manual_plc_body
  (mod_name acc_name : string) (acc : Accessible) : list Finding :=
  match checkable acc with
  | Some true =>
      [mk_impl "R-ACC-009" WARNING (acc_path mod_name acc_name ++ ".checkable")
         [Lit "checkable=true requires manual PLC implementation (generator will emit placeholders)"]
         ["ST_Module_" ++ mod_name]]
  | _ => []
  end.

Definition rule_checkable_requires_manual_plc
  : SecNodeConfig -> list Finding :=
  for_each_accessible rule_checkable_requires_manual_plc_body.

(** *** R-ACC-010 *)

(** One iteration of [for sub_name in ("argument", "result")]. *)
Definition check_command_sub (mod_name acc_name sub_name : string)
  (sub : option DataInfo) : list Finding :=
  match sub with
  | None => []
  | Some d =>
      let sub_type := strip (di_type d) in
      let p := acc_path mod_name acc_name ++ ".datainfo." ++ sub_name
               ++ ".type" in
      if (sub_type =? "")%string then
        [mk "R-ACC-010" ERROR p
            [Lit "Invalid command datainfo: '"; Lit sub_name;
             Lit "' must define 'type'."]]
      else if negb (str_in sub_type ALLOWED_TYPES_THIS_CODEGEN) then
        [mk_hint "R-ACC-010" ERROR p
           [Lit "Invalid command datainfo: '"; Lit sub_name;
            Lit ".type' is not supported on this PLC SEC node."]
           [Lit "Allowed types (this generator): ";
            FmtList (sorted ALLOWED_TYPES_THIS_CODEGEN)]]
      else []
  end.

Definition rule_command_datainfo_shape_body
  (mod_name acc_name : string) (acc : Accessible) : list Finding :=
  let di := datainfo acc in
  if negb (strip (di_type di) =? "command")%string then []
  else
    (if is_some (di_unit di) || is_some (di_min di) || is_some (di_max di)
        || is_some (di_maxchars di) || is_some (di_maxlen di)
        || is_some (di_members di)
     then
       [mk "R-ACC-010" ERROR (acc_path mod_name acc_name ++ ".datainfo")
           [Lit "Invalid command datainfo: only 'argument' and/or 'result' are allowed as optional fields."]]
     else []) ++
    check_command_sub mod_name acc_name "argument" (di_argument di) ++
    check_command_sub mod_name acc_name "result" (di_result di).

Definition rule_command_datainfo_shape : SecNodeConfig -> list Finding :=
  for_each_accessible rule_command_datainfo_shape_body.

(** *** R-DI-001 *)

Definition rule_datainfo_type_supported_body
  (mod_name acc_name : string) (acc : Accessible) : list Finding :=
  let allowed_sorted := sorted ALLOWED_TYPES_THIS_CODEGEN in
  let di := datainfo acc in
  let t := strip (di_type di) in
  let p := acc_path mod_name acc_name ++ ".datainfo.type" in
  if str_in t PLC_UNSUPPORTED_TYPES then
    [mk_hint "R-DI-001" ERROR p
       [Lit "type not required/supported on current sec node plc version"]
       [Lit "Allowed types (this generator): "; FmtList allowed_sorted]]
  else if negb (str_in t PROTOCOL_TYPES) then
    [mk_hint "R-DI-001" ERROR p
       [Lit "datainfo.type '"; Lit t;
        Lit "' is not defined by the SECoP protocol"]
       [Lit "Allowed types (this generator): "; FmtList allowed_sorted]]
  else [].

Definition rule_datainfo_type_supported : SecNodeConfig -> list Finding :=
  for_each_accessible rule_datainfo_type_supported_body.

End SecopRules.

(* ===================================================================== *)
(** ** codegen/rules/plc_rules.py: tooling rules                          *)
(* ===================================================================== *)

Module PlcRules.
Import Py Model Types.
(* The module loop and the path helpers are those of the protocol rules;
   [_is_drivable] below is this file's own, on the list of classes. *)
Import SecopRules.

Definition IMPLEMENTATION_WARNING_SUFFIX : string :=
  "Manual PLC implementation will be required. Refer to generated tasks list.".

Definition _is_empty (value : option string) : bool :=
  match value with
  | None => true
  | Some s => (strip s =? "")%string
  end.

Definition _is_drivable (interface_classes : list string) : bool :=
  str_in "Drivable" interface_classes.

(** The status enum members if status is tuple(enum, string), else None.
    (Only the tuple's length and its first member are inspected.) *)
Definition _status_enum_members (m : Module_) : option (dict json) :=
  match get (accessibles m) "status" with
  | None => None
  | Some status =>
      let di := datainfo status in
      if negb (di_type di =? "tuple")%string then None
      else
        match di_members di with
        | Some (MembersList [m0; _]) =>
            if negb (opt_eq_str (get m0 "type") "enum") then None
            else
              match get m0 "members" with
              | Some (JDict enum_members) => Some enum_members
              | _ => None
              end
        | _ => None
        end
  end.

(** The warning every "not configured" check emits. *)
Definition not_configured (rid p field : string) (refs : list string)
  : Finding :=
  mk_impl rid WARNING p
    [Lit "The field "; Lit field; Lit " is not configured. ";
     Lit IMPLEMENTATION_WARNING_SUFFIX]
    refs.

(** *** R-PLC-001 *)

Definition xplc_to_acc : dict string :=
  [("value", "value"); ("status", "status"); ("target", "target");
   ("clear_errors", "clear_errors")].

(** [getattr(xplc, x_key, None) is not None] *)
Definition xplc_has (xplc : PlcModuleConfig) (x_key : string) : bool :=
  if (x_key =? "value")%string then is_some (xp_value xplc)
  else if (x_key =? "status")%string then is_some (xp_status xplc)
  else if (x_key =? "target")%string then is_some (xp_target xplc)
  else if (x_key =? "clear_errors")%string then is_some (xp_clear_errors xplc)
  else if (x_key =? "timestamp_tag")%string then is_some (timestamp_tag xplc)
  else false.

Definition rule_xplc_keys_exist_in_secop_accessibles_body
  (mod_name : string) (m : Module_) : list Finding :=
  match mod_x_plc m with
  | None => []
  | Some xplc =>
      let secop_accs := accessibles m in
      flat_map
        (fun '(x_key, acc_key) =>
           if negb (xplc_has xplc x_key) then []
           else if negb (contains acc_key secop_accs) then
             [mk_hint "R-PLC-001" ERROR
                (mod_path mod_name ++ ".x-plc." ++ x_key)
                [Lit "x-plc."; Lit x_key;
                 Lit " is present but the SECoP accessible '"; Lit acc_key;
                 Lit "' is missing"]
                [Lit "Either remove x-plc."; Lit x_key; Lit " or add '";
                 Lit acc_key; Lit "' under "; Lit "modules."; Lit mod_name;
                 Lit ".accessibles."]]
           else [])
        xplc_to_acc
  end.

Definition rule_xplc_keys_exist_in_secop_accessibles
  : SecNodeConfig -> list Finding :=
  for_each_module rule_xplc_keys_exist_in_secop_accessibles_body.

(** *** R-PLC-010 *)

Definition rule_xplc_node_fields_configured (cfg : SecNodeConfig)
  : list Finding :=
  match x_plc cfg with
  | None => []
  | Some xplc =>
      match tcp xplc with
      | None =>
          (* the function returns here *)
          [not_configured "R-PLC-010" "$.x-plc.tcp" "x-plc.tcp"
             ["SecopInit"]]
      | Some tcp =>
          (if _is_empty (server_ip tcp) then
             [not_configured "R-PLC-010" "$.x-plc.tcp.server_ip"
                "x-plc.tcp.server_ip" ["SecopInit"]]
           else []) ++
          (if negb (is_some (server_port tcp)) then
             [not_configured "R-PLC-010" "$.x-plc.tcp.server_port"
                "x-plc.tcp.server_port" ["SecopInit"]]
           else []) ++
          (if _is_empty (interface_healthy_tag tcp) then
             [not_configured "R-PLC-010" "$.x-plc.tcp.interface_healthy_tag"
                "x-plc.tcp.interface_healthy_tag" ["SecopMapFromPlc"]]
           else []) ++
          (if _is_empty (secop_version xplc) then
             [not_configured "R-PLC-010" "$.x-plc.secop_version"
                "x-plc.secop_version" ["SecopInit"]]
           else []) ++
          (if _is_empty (plc_timestamp_tag xplc) then
             [not_configured "R-PLC-010" "$.x-plc.plc_timestamp_tag"
                "x-plc.plc_timestamp_tag" ["SecopMapFromPlc"]]
           else [])
      end
  end.

(** *** R-PLC-020 *)

Definition rule_xplc_module_timestamp_tag_configured_body
  (mod_name : string) (m : Module_) : list Finding :=
  match mod_x_plc m with
  | None => []
  | Some xplc =>
      if _is_empty (timestamp_tag xplc) then
        [not_configured "R-PLC-020"
           (mod_path mod_name ++ ".x-plc.timestamp_tag")
           "x-plc.timestamp_tag" ["SecopMapFromPlc"]]
      else []
  end.

Definition rule_xplc_module_timestamp_tag_configured
  : SecNodeConfig -> list Finding :=
  for_each_module rule_xplc_module_timestamp_tag_configured_body.

(** The module's [x-plc.status], when both [x-plc] and it are given:
    the guard [if not xplc or xplc.status is None: continue]. *)
Definition xplc_status (m : Module_) : option PlcStatusConfig :=
  match mod_x_plc m with
  | None => None
  | Some xplc => xp_status xplc
  end.

(** Likewise for [x-plc.target]. *)
Definition xplc_target (m : Module_) : option PlcTargetConfig :=
  match mod_x_plc m with
  | None => None
  | Some xplc => xp_target xplc
  end.

(** *** R-PLC-021 *)

Definition rule_xplc_status_hw_error_fields_configured_body
  (mod_name : string) (m : Module_) : list Finding :=
  match xplc_status m with
  | None => []
  | Some st =>
      (if _is_empty (hw_error_expr st) then
         [not_configured "R-PLC-021"
            (mod_path mod_name ++ ".x-plc.status.hw_error_expr")
            "x-plc.status.hw_error_expr" ["SecopMapFromPlc"]]
       else []) ++
      (if _is_empty (hw_error_description st) then
         [not_configured "R-PLC-021"
            (mod_path mod_name ++ ".x-plc.status.hw_error_description")
            "x-plc.status.hw_error_description" ["SecopMapFromPlc"]]
       else [])
  end.

Definition rule_xplc_status_hw_error_fields_configured
  : SecNodeConfig -> list Finding :=
  for_each_module rule_xplc_status_hw_error_fields_configured_body.

(** *** R-PLC-022 / R-PLC-023 *)

(** [(_status_enum_members(mod) or {}).get("DISABLED") == 0] *)
Definition status_has_disabled_0 (m : Module_) : bool :=
  let enum_members :=
    match _status_enum_members m with
    | Some d => d
    | None => []
    end in
  opt_eq_int (get enum_members "DISABLED") 0.

Definition disabled_error (mod_name : string) : Finding :=
  mk_hint "R-PLC-022" ERROR (mod_path mod_name ++ ".x-plc.status")
    [Lit "x-plc.status.disabled_* is present but status enum does not contain DISABLED:0."]
    [Lit "Add DISABLED:0 to status enum members or remove x-plc.status.disabled_* fields."].

Definition disabled_warning (mod_name field : string) : Finding :=
  mk_impl "R-PLC-023" WARNING
    (mod_path mod_name ++ ".x-plc.status." ++ field)
    [Lit "Status enum contains DISABLED:0, but x-plc.status.";
     Lit field; Lit " is not configured. ";
     Lit IMPLEMENTATION_WARNING_SUFFIX]
    ["SecopMapFromPlc"].

Definition rule_xplc_status_disabled_fields_coherent_body
  (mod_name : string) (m : Module_) : list Finding :=
  match xplc_status m with
  | None => []
  | Some st =>
      let disabled_expr_present := negb (_is_empty (disabled_expr st)) in
      let disabled_desc_present :=
        negb (_is_empty (disabled_description st)) in
      (if (disabled_expr_present || disabled_desc_present)
          && negb (status_has_disabled_0 m)
       then [disabled_error mod_name] else []) ++
      (if status_has_disabled_0 m then
         (if _is_empty (disabled_expr st)
          then [disabled_warning mod_name "disabled_expr"] else []) ++
         (if _is_empty (disabled_description st)
          then [disabled_warning mod_name "disabled_description"] else [])
       else [])
  end.

Definition rule_xplc_status_disabled_fields_coherent
  : SecNodeConfig -> list Finding :=
  for_each_module rule_xplc_status_disabled_fields_coherent_body.

(** *** R-PLC-026 *)

Definition rule_xplc_target_change_possible_expr_configured_body
  (mod_name : string) (m : Module_) : list Finding :=
  match xplc_target m with
  | None => []
  | Some tg =>
      if _is_empty (change_possible_expr tg) then
        [not_configured "R-PLC-026"
           (mod_path mod_name ++ ".x-plc.target.change_possible_expr")
           "x-plc.target.change_possible_expr" ["SecopMapFromPlc"]]
      else []
  end.

Definition rule_xplc_target_change_possible_expr_configured
  : SecNodeConfig -> list Finding :=
  for_each_module rule_xplc_target_change_possible_expr_configured_body.

(** *** R-PLC-024 / R-PLC-025 *)

(** [(accs[name].datainfo.type or "").strip()] when [name in accs],
    the initial value [""] otherwise. *)
Definition stripped_type_of (accs : dict Accessible) (name : string)
  : string :=
  match get accs name with
  | Some acc => strip (di_type (datainfo acc))
  | None => ""
  end.

Definition rule_xplc_target_reach_fields_body
  (mod_name : string) (m : Module_) : list Finding :=
  match xplc_target m with
  | None => []
  | Some tg =>
      let is_drv := _is_drivable (interface_classes m) in
      let target_type := stripped_type_of (accessibles m) "target" in
      (if is_some (reach_timeout_s tg) && negb is_drv then
         [mk_hint "R-PLC-024" ERROR
            (mod_path mod_name ++ ".x-plc.target.reach_timeout_s")
            [Lit "x-plc.target.reach_timeout_s is only allowed for Drivable modules."]
            [Lit "Remove reach_timeout_s or change module interface_classes to Drivable."]]
       else []) ++
      (if is_some (reach_abs_tolerance tg) && negb is_drv then
         [mk_hint "R-PLC-024" ERROR
            (mod_path mod_name ++ ".x-plc.target.reach_abs_tolerance")
            [Lit "x-plc.target.reach_abs_tolerance is only allowed for Drivable modules."]
            [Lit "Remove reach_abs_tolerance or change module interface_classes to Drivable."]]
       else []) ++
      (if negb is_drv then []
       else
         (if negb (is_some (reach_timeout_s tg)) then
            [not_configured "R-PLC-025"
               (mod_path mod_name ++ ".x-plc.target.reach_timeout_s")
               "x-plc.target.reach_timeout_s" ["SecopInit"]]
          else []) ++
         (if negb (target_type =? "enum")%string
             && negb (is_some (reach_abs_tolerance tg)) then
            [not_configured "R-PLC-025"
               (mod_path mod_name ++ ".x-plc.target.reach_abs_tolerance")
               "x-plc.target.reach_abs_tolerance" ["ST_Module_" ++ mod_name]]
          else []))
  end.

Definition rule_xplc_target_reach_fields : SecNodeConfig -> list Finding :=
  for_each_module rule_xplc_target_reach_fields_body.

(** *** R-PLC-030 / R-PLC-031 *)

(** [bool(cfg and (cfg.field or "").strip())] *)
Definition has_text {C} (c : option C) (field : C -> option string) : bool :=
  match c with
  | None => false
  | Some c => negb (strip (or_empty (field c)) =? "")%string
  end.

(** [bool(v_cfg and v_cfg.enum_member_map)] *)
Definition has_map (c : option PlcValueConfig) : bool :=
  match c with
  | None => false
  | Some c =>
      match enum_member_map c with
      | Some (_ :: _) => true
      | _ => false
      end
  end.

Definition rule_xplc_value_mapping_by_type_body
  (mod_name : string) (m : Module_) : list Finding :=
  match mod_x_plc m with
  | None => []
  | Some xplc =>
      match get (accessibles m) "value" with
      | None => []
      | Some value =>
          let v_type := strip (di_type (datainfo value)) in
          let v_cfg := xp_value xplc in
          let has_read_expr := has_text v_cfg read_expr in
          let has_enum_tag := has_text v_cfg val_enum_tag in
          let has_enum_map := has_map v_cfg in
          if (v_type =? "enum")%string then
            (if has_read_expr then
               [mk_hint "R-PLC-030" ERROR
                  (mod_path mod_name ++ ".x-plc.value.read_expr")
                  [Lit "Invalid x-plc.value: SECoP value is enum, so read_expr must not be defined."]
                  [Lit "Use x-plc.value.enum_tag + x-plc.value.enum_member_map for enum values."]]
             else []) ++
            (if negb (has_enum_tag && has_enum_map) then
               [mk_impl "R-PLC-031" WARNING
                  (mod_path mod_name ++ ".x-plc.value")
                  [Lit "The field x-plc.value (enum mapping) is not configured. ";
                   Lit IMPLEMENTATION_WARNING_SUFFIX]
                  ["SecopMapFromPlc"; "ET_Module_" ++ mod_name]]
             else [])
          else
            (if has_enum_tag || has_enum_map then
               [mk_hint "R-PLC-030" ERROR
                  (mod_path mod_name ++ ".x-plc.value")
                  [Lit "Invalid x-plc.value: SECoP value is type '";
                   Lit v_type; Lit "', ";
                   Lit "so enum_tag/enum_member_map must not be defined."]
                  [Lit "Use x-plc.value.read_expr for non-enum values."]]
             else []) ++
            (if negb has_read_expr then
               [not_configured "R-PLC-031"
                  (mod_path mod_name ++ ".x-plc.value.read_expr")
                  "x-plc.value.read_expr" ["SecopMapFromPlc"]]
             else [])
      end
  end.

Definition rule_xplc_value_mapping_by_type : SecNodeConfig -> list Finding :=
  for_each_module rule_xplc_value_mapping_by_type_body.

(** *** R-PLC-032 / R-PLC-033 *)

Definition write_stmt_on_enum (mod_name : string) : Finding :=
  mk_hint "R-PLC-032" ERROR (mod_path mod_name ++ ".x-plc.target.write_stmt")
    [Lit "Invalid x-plc.target: SECoP target is enum, so write_stmt must not be defined."]
    [Lit "Use x-plc.target.enum_tag for enum targets."].

Definition enum_tag_missing (mod_name : string) : Finding :=
  not_configured "R-PLC-033" (mod_path mod_name ++ ".x-plc.target.enum_tag")
    "x-plc.target.enum_tag" ["SecopMapToPlc"].

Definition tolerance_on_enum (mod_name : string) : Finding :=
  mk_hint "R-PLC-032" ERROR
    (mod_path mod_name ++ ".x-plc.target.reach_abs_tolerance")
    [Lit "Invalid x-plc.target.reach_abs_tolerance: enum targets must not use reach_abs_tolerance."]
    [Lit "Remove reach_abs_tolerance for enum targets."].

Definition enum_tag_on_non_enum (mod_name t_type : string) : Finding :=
  mk_hint "R-PLC-032" ERROR (mod_path mod_name ++ ".x-plc.target.enum_tag")
    [Lit "Invalid x-plc.target: SECoP target is type '"; Lit t_type;
     Lit "', so enum_tag must not be defined."]
    [Lit "Use x-plc.target.write_stmt for non-enum targets."].

Definition write_stmt_missing (mod_name : string) : Finding :=
  not_configured "R-PLC-033" (mod_path mod_name ++ ".x-plc.target.write_stmt")
    "x-plc.target.write_stmt" ["SecopMapToPlc"].

(** [t_cfg is not None and t_cfg.reach_abs_tolerance is not None] *)
Definition has_tolerance (t_cfg : option PlcTargetConfig) : bool :=
  match t_cfg with
  | None => false
  | Some c => is_some (reach_abs_tolerance c)
  end.

Definition rule_xplc_target_mapping_by_type_body
  (mod_name : string) (m : Module_) : list Finding :=
  match mod_x_plc m with
  | None => []
  | Some xplc =>
      match get (accessibles m) "target" with
      | None => []
      | Some target =>
          let t_type := strip (di_type (datainfo target)) in
          let t_cfg := xp_target xplc in
          let has_write_stmt := has_text t_cfg write_stmt in
          let has_enum_tag := has_text t_cfg tgt_enum_tag in
          if (t_type =? "enum")%string then
            (if has_write_stmt then [write_stmt_on_enum mod_name] else []) ++
            (if negb has_enum_tag then [enum_tag_missing mod_name] else []) ++
            (if has_tolerance t_cfg then [tolerance_on_enum mod_name] else [])
          else
            (if has_enum_tag then [enum_tag_on_non_enum mod_name t_type]
             else []) ++
            (if negb has_write_stmt then [write_stmt_missing mod_name]
             else [])
      end
  end.

Definition rule_xplc_target_mapping_by_type : SecNodeConfig -> list Finding :=
  for_each_module rule_xplc_target_mapping_by_type_body.

(** *** R-PLC-040 *)

Definition clear_errors_finding (mod_name p : string) : Finding :=
  mk_impl "R-PLC-040" WARNING p
    [Lit "Missing PLC command statement for "; Lit mod_name;
     Lit ".clear_errors. ";
     Lit "The generator will clear SECoP ErrorReport only (by default). ";
     Lit "If you would like the command to perform an extra action, write it in cmd_stmt."]
    ["SecopMapToPlc"].

Definition rule_xplc_clear_errors_cmd_stmt_optional_body
  (mod_name : string) (m : Module_) : list Finding :=
  if negb (contains "clear_errors" (accessibles m)) then []
  else
    match mod_x_plc m with
    | None =>
        [clear_errors_finding mod_name (mod_path mod_name ++ ".x-plc.clear_errors")]
    | Some xplc =>
        match xp_clear_errors xplc with
        | None =>
            [clear_errors_finding mod_name
               (mod_path mod_name ++ ".x-plc.clear_errors")]
        | Some ce =>
            if _is_empty (cmd_stmt ce) then
              [clear_errors_finding mod_name
                 (mod_path mod_name ++ ".x-plc.clear_errors.cmd_stmt")]
            else []
        end
    end.

Definition rule_xplc_clear_errors_cmd_stmt_optional
  : SecNodeConfig -> list Finding :=
  for_each_module rule_xplc_clear_errors_cmd_stmt_optional_body.

End PlcRules.

(* ===================================================================== *)
(** ** codegen/validators/validate_config.py: the orchestrator            *)
(* ===================================================================== *)

Module Validate.
Import Py Model Types SecopRules PlcRules.

(** [findings.extend(more)] *)
Definition extend (findings more : list Finding) : list Finding :=
  findings ++ more.

(** [findings.extend(rule(cfg))] for each rule of the catalog in turn; an
    exception raised by a rule leaves [validate_config]. *)
Definition validate_config (cfg : SecNodeConfig) : result (list Finding) :=
  let findings : list Finding := [] in
  (* --- SECoP rules --- *)
  let findings := extend findings (rule_non_empty_modules cfg) in
  let findings := extend findings (rule_interface_classes_single cfg) in
  let findings := extend findings (rule_features_and_offset_not_supported_on_plc cfg) in
  let findings := extend findings (rule_required_accessibles cfg) in
  forbidden <- rule_forbidden_accessibles_by_class cfg ;;
  let findings := extend findings forbidden in
  let findings := extend findings (rule_custom_command_accessibles_warn cfg) in
  let findings := extend findings (rule_accessible_members_by_type cfg) in
  let findings := extend findings (rule_numeric_ranges_coherent cfg) in
  let findings := extend findings (rule_target_limits_within_target cfg) in
  let findings := extend findings (rule_string_requires_maxchars cfg) in
  let findings := extend findings (rule_array_requires_maxlen cfg) in
  let findings := extend findings (rule_standard_accessible_readonly_policy cfg) in
  let findings := extend findings (rule_target_datainfo_type_matches_value cfg) in
  let findings := extend findings (rule_checkable_requires_manual_plc cfg) in
  let findings := extend findings (rule_command_datainfo_shape cfg) in
  let findings := extend findings (rule_datainfo_type_supported cfg) in
  let findings := extend findings (rule_status_structure_and_codes cfg) in
  (* --- PLC/tooling rules --- *)
  let findings := extend findings (rule_xplc_keys_exist_in_secop_accessibles cfg) in
  let findings := extend findings (rule_xplc_node_fields_configured cfg) in
  let findings := extend findings (rule_xplc_module_timestamp_tag_configured cfg) in
  let findings := extend findings (rule_xplc_status_hw_error_fields_configured cfg) in
  let findings := extend findings (rule_xplc_status_disabled_fields_coherent cfg) in
  let findings := extend findings (rule_xplc_target_change_possible_expr_configured cfg) in
  let findings := extend findings (rule_xplc_target_reach_fields cfg) in
  let findings := extend findings (rule_xplc_value_mapping_by_type cfg) in
  let findings := extend findings (rule_xplc_target_mapping_by_type cfg) in
  let findings := extend findings (rule_xplc_clear_errors_cmd_stmt_optional cfg) in
  Ok findings.

(** [sum(1 for f in findings if f.severity == sev)] *)
Definition count_severity (sev : Severity) (findings : list Finding) : nat :=
  length (filter (fun f => Severity_eqb (severity f) sev) findings).

(** The summary of [build_report]: (errors, warnings). *)
Definition build_report_summary (findings : list Finding) : nat * nat :=
  (count_severity ERROR findings, count_severity WARNING findings).

(** [any(f.severity == Severity.ERROR for f in findings)] *)
Definition has_errors (findings : list Finding) : bool :=
  existsb (fun f => Severity_eqb (severity f) ERROR) findings.

(** The rules [validate_config] runs that have no raising statement
    (all but R-CLS-004), in catalog order. *)
Definition total_rules : list (SecNodeConfig -> list Finding) :=
  [rule_non_empty_modules;
   rule_interface_classes_single;
   rule_features_and_offset_not_supported_on_plc;
   rule_required_accessibles;
   rule_custom_command_accessibles_warn;
   rule_accessible_members_by_type;
   rule_numeric_ranges_coherent;
   rule_target_limits_within_target;
   rule_string_requires_maxchars;
   rule_array_requires_maxlen;
   rule_standard_accessible_readonly_policy;
   rule_target_datainfo_type_matches_value;
   rule_checkable_requires_manual_plc;
   rule_command_datainfo_shape;
   rule_datainfo_type_supported;
   rule_status_structure_and_codes;
   rule_xplc_keys_exist_in_secop_accessibles;
   rule_xplc_node_fields_configured;
   rule_xplc_module_timestamp_tag_configured;
   rule_xplc_status_hw_error_fields_configured;
   rule_xplc_status_disabled_fields_coherent;
   rule_xplc_target_change_possible_expr_configured;
   rule_xplc_target_reach_fields;
   rule_xplc_value_mapping_by_type;
   rule_xplc_target_mapping_by_type;
   rule_xplc_clear_errors_cmd_stmt_optional].

End Validate.

(* ===================================================================== *)
(** ** Serialisation: [Finding.to_dict] and [build_report]                *)
(* ===================================================================== *)

Module Reporting.
Import Py Model Types Validate.

(** A value of the report dictionary. *)
Inductive report_value :=
| RNone
| RText (t : text)                (* a str, as the pieces of its f-string *)
| RStr (s : string)               (* a plain str *)
| RList (l : list string).        (* a list of str *)

(** One interpolated piece renders as the empty string: only an empty
    literal, or [str(v)] of an empty str, does. *)
Definition piece_is_empty (p : piece) : bool :=
  match p with
  | Lit s => (s =? "")%string
  | FmtVal (Some (JStr s)) => (s =? "")%string
  | _ => false
  end.

(** [not t] for a str kept as pieces. *)
Definition text_is_empty (t : text) : bool := forallb piece_is_empty t.

(** [self.severity.value] *)
Definition Severity_value (sev : Severity) : string :=
  match sev with
  | ERROR => "ERROR"
  | WARNING => "WARNING"
  end.

(** [d.pop(k, None)]: the other keys keep their order. *)
Fixpoint pop {V} (d : dict V) (k : string) : dict V :=
  match d with
  | [] => []
  | (k', v) :: r => if (k' =? k)%string then r else (k', v) :: pop r k
  end.

(** [asdict(self)]: one entry per field, in declaration order. *)
Definition asdict (f : Finding) : dict report_value :=
  [("rule_id", RStr (rule_id f));
   ("severity", RStr (Severity_value (severity f)));
   ("path", RStr (path f));
   ("message", RText (message f));
   ("hint", match hint f with Some h => RText h | None => RNone end);
   ("category", match category f with Some c => RStr c | None => RNone end);
   ("plc_refs", RList (plc_refs f))].

(** [not d.get(k)] *)
Definition falsy (o : option report_value) : bool :=
  match o with
  | None => true
  | Some RNone => true
  | Some (RText t) => text_is_empty t
  | Some (RStr s) => (s =? "")%string
  | Some (RList l) => match l with [] => true | _ :: _ => false end
  end.

(** [if not d.get(k): d.pop(k, None)] *)
Definition drop_if_falsy (d : dict report_value) (k : string)
  : dict report_value :=
  if falsy (get d k) then pop d k else d.

(** [asdict] holds the severity as the enum member; the first statement
    of [to_dict] stores its value, which [asdict] above already shows. *)
Definition to_dict (f : Finding) : dict report_value :=
  let d := asdict f in
  let d := set d "severity" (RStr (Severity_value (severity f))) in
  let d := drop_if_falsy d "hint" in
  let d := drop_if_falsy d "category" in
  let d := drop_if_falsy d "plc_refs" in
  d.

Record Report := {
  summary_errors : nat;
  summary_warnings : nat;
  report_findings : list (dict report_value)
}.

Definition build_report (findings : list Finding) : Report :=
  {| summary_errors := count_severity ERROR findings;
     summary_warnings := count_severity WARNING findings;
     report_findings := map to_dict findings |}.

End Reporting.

(* ===================================================================== *)
(** ** Concrete configurations                                            *)
(* ===================================================================== *)

Module Examples.
Import Py Model Types.

(** U+00A0 NO-BREAK SPACE, U+0085 NEXT LINE, U+2003 EM SPACE and U+3000
    IDEOGRAPHIC SPACE are white space for Python; U+200B ZERO WIDTH SPACE
    is not. *)
Definition NBSP : string := utf8 160.
Definition NEL : string := utf8 133.
Definition EM_SPACE : string := utf8 8195.
Definition IDEOGRAPHIC_SPACE : string := utf8 12288.
Definition ZERO_WIDTH_SPACE : string := utf8 8203.

Definition datainfo_of_type (t : string) : DataInfo :=
  mkDataInfo t None None None None None None None None.

(** tuple[enum{..}, string] *)
Definition status_datainfo (enum_members : dict json) : DataInfo :=
  mkDataInfo "tuple" None None None None None
    (Some (MembersList
             [[("type", JStr "enum"); ("members", JDict enum_members)];
              [("type", JStr "string")]]))
    None None.

Definition accessible (di : DataInfo) (ro : bool) : Accessible :=
  {| acc_description := ""; datainfo := di; readonly := ro;
     checkable := None |}.

Definition base_codes : dict json :=
  [("IDLE", JInt 100); ("WARN", JInt 200); ("ERROR", JInt 400)].

Definition module_of (classes : list string) (accs : dict Accessible)
  (xplc : option PlcModuleConfig) : Module_ :=
  {| interface_classes := classes; features := []; mod_description := "";
     implementation := ""; accessibles := accs; mod_x_plc := xplc |}.

Definition node_of (mods : dict Module_) (xplc : option PlcNodeConfig)
  : SecNodeConfig :=
  {| equipment_id := "node"; description := ""; firmware := "";
     modules := mods; x_plc := xplc |}.

(** value (readonly, double), status (readonly, tuple(enum, string)),
    pollinterval (double). *)
Definition readable_accessibles (enum_members : dict json)
  : dict Accessible :=
  [("value", accessible (datainfo_of_type "double") true);
   ("status", accessible (status_datainfo enum_members) true);
   ("pollinterval", accessible (datainfo_of_type "double") false)].

(** One Readable module, no tooling block at node or module level. *)
Definition readable_node : SecNodeConfig :=
  node_of [("m", module_of ["Readable"] (readable_accessibles base_codes) None)]
          None.

(** The same node when [status] is given without [readonly] (so that the
    model holds [readonly = False] for it). *)
Definition readable_node_status_default : SecNodeConfig :=
  node_of
    [("m", module_of ["Readable"]
             [("value", accessible (datainfo_of_type "double") true);
              ("status",
               Accessible_validate
                 {| in_description := "";
                    in_datainfo := status_datainfo base_codes;
                    in_readonly := None; in_checkable := None |});
              ("pollinterval", accessible (datainfo_of_type "double") false)]
             None)]
    None.

Definition empty_tcp : PlcTcpConfig :=
  {| server_ip := None; server_port := None; interface_healthy_tag := None |}.

Definition empty_module_xplc : PlcModuleConfig :=
  {| timestamp_tag := None; xp_value := None; xp_status := None;
     xp_target := None; xp_clear_errors := None |}.

(** The same module with tooling blocks that are present and empty:
    node [x-plc] = [{"tcp": {}}], module [x-plc] = [{}]. *)
Definition readable_node_empty_blocks : SecNodeConfig :=
  node_of
    [("m", module_of ["Readable"] (readable_accessibles base_codes)
             (Some empty_module_xplc))]
    (Some {| tcp := Some empty_tcp; secop_version := None;
             plc_timestamp_tag := None |}).

(** A module whose [interface_classes] is the empty list. *)
Definition no_class_node : SecNodeConfig :=
  node_of [("m", module_of [] (readable_accessibles base_codes) None)] None.

(** A Readable module whose status enum declares DISABLED:0, without any
    tooling block. *)
Definition disabled_module : Module_ :=
  module_of ["Readable"]
    (readable_accessibles (("DISABLED", JInt 0) :: base_codes)) None.

Definition disabled_node : SecNodeConfig :=
  node_of [("m", disabled_module)] None.

(** The same with a module tooling block that has no [status] section. *)
Definition disabled_module_no_status_section : Module_ :=
  module_of ["Readable"]
    (readable_accessibles (("DISABLED", JInt 0) :: base_codes))
    (Some empty_module_xplc).

(** Drivable modules: status enum without BUSY, and with BUSY:100. *)
Definition drivable_module (enum_members : dict json) : Module_ :=
  module_of ["Drivable"]
    (readable_accessibles enum_members ++
     [("target", accessible (datainfo_of_type "double") false);
      ("stop", accessible (datainfo_of_type "command") false)])%list
    None.

Definition drivable_without_busy : Module_ := drivable_module base_codes.

Definition drivable_busy_100 : Module_ :=
  drivable_module (base_codes ++ [("BUSY", JInt 100)])%list.

(** An enum target with a [write_stmt] and no [enum_tag]. *)
Definition enum_datainfo : DataInfo :=
  mkDataInfo "enum" None None None None None
    (Some (MembersDict [("off", 0); ("on", 1)])) None None.

Definition enum_target_tooling : PlcTargetConfig :=
  {| write_stmt := Some "G_iCmd := 1;";
     tgt_enum_tag := None;
     change_possible_expr := None;
     reach_timeout_s := None;
     reach_abs_tolerance := None |}.

Definition enum_target_xplc : PlcModuleConfig :=
  {| timestamp_tag := None; xp_value := None; xp_status := None;
     xp_target := Some enum_target_tooling; xp_clear_errors := None |}.

Definition enum_target_module : Module_ :=
  module_of ["Writable"]
    [("value", accessible enum_datainfo true);
     ("status", accessible (status_datainfo base_codes) true);
     ("pollinterval", accessible (datainfo_of_type "double") false);
     ("target", accessible enum_datainfo false)]
    (Some enum_target_xplc).

(** The same target written with stray white space: the type is "enum"
    followed by a no-break space, and [write_stmt] is one no-break
    space. *)
Definition enum_nbsp_datainfo : DataInfo :=
  mkDataInfo ("enum" ++ NBSP) None None None None None
    (Some (MembersDict [("off", 0); ("on", 1)])) None None.

Definition nbsp_target_tooling : PlcTargetConfig :=
  {| write_stmt := Some NBSP;
     tgt_enum_tag := None;
     change_possible_expr := None;
     reach_timeout_s := None;
     reach_abs_tolerance := None |}.

Definition nbsp_target_xplc : PlcModuleConfig :=
  {| timestamp_tag := None; xp_value := None; xp_status := None;
     xp_target := Some nbsp_target_tooling; xp_clear_errors := None |}.

Definition enum_nbsp_target_module : Module_ :=
  module_of ["Writable"]
    [("value", accessible enum_datainfo true);
     ("status", accessible (status_datainfo base_codes) true);
     ("pollinterval", accessible (datainfo_of_type "double") false);
     ("target", accessible enum_nbsp_datainfo false)]
    (Some nbsp_target_xplc).

(** A status section with a [disabled_expr], on a module whose status enum
    has no DISABLED member. *)
Definition disabled_expr_tooling : PlcStatusConfig :=
  {| disabled_expr := Some "G_xDisabled"; disabled_description := Some "";
     hw_error_expr := Some ""; hw_error_description := Some "" |}.

Definition disabled_expr_module : Module_ :=
  module_of ["Readable"] (readable_accessibles base_codes)
    (Some {| timestamp_tag := None; xp_value := None;
             xp_status := Some disabled_expr_tooling;
             xp_target := None; xp_clear_errors := None |}).

(** A double in [lo, hi]. *)
Definition ranged_double (lo hi : Z) : DataInfo :=
  mkDataInfo "double" None (Some (float_of_Z lo)) (Some (float_of_Z hi))
             None None None None None.

(** A module with one unrecognized interface class. *)
Definition communicator_module : Module_ :=
  module_of ["Communicator"]
    (readable_accessibles base_codes ++
     [("_custom", accessible (datainfo_of_type "double") false)])%list
    None.

(** The same module beside a module whose [interface_classes] is the
    empty list. *)
Definition communicator_beside_no_class_node : SecNodeConfig :=
  node_of
    [("c", communicator_module);
     ("m", module_of [] (readable_accessibles base_codes) None)]
    None.

(** An accessible given without [readonly]. *)
Definition input_without_readonly (di : DataInfo) : AccessibleInput :=
  {| in_description := ""; in_datainfo := di; in_readonly := None;
     in_checkable := None |}.

Definition module_with_defaults : Module_ :=
  module_of ["Writable"]
    [("value", Accessible_validate
                 (input_without_readonly (datainfo_of_type "double")));
     ("status", Accessible_validate
                  (input_without_readonly (status_datainfo base_codes)));
     ("pollinterval", accessible (datainfo_of_type "double") false);
     ("target", Accessible_validate
                  (input_without_readonly (datainfo_of_type "double")))]
    None.

End Examples.

(* ===================================================================== *)
(** ** Vocabulary of the statements                                       *)
(* ===================================================================== *)

Module Shapes.
Import Py Model Types.

(** The module is tagged with the capability [c]. *)
Definition tagged (m : Module_) (c : string) : Prop :=
  In c (interface_classes m).

(** The module has a [status] accessible whose datainfo is a tuple of an
    enum with the members [enum_members] and a string. *)
Definition status_tuple (m : Module_) (enum_members : dict json) : Prop :=
  exists status member0 member1,
    get (accessibles m) "status" = Some status /\
    di_type (datainfo status) = "tuple" /\
    di_members (datainfo status) = Some (MembersList [member0; member1]) /\
    opt_eq_str (get member0 "type") "enum" = true /\
    opt_eq_str (get member1 "type") "string" = true /\
    get member0 "members" = Some (JDict enum_members).

(** The enum has the label [key], mapped to the code [code] (Python's
    [==] on the stored value). *)
Definition maps_to (enum_members : dict json) (key : string) (code : Z)
  : Prop :=
  exists v, get enum_members key = Some v /\ eq_int v code = true.

(** The labels outside DISABLED, IDLE, WARN, BUSY, ERROR, in key order. *)
Definition extra_labels (enum_members : dict json) : list string :=
  filter (fun k => negb (str_in k SecopRules.allowed_status_keys))
         (keys enum_members).

Definition is_error (f : Finding) : bool := Severity_eqb (severity f) ERROR.

(** A text field of an optional tooling section is given: the section is
    there and the field is not empty in the sense of [_is_empty]. *)
Definition field_given {C} (section : option C) (field : C -> option string)
  : Prop :=
  exists c, section = Some c /\ PlcRules._is_empty (field c) = false.

(** The field is absent or empty: the section is missing, or the field is
    [None], [""] or white space. *)
Definition field_absent_or_empty {C} (section : option C)
  (field : C -> option string) : Prop :=
  match section with
  | None => True
  | Some c => PlcRules._is_empty (field c) = true
  end.

End Shapes.

(* ===================================================================== *)
(** ** Vocabulary of the further properties                               *)
(* ===================================================================== *)

Module Conformance.
Import Py Model Types SecopRules Shapes.

(** The status enum has exactly what the protocol fixes for the module:
    IDLE:100, WARN:200, ERROR:400; BUSY:300 if the module is Drivable and
    no BUSY otherwise; DISABLED, if a member, equal to 0; no other label. *)
Definition conforming_status_enum (m : Module_) (enum_members : dict json)
  : Prop :=
  maps_to enum_members "IDLE" 100 /\
  maps_to enum_members "WARN" 200 /\
  maps_to enum_members "ERROR" 400 /\
  (if _is_drivable m then maps_to enum_members "BUSY" 300
   else contains "BUSY" enum_members = false) /\
  (contains "DISABLED" enum_members = false \/
   maps_to enum_members "DISABLED" 0) /\
  extra_labels enum_members = [].

(** The configuration with one more module, listed last. *)
Definition with_module (cfg : SecNodeConfig) (mod_name : string)
  (m : Module_) : SecNodeConfig :=
  {| equipment_id := equipment_id cfg; description := description cfg;
     firmware := firmware cfg;
     modules := (modules cfg ++ [(mod_name, m)])%list;
     x_plc := x_plc cfg |}.

(** The configuration reduced to one module. *)
Definition only_module (cfg : SecNodeConfig) (mod_name : string)
  (m : Module_) : SecNodeConfig :=
  {| equipment_id := equipment_id cfg; description := description cfg;
     firmware := firmware cfg;
     modules := [(mod_name, m)];
     x_plc := x_plc cfg |}.

(** The rules of the catalog that loop over the modules (all of
    [Validate.total_rules] but R-NODE-001 and R-PLC-010). *)
Definition module_rules : list (SecNodeConfig -> list Finding) :=
  [rule_interface_classes_single;
   rule_features_and_offset_not_supported_on_plc;
   rule_required_accessibles;
   rule_custom_command_accessibles_warn;
   rule_accessible_members_by_type;
   rule_numeric_ranges_coherent;
   rule_target_limits_within_target;
   rule_string_requires_maxchars;
   rule_array_requires_maxlen;
   rule_standard_accessible_readonly_policy;
   rule_target_datainfo_type_matches_value;
   rule_checkable_requires_manual_plc;
   rule_command_datainfo_shape;
   rule_datainfo_type_supported;
   rule_status_structure_and_codes;
   PlcRules.rule_xplc_keys_exist_in_secop_accessibles;
   PlcRules.rule_xplc_module_timestamp_tag_configured;
   PlcRules.rule_xplc_status_hw_error_fields_configured;
   PlcRules.rule_xplc_status_disabled_fields_coherent;
   PlcRules.rule_xplc_target_change_possible_expr_configured;
   PlcRules.rule_xplc_target_reach_fields;
   PlcRules.rule_xplc_value_mapping_by_type;
   PlcRules.rule_xplc_target_mapping_by_type;
   PlcRules.rule_xplc_clear_errors_cmd_stmt_optional].

(** The rules that only advise: custom commands, checkable, and the
    "not configured" tooling rules. *)
Definition advisory_rules : list (SecNodeConfig -> list Finding) :=
  [rule_custom_command_accessibles_warn;
   rule_checkable_requires_manual_plc;
   PlcRules.rule_xplc_node_fields_configured;
   PlcRules.rule_xplc_module_timestamp_tag_configured;
   PlcRules.rule_xplc_status_hw_error_fields_configured;
   PlcRules.rule_xplc_target_change_possible_expr_configured;
   PlcRules.rule_xplc_clear_errors_cmd_stmt_optional].

(** Every character of [s] is white space: [s] is read one character
    of one, two or three bytes at a time, and each is in Python's
    white-space class. *)
Fixpoint all_space (s : string) : bool :=
  match s with
  | EmptyString => true
  | String c r =>
      if isspace c then all_space r
      else
        match r with
        | EmptyString => false
        | String d r2 =>
            if isspace2 c d then all_space r2
            else
              match r2 with
              | EmptyString => false
              | String e r3 => isspace3 c d e && all_space r3
              end
        end
  end.

(** The code points [str.isspace] accepts. *)
Definition whitespace_code_points : list N :=
  [9; 10; 11; 12; 13; 28; 29; 30; 31; 32; 133; 160; 5760;
   8192; 8193; 8194; 8195; 8196; 8197; 8198; 8199; 8200; 8201; 8202;
   8232; 8233; 8239; 8287; 12288]%N.

Definition is_whitespace_code_point (cp : N) : bool :=
  existsb (N.eqb cp) whitespace_code_points.

(** The text of the one code point [cp] is empty for the rules exactly
    when [cp] is white space. *)
Definition empty_agrees (cp : N) : bool :=
  Bool.eqb (PlcRules._is_empty (Some (utf8 cp)))
           (is_whitespace_code_point cp).

(** [f] holds of every number below [2 ^ n] (the numbers of [n] bits). *)
Fixpoint forall_below_pow2 (n : nat) (f : N -> bool) : bool :=
  match n with
  | O => f 0%N
  | S k =>
      forall_below_pow2 k (fun x => f (2 * x)%N)
      && forall_below_pow2 k (fun x => f (2 * x + 1)%N)
  end.

(** The two findings of R-ACC-004: on the lower and on the upper bound
    of [target_limits]. *)
Definition limits_min_finding (mod_name : string) : Finding :=
  mk "R-ACC-004" ERROR
     (mod_path mod_name ++ ".accessibles.target_limits.datainfo")
     [Lit "target_limits.min must be >= target.min (target_limits restricts target)."].

Definition limits_max_finding (mod_name : string) : Finding :=
  mk "R-ACC-004" ERROR
     (mod_path mod_name ++ ".accessibles.target_limits.datainfo")
     [Lit "target_limits.max must be <= target.max (target_limits restricts target)."].

(** [datainfo.members] has the shape its type asks for (enum: dict,
    tuple: list, array: dict; no demand for the other types). *)
Definition members_shape_ok (di : DataInfo) : bool :=
  if (di_type di =? "enum")%string then is_members_dict (di_members di)
  else if (di_type di =? "tuple")%string then is_members_list (di_members di)
  else if (di_type di =? "array")%string then is_members_dict (di_members di)
  else true.

End Conformance.

(* ===================================================================== *)
(** ** Facts about the Python built-ins and the loops                     *)
(* ===================================================================== *)

Module Facts.
Import Py Model Types SecopRules Shapes.

Lemma str_in_iff (x : string) (l : list string) :
  str_in x l = true <-> In x l.
Proof.
  unfold str_in. rewrite existsb_exists. split.
  - intros [y [Hy Heq]]. apply String.eqb_eq in Heq. now subst.
  - intros H. exists x. split; [assumption | apply String.eqb_refl].
Qed.

Lemma contains_keys {V} (k : string) (d : dict V) :
  contains k d = true <-> In k (keys d).
Proof.
  unfold contains, keys.
  induction d as [|[k' v'] r IH]; simpl.
  - split; [discriminate | tauto].
  - destruct (String.eqb_spec k' k) as [->|Hne]; simpl.
    + split; auto.
    + rewrite IH. split; [auto | intros [H|H]; [contradiction | assumption]].
Qed.

Lemma In_insert_sorted (x y : string) (l : list string) :
  In x (insert_sorted y l) <-> x = y \/ In x l.
Proof.
  induction l as [|z r IH]; simpl.
  - intuition.
  - destruct (y <=? z)%string; simpl; [intuition|].
    rewrite IH. intuition.
Qed.

(** [sorted] keeps exactly the elements of its argument. *)
Lemma In_sorted (x : string) (l : list string) :
  In x (sorted l) <-> In x l.
Proof.
  unfold sorted. induction l as [|y r IH]; simpl; [tauto|].
  rewrite In_insert_sorted, IH. intuition.
Qed.

Lemma sorted_nil_iff (l : list string) : sorted l = [] <-> l = [].
Proof.
  split; [|intros ->; reflexivity].
  destruct l as [|x r]; [reflexivity|]. intros H. exfalso.
  assert (Hin : In x (sorted (x :: r))) by (apply In_sorted; now left).
  rewrite H in Hin. exact Hin.
Qed.

Lemma in_for_each_module (body : string -> Module_ -> list Finding)
  (cfg : SecNodeConfig) (f : Finding) :
  In f (for_each_module body cfg) <->
  exists mod_name m, In (mod_name, m) (modules cfg) /\ In f (body mod_name m).
Proof.
  unfold for_each_module. rewrite in_flat_map. split.
  - intros [[mod_name m] [Hin Hf]]. now exists mod_name, m.
  - intros [mod_name [m [Hin Hf]]]. now exists (mod_name, m).
Qed.

Lemma in_for_each_accessible
  (body : string -> string -> Accessible -> list Finding)
  (cfg : SecNodeConfig) (f : Finding) :
  In f (for_each_accessible body cfg) <->
  exists mod_name m acc_name acc,
    In (mod_name, m) (modules cfg) /\ In (acc_name, acc) (accessibles m) /\
    In f (body mod_name acc_name acc).
Proof.
  unfold for_each_accessible. rewrite in_for_each_module. split.
  - intros [mod_name [m [Hm Hf]]]. apply in_flat_map in Hf.
    destruct Hf as [[acc_name acc] [Ha Hf]].
    now exists mod_name, m, acc_name, acc.
  - intros [mod_name [m [acc_name [acc [Hm [Ha Hf]]]]]].
    exists mod_name, m. split; [assumption|].
    apply in_flat_map. now exists (acc_name, acc).
Qed.

(** A finding of one module's body is a finding of the rule. *)
Lemma body_reported (body : string -> Module_ -> list Finding)
  (cfg : SecNodeConfig) (mod_name : string) (m : Module_) (f : Finding) :
  In (mod_name, m) (modules cfg) -> In f (body mod_name m) ->
  In f (for_each_module body cfg).
Proof.
  intros Hm Hf. apply Facts.in_for_each_module. now exists mod_name, m.
Qed.

(** *** The capability lattice *)

Lemma readable_lattice (m : Module_) :
  _is_readable m = true <->
  tagged m "Readable" \/ tagged m "Writable" \/ tagged m "Drivable".
Proof.
  unfold _is_readable, _is_writable, _is_drivable, _has_class, tagged.
  rewrite !orb_true_iff, !Facts.str_in_iff. tauto.
Qed.

Lemma writable_lattice (m : Module_) :
  _is_writable m = true <-> tagged m "Writable" \/ tagged m "Drivable".
Proof.
  unfold _is_writable, _is_drivable, _has_class, tagged.
  rewrite !orb_true_iff, !Facts.str_in_iff. tauto.
Qed.

Lemma drivable_lattice (m : Module_) :
  _is_drivable m = true <-> tagged m "Drivable".
Proof. unfold _is_drivable, _has_class, tagged. apply Facts.str_in_iff. Qed.

(** *** Text fields of the tooling sections *)

Lemma is_empty_or_empty (v : option string) :
  (strip (or_empty v) =? "")%string = PlcRules._is_empty v.
Proof. destruct v; reflexivity. Qed.

Lemma has_text_given {C} (section : option C) (field : C -> option string) :
  field_given section field -> PlcRules.has_text section field = true.
Proof.
  intros [c [-> H]]. unfold PlcRules.has_text. now rewrite is_empty_or_empty, H.
Qed.

Lemma has_text_absent {C} (section : option C) (field : C -> option string) :
  field_absent_or_empty section field -> PlcRules.has_text section field = false.
Proof.
  unfold field_absent_or_empty, PlcRules.has_text. destruct section as [c|].
  - intros H. now rewrite is_empty_or_empty, H.
  - reflexivity.
Qed.

End Facts.

(* ===================================================================== *)
(** ** The orchestrator gathers what the rules return                     *)
(* ===================================================================== *)

Module Catalog.
Import Py Model Types SecopRules PlcRules Validate.

Lemma Ok_inj {A} (a b : A) : Ok a = Ok b -> a = b.
Proof. intros H. injection H. auto. Qed.

(** Name the result of every rule applied to [cfg], so that the goal
    speaks about lists only. *)
Ltac name_rule_results cfg :=
  repeat match goal with
         | |- context [?r cfg] =>
             let x := fresh "found" in generalize (r cfg); intro x
         end.

(** Membership in a chain of [extend]s, found by position. *)
Ltac find_in_extend H :=
  lazymatch type of H with
  | In _ ?l =>
      repeat lazymatch goal with
             | |- In _ (_ ++ l) => apply in_or_app; right; exact H
             | |- In _ (_ ++ _) => apply in_or_app; left
             end
  end.

(** [In rule total_rules], found by position. *)
Ltac in_total_rules :=
  unfold total_rules;
  repeat lazymatch goal with
         | |- In ?r (?r :: _) => left; reflexivity
         | |- In _ (_ :: _) => right
         end.

(** When [validate_config] returns, its list holds every finding of every
    rule of the catalog. *)
Lemma validate_config_includes (cfg : SecNodeConfig) (fs : list Finding)
  (rule : SecNodeConfig -> list Finding) :
  validate_config cfg = Ok fs ->
  In rule total_rules ->
  forall f, In f (rule cfg) -> In f fs.
Proof.
  intros Hv Hrule f Hf.
  apply (in_map (fun r => r cfg)) in Hrule.
  revert Hf Hrule Hv. generalize (rule cfg). clear rule.
  unfold validate_config, extend, bind, total_rules.
  cbn [map]. cbv beta zeta.
  generalize (rule_forbidden_accessibles_by_class cfg) as forbidden.
  name_rule_results cfg.
  intros forbidden l Hf Hrule.
  destruct forbidden as [forbidden|e]; [|discriminate].
  intros Hv. apply Ok_inj in Hv. subst fs.
  repeat (destruct Hrule as [<-|Hrule]; [find_in_extend Hf|]).
  destruct Hrule.
Qed.

Lemma validate_config_includes_forbidden (cfg : SecNodeConfig)
  (fs : list Finding) :
  validate_config cfg = Ok fs ->
  exists forbidden,
    rule_forbidden_accessibles_by_class cfg = Ok forbidden /\
    forall f, In f forbidden -> In f fs.
Proof.
  unfold validate_config, extend, bind. cbv beta zeta.
  generalize (rule_forbidden_accessibles_by_class cfg) as forbidden.
  name_rule_results cfg.
  intros forbidden.
  destruct forbidden as [forbidden|e]; [|discriminate].
  intros Hv. apply Ok_inj in Hv. subst fs.
  exists forbidden. split; [reflexivity|].
  intros f Hf. find_in_extend Hf.
Qed.

(** [validate_config] returns exactly when R-CLS-004 does. *)
Lemma validate_config_returns_iff (cfg : SecNodeConfig) :
  returns (validate_config cfg) <->
  returns (rule_forbidden_accessibles_by_class cfg).
Proof.
  unfold validate_config, returns, bind. cbv beta zeta.
  destruct (rule_forbidden_accessibles_by_class cfg) as [forbidden|e].
  - split; intros _; eexists; reflexivity.
  - split; intros [a H]; discriminate.
Qed.

End Catalog.

(* ===================================================================== *)
(** ** The blocking decision                                              *)
(* ===================================================================== *)

Module BlockingDecision.
Import Py Model Types Validate.

Lemma Severity_eqb_eq (a b : Severity) : Severity_eqb a b = true <-> a = b.
Proof. destruct a, b; simpl; split; congruence. Qed.

Lemma count_severity_zero (sev : Severity) (findings : list Finding) :
  count_severity sev findings = 0%nat <->
  forall f, In f findings -> severity f <> sev.
Proof.
  unfold count_severity. induction findings as [|g r IH]; simpl.
  - split; [intros _ f [] | reflexivity].
  - destruct (Severity_eqb (severity g) sev) eqn:E; simpl.
    + split; [discriminate|]. intros H. exfalso.
      apply (H g); [now left | now apply Severity_eqb_eq].
    + rewrite IH. split.
      * intros H f [<-|Hf]; [|now apply H].
        intros Heq. apply Severity_eqb_eq in Heq. congruence.
      * intros H f Hf. apply H. now right.
Qed.

(** C4. The blocking boolean [has_errors] is true if and only if at least
    one finding has severity ERROR, which is to say if and only if the
    error count of the report is not zero; a finding list that holds only
    WARNINGs, in any number, is not blocking. *)
Theorem has_errors_blocking (findings : list Finding) :
  (has_errors findings = true <->
   exists f, In f findings /\ severity f = ERROR) /\
  (has_errors findings = true <->
   fst (build_report_summary findings) <> 0%nat) /\
  ((forall f, In f findings -> severity f = WARNING) ->
   has_errors findings = false).
Proof.
  assert (Hiff : has_errors findings = true <->
                 exists f, In f findings /\ severity f = ERROR).
  { unfold has_errors. rewrite existsb_exists.
    split; intros [f [Hin Hs]]; exists f; split; auto;
      now apply Severity_eqb_eq. }
  split; [exact Hiff|]. split.
  - simpl. rewrite count_severity_zero, Hiff. split.
    + intros [f [Hin Hs]] Hall. now apply (Hall f).
    + intros Hne. apply Hiff. apply not_false_iff_true. intros E.
      apply Hne. intros f Hin Hs.
      assert (Ht : has_errors findings = true) by (apply Hiff; eauto).
      congruence.
  - intros Hall. apply not_true_iff_false. intros E.
    apply Hiff in E. destruct E as [f [Hin Hs]].
    rewrite (Hall f Hin) in Hs. discriminate.
Qed.

(** Two warnings do not block. *)
Lemma has_errors_blocking_witness :
  has_errors [mk "R-PLC-020" WARNING "$" []; mk "R-PLC-010" WARNING "$" []]
  = false.
Proof.
  apply (proj2 (proj2 (has_errors_blocking
    [mk "R-PLC-020" WARNING "$" []; mk "R-PLC-010" WARNING "$" []]))).
  intros f [<-|[<-|[]]]; reflexivity.
Defined.

End BlockingDecision.

(* ===================================================================== *)
(** ** R-ACC-003: numeric ranges                                          *)
(* ===================================================================== *)

Module NumericRanges.
Import Py Model Types SecopRules Validate Examples.

Lemma float_eq_ge (a b : spec_float) :
  float_eq a b = true -> float_ge a b = true.
Proof.
  unfold float_eq, float_ge, SFeqb.
  destruct (SFcompare a b) as [[]|]; congruence.
Qed.

Lemma float_lt_not_ge (a b : spec_float) :
  float_lt a b = true -> float_ge a b = false.
Proof.
  unfold float_lt, float_ge, SFltb.
  destruct (SFcompare a b) as [[]|]; congruence.
Qed.

(** C8. For an accessible whose datainfo carries both [min] and [max],
    R-ACC-003 yields its ERROR finding exactly when [min >= max]: one
    finding when the comparison holds (in particular when the bounds are
    equal), none when [min < max]; when either bound is absent it yields
    none. The rule's result over a configuration consists of exactly
    these findings, and [validate_config] reports them. *)
Theorem numeric_ranges_coherent_spec
  (mod_name acc_name : string) (acc : Accessible) :
  let di := datainfo acc in
  let found := rule_numeric_ranges_coherent_body mod_name acc_name acc in
  (forall lo hi, di_min di = Some lo -> di_max di = Some hi ->
     (float_ge lo hi = true -> found = [range_finding mod_name acc_name]) /\
     (float_ge lo hi = false -> found = []) /\
     (float_eq lo hi = true -> found = [range_finding mod_name acc_name]) /\
     (float_lt lo hi = true -> found = [])) /\
  (di_min di = None \/ di_max di = None -> found = []) /\
  severity (range_finding mod_name acc_name) = ERROR /\
  (forall cfg m f,
     In (mod_name, m) (modules cfg) -> In (acc_name, acc) (accessibles m) ->
     In f found ->
     In f (rule_numeric_ranges_coherent cfg) /\
     (forall fs, validate_config cfg = Ok fs -> In f fs)) /\
  (forall cfg f,
     In f (rule_numeric_ranges_coherent cfg) ->
     exists mod_name' m acc_name' acc' lo hi,
       In (mod_name', m) (modules cfg) /\
       In (acc_name', acc') (accessibles m) /\
       di_min (datainfo acc') = Some lo /\
       di_max (datainfo acc') = Some hi /\
       float_ge lo hi = true /\
       f = range_finding mod_name' acc_name').
Proof.
  cbv zeta. unfold rule_numeric_ranges_coherent_body.
  split; [|split; [|split; [|split]]].
  - intros lo hi -> ->. repeat split.
    + intros ->. reflexivity.
    + intros ->. reflexivity.
    + intros H. now rewrite (float_eq_ge _ _ H).
    + intros H. now rewrite (float_lt_not_ge _ _ H).
  - intros [-> | ->]; [reflexivity|].
    destruct (di_min (datainfo acc)); reflexivity.
  - reflexivity.
  - intros cfg m f Hm Ha Hf.
    assert (Hin : In f (rule_numeric_ranges_coherent cfg)).
    { apply Facts.in_for_each_accessible.
      exists mod_name, m, acc_name, acc. auto. }
    split; [exact Hin|].
    intros fs Hv.
    apply (Catalog.validate_config_includes
             cfg fs rule_numeric_ranges_coherent Hv);
      [Catalog.in_total_rules | exact Hin].
  - intros cfg f Hf.
    apply Facts.in_for_each_accessible in Hf.
    destruct Hf as [mn [m [an [a [Hm [Ha Hf]]]]]].
    unfold rule_numeric_ranges_coherent_body in Hf.
    destruct (di_min (datainfo a)) as [lo|] eqn:Elo; [|destruct Hf].
    destruct (di_max (datainfo a)) as [hi|] eqn:Ehi; [|destruct Hf].
    destruct (float_ge lo hi) eqn:Ege; [|destruct Hf].
    destruct Hf as [<-|[]].
    exists mn, m, an, a, lo, hi. auto 10.
Qed.

(** min = max = 5.0 is reported. *)
Lemma numeric_ranges_coherent_witness :
  rule_numeric_ranges_coherent_body "m" "value"
    (accessible (ranged_double 5 5) true)
  = [range_finding "m" "value"].
Proof.
  apply (proj1 (proj2 (proj2
           (proj1 (numeric_ranges_coherent_spec "m" "value"
                     (accessible (ranged_double 5 5) true))
                  (float_of_Z 5) (float_of_Z 5) eq_refl eq_refl)))).
  vm_compute. reflexivity.
Defined.

End NumericRanges.

(* ===================================================================== *)
(** ** R-ACC-007: readonly policy and the default of [readonly]           *)
(* ===================================================================== *)

Module ReadonlyPolicy.
Import Py Model Types SecopRules Validate Examples.

(** C10. An accessible given without [readonly] is built with
    [readonly = False], the same model instance as with an explicit
    [readonly = false]. Named [value] or [status], it gets the R-ACC-007
    ERROR (which [validate_config] reports); named [target], it gets no
    R-ACC-007 finding. *)
Theorem readonly_default_policy
  (mod_name : string) (m : Module_) (i : AccessibleInput) :
  in_readonly i = None ->
  let found := rule_standard_accessible_readonly_policy_body mod_name m in
  let on_value :=
    readonly_finding mod_name "value"
      "Accessible 'value' must have readonly=true." in
  let on_status :=
    readonly_finding mod_name "status"
      "Accessible 'status' must have readonly=true." in
  let on_target :=
    readonly_finding mod_name "target"
      "Accessible 'target' must have readonly=false." in
  Accessible_validate i =
    Accessible_validate
      {| in_description := in_description i; in_datainfo := in_datainfo i;
         in_readonly := Some false; in_checkable := in_checkable i |} /\
  (get (accessibles m) "value" = Some (Accessible_validate i) ->
   In on_value found) /\
  (get (accessibles m) "status" = Some (Accessible_validate i) ->
   In on_status found) /\
  (get (accessibles m) "target" = Some (Accessible_validate i) ->
   ~ In on_target found) /\
  (rule_id on_value = "R-ACC-007" /\ severity on_value = ERROR /\
   rule_id on_status = "R-ACC-007" /\ severity on_status = ERROR) /\
  (forall cfg fs f,
     In (mod_name, m) (modules cfg) -> validate_config cfg = Ok fs ->
     In f found -> In f fs).
Proof.
  intros Hnone. cbv zeta.
  unfold rule_standard_accessible_readonly_policy_body, readonly_is_not.
  split; [|split; [|split; [|split; [|split]]]].
  - unfold Accessible_validate. simpl. now rewrite Hnone.
  - intros ->. unfold Accessible_validate. simpl. rewrite Hnone. simpl.
    now left.
  - intros ->. unfold Accessible_validate. simpl. rewrite Hnone. simpl.
    apply in_or_app. right. now left.
  - intros ->. unfold Accessible_validate. simpl. rewrite Hnone. simpl.
    rewrite app_nil_r. intros Hin. apply in_app_or in Hin.
    destruct Hin as [Hin|Hin].
    + destruct (get (accessibles m) "value") as [a|]; [|destruct Hin].
      destruct (negb (Bool.eqb (readonly a) true)); [|destruct Hin].
      destruct Hin as [Heq|[]]. apply (f_equal message) in Heq.
      discriminate Heq.
    + destruct (get (accessibles m) "status") as [a|]; [|destruct Hin].
      destruct (negb (Bool.eqb (readonly a) true)); [|destruct Hin].
      destruct Hin as [Heq|[]]. apply (f_equal message) in Heq.
      discriminate Heq.
  - repeat split.
  - intros cfg fs f Hm Hv Hf.
    apply (Catalog.validate_config_includes
             cfg fs rule_standard_accessible_readonly_policy Hv);
      [Catalog.in_total_rules|].
    now apply (Facts.body_reported _ _ _ _ _ Hm).
Qed.

(** A Writable module whose [value] is given without [readonly]. *)
Lemma readonly_default_policy_witness :
  In (readonly_finding "m" "value"
        "Accessible 'value' must have readonly=true.")
     (rule_standard_accessible_readonly_policy_body "m" module_with_defaults).
Proof.
  apply (proj1 (proj2
           (readonly_default_policy "m" module_with_defaults
              (input_without_readonly (datainfo_of_type "double"))
              eq_refl))).
  reflexivity.
Defined.

End ReadonlyPolicy.

(* ===================================================================== *)
(** ** R-MOD-001 and R-CLS-004 on an unrecognized interface class         *)
(* ===================================================================== *)

Module ForbiddenAccessibles.
Import Py Model Types SecopRules Validate Examples.

Lemma unrecognized_class_allows_nothing (cls : string) :
  str_in cls ["Readable"; "Writable"; "Drivable"] = false ->
  get allowed_by_class cls = None.
Proof.
  unfold str_in. cbn [existsb]. intros H.
  apply orb_false_iff in H. destruct H as [H1 H].
  apply orb_false_iff in H. destruct H as [H2 H].
  apply orb_false_iff in H. destruct H as [H3 _].
  unfold allowed_by_class. cbn [get].
  rewrite (String.eqb_sym "Readable" cls), H1.
  rewrite (String.eqb_sym "Writable" cls), H2.
  rewrite (String.eqb_sym "Drivable" cls), H3.
  reflexivity.
Qed.

(** With nothing allowed, the inner loop flags every key that does not
    start with an underscore. *)
Lemma flag_all_standard (mod_name cls : string) (names : list string) :
  flat_map
    (fun acc =>
       if startswith acc "_" then []
       else if negb (str_in acc []) then [forbidden_finding mod_name cls acc]
            else [])
    names
  = map (forbidden_finding mod_name cls)
        (filter (fun acc => negb (startswith acc "_")) names).
Proof.
  induction names as [|a r IH]; [reflexivity|].
  cbn [flat_map map filter]. rewrite IH.
  destruct (startswith a "_"); reflexivity.
Qed.

(** What the module loop of R-CLS-004 returns holds the findings gathered
    so far and those of each module. *)
Lemma loop_includes (mods : dict Module_) :
  forall (sofar fs : list Finding),
    rule_forbidden_accessibles_by_class_loop mods sofar = Ok fs ->
    (forall f, In f sofar -> In f fs) /\
    (forall mod_name m found,
       In (mod_name, m) mods ->
       rule_forbidden_accessibles_by_class_body mod_name m = Ok found ->
       forall f, In f found -> In f fs).
Proof.
  induction mods as [|[n x] r IH]; intros sofar fs; simpl.
  - intros H. apply Catalog.Ok_inj in H. subst fs.
    split; [auto | intros ? ? ? []].
  - unfold bind.
    destruct (rule_forbidden_accessibles_by_class_body n x) as [fx|e] eqn:E;
      [|discriminate].
    intros H. destruct (IH _ _ H) as [Hsofar Hrest]. split.
    + intros f Hf. apply Hsofar, in_or_app. now left.
    + intros mod_name m found [Heq|Hin] Hbody f Hf.
      * injection Heq as -> ->. rewrite E in Hbody.
        apply Catalog.Ok_inj in Hbody. subst found.
        apply Hsofar, in_or_app. now right.
      * exact (Hrest mod_name m found Hin Hbody f Hf).
Qed.

(** One module whose [interface_classes] is one element that is none of
    Readable, Writable, Drivable: what R-MOD-001 and one iteration of the
    module loop of R-CLS-004 give for it. *)
Lemma one_unrecognized_class
  (mod_name cls : string) (m : Module_) :
  interface_classes m = [cls] ->
  str_in cls ["Readable"; "Writable"; "Drivable"] = false ->
  let flagged :=
    map (forbidden_finding mod_name cls)
        (filter (fun acc => negb (startswith acc "_"))
                (keys (accessibles m))) in
  get allowed_by_class cls = None /\
  rule_interface_classes_single_body mod_name m
    = [invalid_class mod_name cls] /\
  rule_forbidden_accessibles_by_class_body mod_name m = Ok flagged /\
  (forall acc,
     In (forbidden_finding mod_name cls acc) flagged <->
     contains acc (accessibles m) = true /\ startswith acc "_" = false) /\
  (forall acc,
     In acc ["value"; "status"; "pollinterval"] ->
     contains acc (accessibles m) = true ->
     In (forbidden_finding mod_name cls acc) flagged) /\
  (forall acc,
     rule_id (forbidden_finding mod_name cls acc) = "R-CLS-004" /\
     severity (forbidden_finding mod_name cls acc) = ERROR) /\
  (rule_id (invalid_class mod_name cls) = "R-MOD-001" /\
   severity (invalid_class mod_name cls) = ERROR) /\
  (forall cfg fs f,
     In (mod_name, m) (modules cfg) -> validate_config cfg = Ok fs ->
     In f (invalid_class mod_name cls :: flagged) -> In f fs).
Proof.
  intros Hcls Hnot. cbv zeta.
  pose proof (unrecognized_class_allows_nothing cls Hnot) as Hallowed.
  assert (Hbody : rule_forbidden_accessibles_by_class_body mod_name m
                  = Ok (map (forbidden_finding mod_name cls)
                          (filter (fun acc => negb (startswith acc "_"))
                                  (keys (accessibles m))))).
  { unfold rule_forbidden_accessibles_by_class_body.
    rewrite Hcls, Hallowed. f_equal. apply flag_all_standard. }
  assert (Hsingle : rule_interface_classes_single_body mod_name m
                    = [invalid_class mod_name cls]).
  { unfold rule_interface_classes_single_body. now rewrite Hcls, Hnot. }
  assert (Hflag : forall acc,
     In (forbidden_finding mod_name cls acc)
        (map (forbidden_finding mod_name cls)
           (filter (fun acc => negb (startswith acc "_"))
                   (keys (accessibles m)))) <->
     contains acc (accessibles m) = true /\ startswith acc "_" = false).
  { intros acc. rewrite in_map_iff, Facts.contains_keys. split.
    - intros [a [Heq Hin]]. apply (f_equal message) in Heq.
      injection Heq as ->. apply filter_In in Hin. destruct Hin as [Hk Hs].
      split; [exact Hk|]. now apply negb_true_iff in Hs.
    - intros [Hk Hs]. exists acc. split; [reflexivity|].
      apply filter_In. split; [exact Hk|]. now rewrite Hs. }
  split; [exact Hallowed|]. split; [exact Hsingle|].
  split; [exact Hbody|]. split; [exact Hflag|].
  split; [|split; [|split]].
  - intros acc Hstd Hc. apply Hflag. split; [exact Hc|].
    destruct Hstd as [<-|[<-|[<-|[]]]]; reflexivity.
  - intros acc. split; reflexivity.
  - split; reflexivity.
  - intros cfg fs f Hm Hv [<-|Hf].
    + apply (Catalog.validate_config_includes
               cfg fs rule_interface_classes_single Hv);
        [Catalog.in_total_rules|].
      apply (Facts.body_reported _ _ _ _ _ Hm).
      rewrite Hsingle. now left.
    + destruct (Catalog.validate_config_includes_forbidden cfg fs Hv)
        as [forbidden [Hrule Hincl]].
      apply Hincl.
      exact (proj2 (loop_includes (modules cfg) [] forbidden Hrule)
                   mod_name m _ Hm Hbody f Hf).
Qed.

(** When no module has an empty [interface_classes], the module loop of
    R-CLS-004 returns, and what it returns holds, in this order, the
    findings gathered so far and, as one block each, those of every
    module. *)
Lemma loop_returns_blocks (mods : dict Module_) :
  (forall n x, In (n, x) mods -> interface_classes x <> []) ->
  forall sofar, exists rest,
    rule_forbidden_accessibles_by_class_loop mods sofar
    = Ok (sofar ++ rest)%list /\
    forall mod_name m found,
      In (mod_name, m) mods ->
      rule_forbidden_accessibles_by_class_body mod_name m = Ok found ->
      exists before after, rest = (before ++ found ++ after)%list.
Proof.
  induction mods as [|[n x] r IH]; intros Hne sofar.
  - exists []. cbn [rule_forbidden_accessibles_by_class_loop].
    rewrite app_nil_r. split; [reflexivity | intros ? ? ? []].
  - cbn [rule_forbidden_accessibles_by_class_loop]. unfold bind.
    destruct (rule_forbidden_accessibles_by_class_body n x) as [fx|e] eqn:E.
    + destruct (IH (fun n' x' H => Hne n' x' (or_intror H))
                  (sofar ++ fx)%list) as [rest [Hloop Hblocks]].
      exists (fx ++ rest)%list. split.
      * rewrite Hloop. now rewrite <- app_assoc.
      * intros mod_name m found [Heq|Hin] Hbody.
        -- injection Heq as -> ->. rewrite E in Hbody.
           apply Catalog.Ok_inj in Hbody. subst found.
           now exists [], rest.
        -- destruct (Hblocks mod_name m found Hin Hbody)
             as [before [after ->]].
           exists (fx ++ before)%list, after. now rewrite <- app_assoc.
    + exfalso. unfold rule_forbidden_accessibles_by_class_body in E.
      destruct (interface_classes x) eqn:Ec; [|discriminate E].
      exact (Hne n x (or_introl eq_refl) Ec).
Qed.

(** C9. A module whose [interface_classes] is one element that is none of
    Readable, Writable, Drivable, in a configuration where no module has
    an empty [interface_classes]: R-MOD-001 returns the one
    unrecognized-class ERROR for it, and R-CLS-004, which looks the class
    up and finds no allowed name, returns, as one block of its finding
    list, one ERROR per accessible whose name does not start with an
    underscore, in key order; [value], [status] and [pollinterval] are
    flagged when present, and no underscore-prefixed name is;
    [validate_config] returns a report that holds all of these.
    Beside a module whose [interface_classes] is the empty list the rule
    returns nothing: the module loop raises [IndexError] at that module
    (the defect of C2), and the three R-CLS-004 findings gathered for the
    module with the unrecognized class are lost, as is the report. *)
Theorem unrecognized_class_flagged_unless_rule_raises :
  (forall (cfg : SecNodeConfig) (mod_name cls : string) (m : Module_),
     (forall n x, In (n, x) (modules cfg) -> interface_classes x <> []) ->
     In (mod_name, m) (modules cfg) ->
     interface_classes m = [cls] ->
     str_in cls ["Readable"; "Writable"; "Drivable"] = false ->
     let flagged :=
       map (forbidden_finding mod_name cls)
           (filter (fun acc => negb (startswith acc "_"))
                   (keys (accessibles m))) in
     get allowed_by_class cls = None /\
     (exists before after,
        rule_forbidden_accessibles_by_class cfg
        = Ok (before ++ flagged ++ after)%list) /\
     In (invalid_class mod_name cls) (rule_interface_classes_single cfg) /\
     (exists report,
        validate_config cfg = Ok report /\
        forall f, In f (invalid_class mod_name cls :: flagged) ->
                  In f report) /\
     (forall acc,
        In (forbidden_finding mod_name cls acc) flagged <->
        contains acc (accessibles m) = true /\ startswith acc "_" = false) /\
     (forall acc,
        In acc ["value"; "status"; "pollinterval"] ->
        contains acc (accessibles m) = true ->
        In (forbidden_finding mod_name cls acc) flagged) /\
     (forall acc,
        rule_id (forbidden_finding mod_name cls acc) = "R-CLS-004" /\
        severity (forbidden_finding mod_name cls acc) = ERROR) /\
     (rule_id (invalid_class mod_name cls) = "R-MOD-001" /\
      severity (invalid_class mod_name cls) = ERROR)) /\
  (modules communicator_beside_no_class_node
   = [("c", communicator_module);
      ("m", module_of [] (readable_accessibles base_codes) None)] /\
   interface_classes communicator_module = ["Communicator"] /\
   rule_forbidden_accessibles_by_class_body "c" communicator_module
   = Ok [forbidden_finding "c" "Communicator" "value";
         forbidden_finding "c" "Communicator" "status";
         forbidden_finding "c" "Communicator" "pollinterval"] /\
   rule_forbidden_accessibles_by_class communicator_beside_no_class_node
   = Raise IndexError /\
   validate_config communicator_beside_no_class_node = Raise IndexError).
Proof.
  split.
  - intros cfg mod_name cls m Hne Hm Hcls Hnot. cbv zeta.
    destruct (one_unrecognized_class mod_name cls m Hcls Hnot)
      as [Hallowed [Hsingle [Hbody [Hflag [Hstd [Hids [Hid _]]]]]]].
    destruct (loop_returns_blocks (modules cfg) Hne []) as [rest [Hloop Hblocks]].
    destruct (Hblocks mod_name m _ Hm Hbody) as [before [after ->]].
    cbn [app] in Hloop.
    assert (Hrule : rule_forbidden_accessibles_by_class cfg
                    = Ok (before ++
                          map (forbidden_finding mod_name cls)
                            (filter (fun acc => negb (startswith acc "_"))
                               (keys (accessibles m))) ++ after)%list)
      by exact Hloop.
    assert (Hclass : In (invalid_class mod_name cls)
                        (rule_interface_classes_single cfg)).
    { apply (Facts.body_reported _ _ _ _ _ Hm). rewrite Hsingle. now left. }
    split; [exact Hallowed|].
    split; [now exists before, after|].
    split; [exact Hclass|].
    split; [|split; [exact Hflag|split; [exact Hstd|split;
      [exact Hids|exact Hid]]]].
    destruct (proj2 (Catalog.validate_config_returns_iff cfg)) as [report Hv].
    { eexists. exact Hrule. }
    exists report. split; [exact Hv|].
    intros f [<-|Hf].
    + apply (Catalog.validate_config_includes
               cfg report rule_interface_classes_single Hv);
        [Catalog.in_total_rules | exact Hclass].
    + destruct (Catalog.validate_config_includes_forbidden cfg report Hv)
        as [forbidden [Hrule' Hincl]].
      apply Hincl. rewrite Hrule in Hrule'.
      apply Catalog.Ok_inj in Hrule'. subst forbidden.
      apply in_or_app. right. apply in_or_app. now left.
  - split; [reflexivity|]. split; [reflexivity|].
    split; [vm_compute; reflexivity|].
    split; vm_compute; reflexivity.
Qed.

(** The module of class "Communicator" alone in its node: the rule
    returns its three findings. *)
Lemma unrecognized_class_flagged_witness :
  exists before after,
    rule_forbidden_accessibles_by_class
      (node_of [("c", communicator_module)] None)
    = Ok (before ++
          map (forbidden_finding "c" "Communicator")
            (filter (fun acc => negb (startswith acc "_"))
                    (keys (accessibles communicator_module))) ++ after)%list.
Proof.
  refine (proj1 (proj2
            (proj1 unrecognized_class_flagged_unless_rule_raises
               (node_of [("c", communicator_module)] None)
               "c" "Communicator" communicator_module
               _ (or_introl eq_refl) eq_refl eq_refl))).
  intros n x [H|[]]. injection H as <- <-. discriminate.
Defined.

End ForbiddenAccessibles.

(* ===================================================================== *)
(** ** R-CLS-001 / R-CLS-002 / R-CLS-003: required accessibles            *)
(* ===================================================================== *)

Module RequiredAccessibles.
Import Py Model Types SecopRules Validate Examples Shapes.

Lemma in_missing_of (accs : dict Accessible) (k : string) :
  In k (missing_of accs) <->
  In k ["value"; "status"; "pollinterval"] /\ contains k accs = false.
Proof.
  unfold missing_of. rewrite filter_In, negb_true_iff. tauto.
Qed.

Lemma in_required (m : Module_) (k : string) :
  In k (_required_accessibles_for_module m) <->
  (_is_readable m = true /\ In k ["value"; "status"; "pollinterval"]) \/
  (_is_writable m = true /\ k = "target") \/
  (_is_drivable m = true /\ k = "stop").
Proof.
  unfold _required_accessibles_for_module. rewrite !in_app_iff.
  destruct (_is_readable m), (_is_writable m), (_is_drivable m);
    simpl; intuition congruence.
Qed.

(** Where each finding of the body comes from. *)
Lemma found_cases (mod_name : string) (m : Module_) (f : Finding) :
  In f (rule_required_accessibles_body mod_name m) <->
  (f = missing_readable mod_name (missing_of (accessibles m)) /\
   _is_readable m = true /\ missing_of (accessibles m) <> []) \/
  (f = missing_target mod_name /\
   _is_writable m = true /\ contains "target" (accessibles m) = false) \/
  (f = missing_stop mod_name /\
   _is_drivable m = true /\ contains "stop" (accessibles m) = false).
Proof.
  unfold rule_required_accessibles_body.
  rewrite !in_app_iff.
  destruct (_is_readable m), (_is_writable m), (_is_drivable m),
    (contains "target" (accessibles m)), (contains "stop" (accessibles m)),
    (missing_of (accessibles m)) as [|k0 r0];
    cbn [andb negb In]; intuition congruence.
Qed.

(** C5. The required accessibles follow the lattice Drivable => Writable
    => Readable: a module tagged Readable, Writable or Drivable gets one
    R-CLS-001 ERROR listing the names missing among value, status and
    pollinterval (none when all three are there); tagged Writable or
    Drivable it gets the R-CLS-002 ERROR exactly when target is missing;
    tagged Drivable it gets the R-CLS-003 ERROR exactly when stop is
    missing. The body gives no finding exactly when every name of
    [_required_accessibles_for_module] is defined, and [validate_config]
    reports every finding of the body. *)
Theorem required_accessibles_by_capability (mod_name : string) (m : Module_) :
  let accs := accessibles m in
  let found := rule_required_accessibles_body mod_name m in
  let tagged := tagged m in
  (forall k,
     In k (_required_accessibles_for_module m) <->
     ((tagged "Readable" \/ tagged "Writable" \/ tagged "Drivable") /\
      In k ["value"; "status"; "pollinterval"]) \/
     ((tagged "Writable" \/ tagged "Drivable") /\ k = "target") \/
     (tagged "Drivable" /\ k = "stop")) /\
  (In (missing_readable mod_name (missing_of accs)) found <->
   (tagged "Readable" \/ tagged "Writable" \/ tagged "Drivable") /\
   exists k, In k ["value"; "status"; "pollinterval"] /\
             contains k accs = false) /\
  (forall k,
     In k (missing_of accs) <->
     In k ["value"; "status"; "pollinterval"] /\ contains k accs = false) /\
  (In (missing_target mod_name) found <->
   (tagged "Writable" \/ tagged "Drivable") /\
   contains "target" accs = false) /\
  (In (missing_stop mod_name) found <->
   tagged "Drivable" /\ contains "stop" accs = false) /\
  (forall f,
     In f found ->
     severity f = ERROR /\
     (f = missing_readable mod_name (missing_of accs) \/
      f = missing_target mod_name \/ f = missing_stop mod_name)) /\
  (found = [] <->
   forall k, In k (_required_accessibles_for_module m) ->
             contains k accs = true) /\
  (forall cfg fs f,
     In (mod_name, m) (modules cfg) -> validate_config cfg = Ok fs ->
     In f found -> In f fs).
Proof.
  cbv zeta.
  pose proof (Facts.readable_lattice m) as HR.
  pose proof (Facts.writable_lattice m) as HW.
  pose proof (Facts.drivable_lattice m) as HD.
  pose proof (found_cases mod_name m) as Hcases.
  pose proof (in_missing_of (accessibles m)) as Hmiss.
  pose proof (in_required m) as Hreq.
  assert (Hne : missing_of (accessibles m) <> [] <->
                exists k, In k ["value"; "status"; "pollinterval"] /\
                          contains k (accessibles m) = false).
  { split.
    - destruct (missing_of (accessibles m)) as [|k r] eqn:E; [congruence|].
      intros _. exists k. apply Hmiss. now left.
    - intros [k Hk] E. apply Hmiss in Hk. rewrite E in Hk. exact Hk. }
  split; [|split; [|split; [|split; [|split; [|split; [|split]]]]]].
  - intros k. rewrite Hreq, HR, HW, HD. tauto.
  - split.
    + intros H. apply Hcases in H.
      destruct H as [[_ [Hr Hm]]|[[H _]|[H _]]];
        [split; [now apply HR | now apply Hne] | |];
        apply (f_equal rule_id) in H; discriminate H.
    + intros [Ht Hex]. apply Hcases. left. split; [reflexivity|].
      split; [now apply HR | now apply Hne].
  - exact Hmiss.
  - split.
    + intros H. apply Hcases in H.
      destruct H as [[H _]|[[_ [Hw Hc]]|[H _]]];
        [|split; [now apply HW | exact Hc]|];
        apply (f_equal rule_id) in H; discriminate H.
    + intros [Ht Hc]. apply Hcases. right. left. split; [reflexivity|].
      split; [now apply HW | exact Hc].
  - split.
    + intros H. apply Hcases in H.
      destruct H as [[H _]|[[H _]|[_ [Hd Hc]]]];
        [| |split; [now apply HD | exact Hc]];
        apply (f_equal rule_id) in H; discriminate H.
    + intros [Ht Hc]. apply Hcases. right. right. split; [reflexivity|].
      split; [now apply HD | exact Hc].
  - intros f Hf. apply Hcases in Hf.
    destruct Hf as [[-> _]|[[-> _]|[-> _]]]; split; auto.
  - split.
    + intros Hnil k Hk. apply Hreq in Hk.
      destruct (contains k (accessibles m)) eqn:Ec; [reflexivity|].
      exfalso.
      assert (Hin : exists f,
                 In f (rule_required_accessibles_body mod_name m)).
      { destruct Hk as [[Hr Hk]|[[Hw ->]|[Hd ->]]].
        - exists (missing_readable mod_name (missing_of (accessibles m))).
          apply Hcases. left. split; [reflexivity|]. split; [exact Hr|].
          apply Hne. now exists k.
        - exists (missing_target mod_name). apply Hcases. right. left. auto.
        - exists (missing_stop mod_name). apply Hcases. right. right. auto. }
      destruct Hin as [f Hf]. rewrite Hnil in Hf. exact Hf.
    + intros Hall.
      destruct (rule_required_accessibles_body mod_name m) as [|f r] eqn:E;
        [reflexivity|].
      exfalso.
      assert (Hf : In f (f :: r)) by now left.
      apply Hcases in Hf.
      destruct Hf as [[_ [Hr Hm]]|[[_ [Hw Hc]]|[_ [Hd Hc]]]].
      * apply Hne in Hm. destruct Hm as [k [Hk Hc]].
        rewrite Hall in Hc; [discriminate|]. apply Hreq. left. auto.
      * rewrite Hall in Hc; [discriminate|]. apply Hreq. right. left. auto.
      * rewrite Hall in Hc; [discriminate|]. apply Hreq. right. right. auto.
  - intros cfg fs f Hm Hv Hf.
    apply (Catalog.validate_config_includes
             cfg fs rule_required_accessibles Hv);
      [Catalog.in_total_rules|].
    now apply (Facts.body_reported _ _ _ _ _ Hm).
Qed.

(** A Drivable module without [stop] and [target]: both are reported. *)
Lemma required_accessibles_witness :
  In (missing_stop "m")
     (rule_required_accessibles_body "m"
        (module_of ["Drivable"] (readable_accessibles base_codes) None)).
Proof.
  apply (proj2 (proj1 (proj2 (proj2 (proj2 (proj2
           (required_accessibles_by_capability "m"
              (module_of ["Drivable"] (readable_accessibles base_codes)
                         None)))))))).
  split; [left; reflexivity | reflexivity].
Defined.

End RequiredAccessibles.

(* ===================================================================== *)
(** ** R-STAT-002 .. R-STAT-005: status codes by exact value              *)
(* ===================================================================== *)

Module StatusCodes.
Import Py Model Types SecopRules Validate Examples Shapes.

(** On a well-shaped status the body is steps 2 to 5. *)
Lemma body_on_status_tuple (mod_name : string) (m : Module_)
  (enum_members : dict json) :
  status_tuple m enum_members ->
  rule_status_structure_and_codes_body mod_name m
  = check_status_codes mod_name m enum_members.
Proof.
  intros [status [m0 [m1 [Hget [Htype [Hmem [He [Hs Hd]]]]]]]].
  unfold rule_status_structure_and_codes_body.
  rewrite Hget, Htype, Hmem, He, Hs, Hd. reflexivity.
Qed.

Lemma expected_codes_cases (m : Module_) :
  expected_codes m =
  if _is_drivable m
  then [("IDLE", 100); ("WARN", 200); ("ERROR", 400); ("BUSY", 300)]
  else [("IDLE", 100); ("WARN", 200); ("ERROR", 400)].
Proof. unfold expected_codes. destruct (_is_drivable m); reflexivity. Qed.

Lemma check_expected_code_cases (mod_name : string)
  (enum_members : dict json) (key : string) (code : Z) :
  (maps_to enum_members key code ->
   check_expected_code mod_name enum_members key code = []) /\
  (contains key enum_members = false ->
   check_expected_code mod_name enum_members key code
   = [missing_code mod_name key code]) /\
  (forall v, get enum_members key = Some v -> eq_int v code = false ->
   check_expected_code mod_name enum_members key code
   = [wrong_code mod_name key code (Some v)]).
Proof.
  unfold check_expected_code, contains, maps_to. repeat split.
  - intros [v [-> Hv]]. simpl. now rewrite Hv.
  - destruct (get enum_members key); simpl; [discriminate | reflexivity].
  - intros v -> Hv. simpl. now rewrite Hv.
Qed.

Lemma check_disabled_code_cases (mod_name : string)
  (enum_members : dict json) :
  (contains "DISABLED" enum_members = false ->
   check_disabled_code mod_name enum_members = []) /\
  (maps_to enum_members "DISABLED" 0 ->
   check_disabled_code mod_name enum_members = []) /\
  (forall v, get enum_members "DISABLED" = Some v -> eq_int v 0 = false ->
   check_disabled_code mod_name enum_members
   = [wrong_disabled_code mod_name (Some v)]).
Proof.
  unfold check_disabled_code, contains, maps_to. repeat split.
  - destruct (get enum_members "DISABLED"); simpl;
      [discriminate | reflexivity].
  - intros [v [-> Hv]]. simpl. now rewrite Hv.
  - intros v -> Hv. simpl. now rewrite Hv.
Qed.

Lemma check_extra_keys_cases (mod_name : string) (enum_members : dict json) :
  (extra_labels enum_members = [] ->
   check_extra_keys mod_name enum_members = []) /\
  (extra_labels enum_members <> [] ->
   check_extra_keys mod_name enum_members
   = [extra_members mod_name (sorted (extra_labels enum_members))]).
Proof.
  unfold check_extra_keys, extra_labels. split.
  - intros ->. reflexivity.
  - intros Hne.
    destruct (sorted
                (filter (fun k => negb (str_in k allowed_status_keys))
                        (keys enum_members))) as [|k r] eqn:E.
    + apply (proj1 (Facts.sorted_nil_iff _)) in E. exfalso. exact (Hne E).
    + reflexivity.
Qed.

Lemma in_extra_labels (enum_members : dict json) (k : string) :
  In k (sorted (extra_labels enum_members)) <->
  contains k enum_members = true /\
  ~ In k ["DISABLED"; "IDLE"; "WARN"; "BUSY"; "ERROR"].
Proof.
  rewrite Facts.In_sorted. unfold extra_labels.
  rewrite filter_In, Facts.contains_keys, negb_true_iff.
  rewrite <- (Facts.str_in_iff k ["DISABLED"; "IDLE"; "WARN"; "BUSY"; "ERROR"]).
  change allowed_status_keys
    with ["DISABLED"; "IDLE"; "WARN"; "BUSY"; "ERROR"].
  destruct (str_in k ["DISABLED"; "IDLE"; "WARN"; "BUSY"; "ERROR"]);
    intuition congruence.
Qed.

Lemma check_status_codes_parts (mod_name : string) (m : Module_)
  (enum_members : dict json) :
  check_status_codes mod_name m enum_members
  = (check_expected_code mod_name enum_members "IDLE" 100 ++
     check_expected_code mod_name enum_members "WARN" 200 ++
     check_expected_code mod_name enum_members "ERROR" 400 ++
     (if _is_drivable m
      then check_expected_code mod_name enum_members "BUSY" 300 else []) ++
     check_forbidden_busy mod_name m enum_members ++
     check_disabled_code mod_name enum_members ++
     check_extra_keys mod_name enum_members)%list.
Proof.
  unfold check_status_codes. rewrite expected_codes_cases.
  destruct (_is_drivable m); cbn [flat_map];
    rewrite ?app_nil_r, <- ?app_assoc; reflexivity.
Qed.

Lemma get_app_other {V} (d : dict V) (k key : string) (v : V) :
  key <> k -> get (d ++ [(k, v)])%list key = get d key.
Proof.
  intros Hne. induction d as [|[k' v'] r IH]; cbn [app get].
  - destruct (String.eqb_spec k key) as [->|_]; [contradiction | reflexivity].
  - now rewrite IH.
Qed.

(** A label outside the recognized set changes no ERROR finding: the
    ERRORs of steps 2 to 5 are the same with and without it. *)
Lemma extra_label_adds_no_error (mod_name : string) (m : Module_)
  (enum_members : dict json) (k : string) (v : json) :
  ~ In k ["DISABLED"; "IDLE"; "WARN"; "BUSY"; "ERROR"] ->
  filter is_error
    (check_status_codes mod_name m (enum_members ++ [(k, v)])%list)
  = filter is_error (check_status_codes mod_name m enum_members).
Proof.
  intros Hk.
  assert (Hget : forall key,
            In key ["DISABLED"; "IDLE"; "WARN"; "BUSY"; "ERROR"] ->
            get (enum_members ++ [(k, v)])%list key = get enum_members key).
  { intros key Hin. apply get_app_other. intros ->. exact (Hk Hin). }
  assert (Hextra : forall d,
            filter is_error (check_extra_keys mod_name d) = []).
  { intros d. unfold check_extra_keys.
    destruct (sorted _); reflexivity. }
  rewrite !check_status_codes_parts, !filter_app, !Hextra.
  unfold check_expected_code, check_forbidden_busy, check_disabled_code,
    contains.
  rewrite (Hget "IDLE"), (Hget "WARN"), (Hget "ERROR"), (Hget "BUSY"),
    (Hget "DISABLED"); simpl; tauto.
Qed.

(** C1. For a module whose [status] is a tuple of (enum, string), the
    findings of the status rule are, in this order: for each of IDLE:100,
    WARN:200, ERROR:400 one ERROR if the label is missing from the enum
    or mapped to another code and nothing otherwise; for a Drivable module
    the same for BUSY:300; for a non-Drivable module one ERROR if BUSY is
    a member at all; one ERROR if DISABLED is a member mapped to a code
    other than 0; and, if some label lies outside DISABLED, IDLE, WARN,
    BUSY, ERROR, a single WARNING (never an ERROR) that lists every such
    label; adding such a label to the enum changes none of the ERRORs.
    [validate_config] reports these findings. *)
Theorem status_codes_by_exact_value
  (mod_name : string) (m : Module_) (enum_members : dict json) :
  status_tuple m enum_members ->
  let found := rule_status_structure_and_codes_body mod_name m in
  let on := check_expected_code mod_name enum_members in
  let on_busy := check_forbidden_busy mod_name m enum_members in
  let on_disabled := check_disabled_code mod_name enum_members in
  let on_extra := check_extra_keys mod_name enum_members in
  found = (on "IDLE" 100 ++ on "WARN" 200 ++ on "ERROR" 400 ++
           (if _is_drivable m then on "BUSY" 300 else []) ++
           on_busy ++ on_disabled ++ on_extra)%list /\
  (_is_drivable m = true <-> tagged m "Drivable") /\
  (forall key code,
     (maps_to enum_members key code -> on key code = []) /\
     (contains key enum_members = false ->
      on key code = [missing_code mod_name key code]) /\
     (forall v, get enum_members key = Some v -> eq_int v code = false ->
      on key code = [wrong_code mod_name key code (Some v)]) /\
     severity (missing_code mod_name key code) = ERROR /\
     (forall v, severity (wrong_code mod_name key code v) = ERROR)) /\
  (on_busy = if negb (_is_drivable m) && contains "BUSY" enum_members
             then [busy_forbidden mod_name] else []) /\
  severity (busy_forbidden mod_name) = ERROR /\
  ((contains "DISABLED" enum_members = false -> on_disabled = []) /\
   (maps_to enum_members "DISABLED" 0 -> on_disabled = []) /\
   (forall v, get enum_members "DISABLED" = Some v -> eq_int v 0 = false ->
    on_disabled = [wrong_disabled_code mod_name (Some v)]) /\
   (forall v, severity (wrong_disabled_code mod_name v) = ERROR)) /\
  ((extra_labels enum_members = [] -> on_extra = []) /\
   (extra_labels enum_members <> [] ->
    on_extra
    = [extra_members mod_name (sorted (extra_labels enum_members))]) /\
   (forall k,
      In k (sorted (extra_labels enum_members)) <->
      contains k enum_members = true /\
      ~ In k ["DISABLED"; "IDLE"; "WARN"; "BUSY"; "ERROR"]) /\
   (forall l, severity (extra_members mod_name l) = WARNING)) /\
  (forall k v,
     ~ In k ["DISABLED"; "IDLE"; "WARN"; "BUSY"; "ERROR"] ->
     filter is_error
       (check_status_codes mod_name m (enum_members ++ [(k, v)])%list)
     = filter is_error (check_status_codes mod_name m enum_members)) /\
  (forall cfg fs f,
     In (mod_name, m) (modules cfg) -> validate_config cfg = Ok fs ->
     In f found -> In f fs).
Proof.
  intros Hshape. cbv zeta.
  split; [|split; [|split; [|split; [|split; [|split; [|split; [|split]]]]]]].
  - rewrite (body_on_status_tuple mod_name m enum_members Hshape).
    apply check_status_codes_parts.
  - apply Facts.drivable_lattice.
  - intros key code.
    destruct (check_expected_code_cases mod_name enum_members key code)
      as [H1 [H2 H3]].
    split; [exact H1|]. split; [exact H2|]. split; [exact H3|].
    split; [reflexivity | intros v; reflexivity].
  - reflexivity.
  - reflexivity.
  - destruct (check_disabled_code_cases mod_name enum_members)
      as [H1 [H2 H3]].
    split; [exact H1|]. split; [exact H2|]. split; [exact H3|].
    intros v; reflexivity.
  - destruct (check_extra_keys_cases mod_name enum_members) as [H1 H2].
    split; [exact H1|]. split; [exact H2|].
    split; [apply in_extra_labels | intros l; reflexivity].
  - intros k v. apply extra_label_adds_no_error.
  - intros cfg fs f Hm Hv Hf.
    apply (Catalog.validate_config_includes
             cfg fs rule_status_structure_and_codes Hv);
      [Catalog.in_total_rules|].
    now apply (Facts.body_reported _ _ _ _ _ Hm).
Qed.

Lemma drivable_module_status_tuple (enum_members : dict json) :
  status_tuple (drivable_module enum_members) enum_members.
Proof.
  exists (accessible (status_datainfo enum_members) true),
         [("type", JStr "enum"); ("members", JDict enum_members)],
         [("type", JStr "string")].
  repeat split.
Qed.

(** A Drivable module whose status enum omits BUSY: the BUSY check gives
    the one ERROR "BUSY:300 is required". *)
Lemma status_codes_witness :
  check_expected_code "m" base_codes "BUSY" 300
  = [missing_code "m" "BUSY" 300].
Proof.
  apply (proj1 (proj2 (proj1 (proj2 (proj2
           (status_codes_by_exact_value "m" drivable_without_busy base_codes
              (drivable_module_status_tuple base_codes))))
           "BUSY" 300))).
  reflexivity.
Defined.

(** The two cases of the Drivable example, on the whole rule body. *)
Example drivable_without_busy_findings :
  rule_status_structure_and_codes_body "m" drivable_without_busy
  = [missing_code "m" "BUSY" 300].
Proof. vm_compute. reflexivity. Qed.

Example drivable_busy_100_findings :
  rule_status_structure_and_codes_body "m" drivable_busy_100
  = [wrong_code "m" "BUSY" 300 (Some (JInt 100))].
Proof. vm_compute. reflexivity. Qed.

End StatusCodes.

(* ===================================================================== *)
(** ** R-PLC-032 / R-PLC-033: target mapping by type                      *)
(* ===================================================================== *)

Module TargetMapping.
Import Py Model Types SecopRules PlcRules Validate Examples Shapes.

Lemma strip_enum : strip "enum" = "enum".
Proof. reflexivity. Qed.

(** C6. For a module with an x-plc block and a [target] accessible; the
    target's type is compared as the rule compares it, trimmed of white
    space (a type that is "enum" is "enum" trimmed, and every type is in
    one of the two cases).
    If the type is "enum": a [write_stmt] that is given yields the one
    ERROR forbidding it (an absent or empty one yields nothing), an absent
    or empty [enum_tag] yields one WARNING, and a [reach_abs_tolerance]
    that is present yields an ERROR. If the type is not "enum": an
    [enum_tag] that is given yields an ERROR and an absent or empty
    [write_stmt] yields a WARNING. Given and empty are those of
    [_is_empty]; the findings of the three (resp. two) checks are pairwise
    different, the rule returns them for every configuration that has the
    module, and [validate_config] reports them. *)
Theorem target_mapping_by_type
  (mod_name : string) (m : Module_) (xplc : PlcModuleConfig)
  (target : Accessible) :
  mod_x_plc m = Some xplc ->
  get (accessibles m) "target" = Some target ->
  let found := rule_xplc_target_mapping_by_type_body mod_name m in
  let t_cfg := xp_target xplc in
  let t_type := strip (di_type (datainfo target)) in
  (di_type (datainfo target) = "enum" -> t_type = "enum") /\
  (t_type = "enum" ->
   exists on_write on_tag on_tolerance,
     found = (on_write ++ on_tag ++ on_tolerance)%list /\
     (field_given t_cfg write_stmt ->
      on_write = [write_stmt_on_enum mod_name]) /\
     (field_absent_or_empty t_cfg write_stmt -> on_write = []) /\
     (field_absent_or_empty t_cfg tgt_enum_tag ->
      on_tag = [enum_tag_missing mod_name]) /\
     (field_given t_cfg tgt_enum_tag -> on_tag = []) /\
     (forall c tol, t_cfg = Some c -> reach_abs_tolerance c = Some tol ->
      on_tolerance = [tolerance_on_enum mod_name]) /\
     (has_tolerance t_cfg = false -> on_tolerance = [])) /\
  (t_type <> "enum" ->
   exists on_tag on_write,
     found = (on_tag ++ on_write)%list /\
     (field_given t_cfg tgt_enum_tag ->
      on_tag = [enum_tag_on_non_enum mod_name t_type]) /\
     (field_absent_or_empty t_cfg tgt_enum_tag -> on_tag = []) /\
     (field_absent_or_empty t_cfg write_stmt ->
      on_write = [write_stmt_missing mod_name]) /\
     (field_given t_cfg write_stmt -> on_write = [])) /\
  (severity (write_stmt_on_enum mod_name) = ERROR /\
   severity (enum_tag_missing mod_name) = WARNING /\
   severity (tolerance_on_enum mod_name) = ERROR /\
   severity (enum_tag_on_non_enum mod_name t_type) = ERROR /\
   severity (write_stmt_missing mod_name) = WARNING) /\
  (write_stmt_on_enum mod_name <> enum_tag_missing mod_name /\
   write_stmt_on_enum mod_name <> tolerance_on_enum mod_name /\
   enum_tag_missing mod_name <> tolerance_on_enum mod_name /\
   enum_tag_on_non_enum mod_name t_type <> write_stmt_missing mod_name) /\
  (forall cfg f,
     In (mod_name, m) (modules cfg) -> In f found ->
     In f (rule_xplc_target_mapping_by_type cfg)) /\
  (forall cfg fs f,
     In (mod_name, m) (modules cfg) -> validate_config cfg = Ok fs ->
     In f found -> In f fs).
Proof.
  intros Hx Ht. cbv zeta.
  split; [intros ->; exact strip_enum|].
  assert (Hrule : forall cfg f,
            In (mod_name, m) (modules cfg) ->
            In f (rule_xplc_target_mapping_by_type_body mod_name m) ->
            In f (rule_xplc_target_mapping_by_type cfg)).
  { intros cfg f Hm Hf. exact (Facts.body_reported _ _ _ _ _ Hm Hf). }
  unfold rule_xplc_target_mapping_by_type_body. rewrite Hx, Ht.
  split; [|split; [|split; [|split; [|split]]]].
  - intros He. rewrite He, String.eqb_refl.
    eexists _, _, _. split; [reflexivity|].
    split; [|split; [|split; [|split; [|split]]]].
    + intros H. now rewrite (Facts.has_text_given _ _ H).
    + intros H. now rewrite (Facts.has_text_absent _ _ H).
    + intros H. now rewrite (Facts.has_text_absent _ _ H).
    + intros H. now rewrite (Facts.has_text_given _ _ H).
    + intros c tol -> Htol. unfold has_tolerance. now rewrite Htol.
    + intros ->. reflexivity.
  - intros Hne. apply String.eqb_neq in Hne. rewrite Hne.
    eexists _, _. split; [reflexivity|].
    split; [|split; [|split]].
    + intros H. now rewrite (Facts.has_text_given _ _ H).
    + intros H. now rewrite (Facts.has_text_absent _ _ H).
    + intros H. now rewrite (Facts.has_text_absent _ _ H).
    + intros H. now rewrite (Facts.has_text_given _ _ H).
  - repeat split.
  - repeat split; intros H; apply (f_equal message) in H; discriminate H.
  - intros cfg f Hm Hf. apply (Hrule cfg f Hm).
    unfold rule_xplc_target_mapping_by_type_body. rewrite Hx, Ht. exact Hf.
  - intros cfg fs f Hm Hv Hf.
    apply (Catalog.validate_config_includes
             cfg fs rule_xplc_target_mapping_by_type Hv);
      [Catalog.in_total_rules|].
    apply (Hrule cfg f Hm).
    unfold rule_xplc_target_mapping_by_type_body. rewrite Hx, Ht. exact Hf.
Qed.

(** The enum target with a [write_stmt]: the first check gives the ERROR. *)
Lemma target_mapping_witness :
  exists on_write on_tag on_tolerance,
    rule_xplc_target_mapping_by_type_body "m" enum_target_module
    = (on_write ++ on_tag ++ on_tolerance)%list /\
    on_write = [write_stmt_on_enum "m"].
Proof.
  destruct (proj1 (proj2 (target_mapping_by_type "m" enum_target_module
                            enum_target_xplc (accessible enum_datainfo false)
                            eq_refl eq_refl)) eq_refl)
    as [on_write [on_tag [on_tolerance [Hfound [Hgiven _]]]]].
  exists on_write, on_tag, on_tolerance. split; [exact Hfound|].
  apply Hgiven. exists enum_target_tooling. split; reflexivity.
Defined.

(** The enum target with a [write_stmt] and no [enum_tag]: exactly the
    ERROR on [write_stmt] and the WARNING on [enum_tag]. *)
Example enum_target_with_write_stmt :
  rule_xplc_target_mapping_by_type_body "m" enum_target_module
  = [write_stmt_on_enum "m"; enum_tag_missing "m"].
Proof. vm_compute. reflexivity. Qed.

(** White space around the type and a [write_stmt] of white space only:
    the target is an enum target and its [write_stmt] is empty, so the
    only finding is the WARNING on [enum_tag]. *)
Example enum_target_with_stray_white_space :
  rule_xplc_target_mapping_by_type_body "m" enum_nbsp_target_module
  = [enum_tag_missing "m"].
Proof. vm_compute. reflexivity. Qed.

End TargetMapping.

(* ===================================================================== *)
(** ** R-PLC-022 / R-PLC-023: disabled-state coherence                    *)
(* ===================================================================== *)

Module DisabledCoherence.
Import Py Model Types SecopRules PlcRules Validate Examples Shapes.

Lemma status_has_disabled_0_iff (m : Module_) :
  status_has_disabled_0 m = true <->
  exists enum_members,
    _status_enum_members m = Some enum_members /\
    maps_to enum_members "DISABLED" 0.
Proof.
  unfold status_has_disabled_0, maps_to, opt_eq_int.
  destruct (_status_enum_members m) as [d|].
  - split.
    + intros H. exists d. split; [reflexivity|].
      destruct (get d "DISABLED") as [v|]; [|discriminate].
      now exists v.
    + intros [d' [Heq [v [Hget Hv]]]]. injection Heq as <-.
      now rewrite Hget.
  - split; [discriminate|]. intros [d' [Heq _]]. discriminate.
Qed.

(** C7, as stated, fails: a module whose status enum declares DISABLED:0
    and that has no tooling block at all has both disabled-condition
    fields missing, and the catalog emits no WARNING (no finding
    whatsoever) for it. *)
Lemma disabled_fields_missing_without_warning :
  ~ (status_has_disabled_0 disabled_module = true ->
     field_absent_or_empty (xplc_status disabled_module) disabled_expr ->
     exists fs f,
       validate_config disabled_node = Ok fs /\
       In f fs /\ severity f = WARNING).
Proof.
  intros H.
  destruct (H eq_refl I) as [fs [f [Hv [Hin _]]]].
  assert (Hnone : validate_config disabled_node = Ok []) by
    (vm_compute; reflexivity).
  rewrite Hnone in Hv. apply Catalog.Ok_inj in Hv. subst fs. exact Hin.
Qed.

(** C7, amended. The rule looks only at modules whose tooling block has a
    status section; for the others it gives no finding. For a module with
    a status section: if [disabled_expr] or [disabled_description] is
    given while the status enum has no DISABLED member equal to 0, the
    rule gives its one ERROR; if the status enum has DISABLED equal to 0,
    it gives one WARNING for each of the two fields that is absent or
    empty, and nothing else; with neither, nothing. Empty is that of
    [_is_empty]: absent, or white space only. The rule returns these
    findings for every configuration that has the module, and
    [validate_config] reports them. *)
Theorem disabled_fields_coherent_given_status_section
  (mod_name : string) (m : Module_) :
  let found := rule_xplc_status_disabled_fields_coherent_body mod_name m in
  (xplc_status m = None -> found = []) /\
  (forall st, xplc_status m = Some st ->
     (status_has_disabled_0 m = false ->
      (_is_empty (disabled_expr st) = false \/
       _is_empty (disabled_description st) = false) ->
      found = [disabled_error mod_name]) /\
     (status_has_disabled_0 m = false ->
      _is_empty (disabled_expr st) = true ->
      _is_empty (disabled_description st) = true ->
      found = []) /\
     (status_has_disabled_0 m = true ->
      found
      = ((if _is_empty (disabled_expr st)
          then [disabled_warning mod_name "disabled_expr"] else []) ++
         (if _is_empty (disabled_description st)
          then [disabled_warning mod_name "disabled_description"]
          else []))%list)) /\
  (status_has_disabled_0 m = true <->
   exists enum_members,
     _status_enum_members m = Some enum_members /\
     maps_to enum_members "DISABLED" 0) /\
  (xplc_status m = None <->
   mod_x_plc m = None \/
   exists xplc, mod_x_plc m = Some xplc /\ xp_status xplc = None) /\
  (severity (disabled_error mod_name) = ERROR /\
   forall field, severity (disabled_warning mod_name field) = WARNING) /\
  (forall cfg f,
     In (mod_name, m) (modules cfg) -> In f found ->
     In f (rule_xplc_status_disabled_fields_coherent cfg)) /\
  (forall cfg fs f,
     In (mod_name, m) (modules cfg) -> validate_config cfg = Ok fs ->
     In f found -> In f fs).
Proof.
  cbv zeta. unfold rule_xplc_status_disabled_fields_coherent_body.
  split; [|split; [|split; [|split; [|split; [|split]]]]].
  - intros ->. reflexivity.
  - intros st ->. split; [|split].
    + intros -> [H|H]; rewrite H; simpl;
        [reflexivity | rewrite orb_true_r; reflexivity].
    + intros -> -> ->. reflexivity.
    + intros ->. simpl. rewrite andb_false_r. reflexivity.
  - apply status_has_disabled_0_iff.
  - unfold xplc_status. destruct (mod_x_plc m) as [xplc|].
    + split.
      * intros H. right. now exists xplc.
      * intros [H|[x [Heq H]]]; [discriminate|]. now injection Heq as <-.
    + split; [now left | reflexivity].
  - split; [reflexivity | intros field; reflexivity].
  - intros cfg f Hm Hf. now apply (Facts.body_reported _ _ _ _ _ Hm).
  - intros cfg fs f Hm Hv Hf.
    apply (Catalog.validate_config_includes
             cfg fs rule_xplc_status_disabled_fields_coherent Hv);
      [Catalog.in_total_rules|].
    now apply (Facts.body_reported _ _ _ _ _ Hm).
Qed.

(** A [disabled_expr] on a module whose status enum has no DISABLED. *)
Lemma disabled_fields_coherent_witness :
  rule_xplc_status_disabled_fields_coherent_body "m" disabled_expr_module
  = [disabled_error "m"].
Proof.
  apply (proj1 (proj1 (proj2
           (disabled_fields_coherent_given_status_section
              "m" disabled_expr_module))
           disabled_expr_tooling eq_refl)).
  - reflexivity.
  - left. reflexivity.
Defined.

(** A [disabled_expr] of white space only is empty: on a module whose
    status enum has no DISABLED the rule gives nothing, and on one whose
    status enum has DISABLED:0 it gives the two WARNINGs. *)
Example disabled_expr_of_white_space :
  let st := {| disabled_expr := Some NBSP; disabled_description := Some "";
               hw_error_expr := Some ""; hw_error_description := Some "" |} in
  let xplc := {| timestamp_tag := None; xp_value := None;
                 xp_status := Some st;
                 xp_target := None; xp_clear_errors := None |} in
  rule_xplc_status_disabled_fields_coherent_body "m"
    (module_of ["Readable"] (readable_accessibles base_codes) (Some xplc))
  = [] /\
  rule_xplc_status_disabled_fields_coherent_body "m"
    (module_of ["Readable"]
       (readable_accessibles (("DISABLED", JInt 0) :: base_codes))
       (Some xplc))
  = [disabled_warning "m" "disabled_expr";
     disabled_warning "m" "disabled_description"].
Proof. vm_compute. split; reflexivity. Qed.

End DisabledCoherence.

(* ===================================================================== *)
(** ** R-PLC-010 / R-PLC-020 / R-PLC-031: tooling fields not configured   *)
(* ===================================================================== *)

Module ToolingAbsence.
Import Py Model Types SecopRules PlcRules Validate Examples Shapes.






(** A field of white space only is empty, whatever the white space: with
    [server_ip] and [timestamp_tag] one no-break space each and
    [read_expr] an ideographic space, the report is the one of the empty
    blocks. *)
Example white_space_fields_are_empty :
  validate_config
    (node_of
       [("m", module_of ["Readable"] (readable_accessibles base_codes)
                (Some {| timestamp_tag := Some NBSP;
                         xp_value :=
                           Some {| read_expr := Some IDEOGRAPHIC_SPACE;
                                   val_enum_tag := None;
                                   enum_member_map := None |};
                         xp_status := None; xp_target := None;
                         xp_clear_errors := None |}))]
       (Some {| tcp := Some {| server_ip := Some NBSP; server_port := None;
                               interface_healthy_tag := None |};
                secop_version := None; plc_timestamp_tag := None |}))
  = validate_config readable_node_empty_blocks.
Proof. vm_compute. reflexivity. Qed.

End ToolingAbsence.

(* ===================================================================== *)
(** ** Totality of the catalog                                            *)
(* ===================================================================== *)

Module Totality.
Import Py Model Types SecopRules PlcRules Validate Examples Shapes.

(** The module loop of R-CLS-004 returns exactly when no module has an
    empty [interface_classes]. *)
Lemma forbidden_loop_returns_iff (mods : dict Module_) :
  forall sofar,
    returns (rule_forbidden_accessibles_by_class_loop mods sofar) <->
    forall mod_name m, In (mod_name, m) mods -> interface_classes m <> [].
Proof.
  induction mods as [|[n x] r IH]; intros sofar;
    cbn [rule_forbidden_accessibles_by_class_loop].
  - split; [intros _ ? ? [] | intros _; eexists; reflexivity].
  - unfold rule_forbidden_accessibles_by_class_body at 1.
    destruct (interface_classes x) as [|cls rest] eqn:E; unfold bind.
    + split.
      * intros [a H]. discriminate.
      * intros H. exfalso. apply (H n x); [now left | exact E].
    + split.
      * intros H mod_name m [Heq|Hin].
        -- injection Heq as <- <-. rewrite E. discriminate.
        -- exact (proj1 (IH _) H mod_name m Hin).
      * intros H. apply (proj2 (IH _)).
        intros mod_name m Hin. apply (H mod_name m). now right.
Qed.

(** [validate_config] returns a finding list exactly when every module has
    at least one interface class; otherwise it raises. *)
Lemma validate_config_returns_iff_classes (cfg : SecNodeConfig) :
  returns (validate_config cfg) <->
  forall mod_name m,
    In (mod_name, m) (modules cfg) -> interface_classes m <> [].
Proof.
  rewrite Catalog.validate_config_returns_iff.
  apply forbidden_loop_returns_iff.
Qed.

(** C2, at the failing input: on a configuration with a module whose
    [interface_classes] is the empty list, R-CLS-004 raises [IndexError],
    and so does [validate_config]; no finding list is returned. *)
Theorem validate_config_raises_on_empty_interface_classes :
  rule_forbidden_accessibles_by_class no_class_node = Raise IndexError /\
  validate_config no_class_node = Raise IndexError /\
  ~ returns (validate_config no_class_node).
Proof.
  split; [vm_compute; reflexivity|].
  split; [vm_compute; reflexivity|].
  intros [fs H]. vm_compute in H. discriminate H.
Qed.

End Totality.

(* ===================================================================== *)
(** ** The serialised report                                              *)
(* ===================================================================== *)

Module Serialisation.
Import Py Model Types Validate Reporting.

Lemma severity_cases (sev : Severity) : sev = ERROR \/ sev = WARNING.
Proof. destruct sev; auto. Qed.

Lemma to_dict_severity (f : Finding) :
  get (to_dict f) "severity" = Some (RStr (Severity_value (severity f))).
Proof.
  unfold to_dict, drop_if_falsy, asdict.
  destruct f as [rid sev p msg h c refs]. cbn [rule_id severity path message
    hint category plc_refs].
  destruct h as [h|]; [remember (text_is_empty h) as eh; destruct eh|];
    (destruct c as [c|]; [remember (c =? "")%string as ec; destruct ec|]);
    destruct refs as [|r0 refs];
    cbn; rewrite <- ?Heqeh, <- ?Heqec; cbn; rewrite <- ?Heqec; cbn;
    reflexivity.
Qed.

(** X1. [to_dict] always carries rule_id, severity (as "ERROR" or
    "WARNING"), path and message, in this order, followed by those of
    hint, category and plc_refs that are not empty: an optional field that
    is [None], an empty string or an empty list has no key at all, and one
    that is not empty is carried unchanged. *)
Theorem to_dict_omits_empty_optionals (f : Finding) :
  let d := to_dict f in
  let has_hint :=
    match hint f with Some h => negb (text_is_empty h) | None => false end in
  let has_category :=
    match category f with Some c => negb (c =? "")%string | None => false end in
  let has_refs := match plc_refs f with [] => false | _ :: _ => true end in
  keys d
  = (["rule_id"; "severity"; "path"; "message"] ++
     (if has_hint then ["hint"] else []) ++
     (if has_category then ["category"] else []) ++
     (if has_refs then ["plc_refs"] else []))%list /\
  get d "rule_id" = Some (RStr (rule_id f)) /\
  get d "severity" = Some (RStr (Severity_value (severity f))) /\
  get d "path" = Some (RStr (path f)) /\
  get d "message" = Some (RText (message f)) /\
  (get d "hint"
   = if has_hint then option_map RText (hint f) else None) /\
  (get d "category"
   = if has_category then option_map RStr (category f) else None) /\
  (get d "plc_refs"
   = if has_refs then Some (RList (plc_refs f)) else None) /\
  (Severity_value (severity f) = "ERROR" \/
   Severity_value (severity f) = "WARNING").
Proof.
  cbv zeta. unfold to_dict, drop_if_falsy, asdict.
  destruct f as [rid sev p msg h c refs]. cbn [rule_id severity path message
    hint category plc_refs].
  assert (Hsev : Severity_value sev = "ERROR" \/ Severity_value sev = "WARNING")
    by (destruct sev; auto).
  destruct h as [h|]; [remember (text_is_empty h) as eh; destruct eh|];
    (destruct c as [c|]; [remember (c =? "")%string as ec; destruct ec|]);
    destruct refs as [|r0 refs];
    cbn; rewrite <- ?Heqeh, <- ?Heqec; cbn; rewrite <- ?Heqec; cbn;
    repeat split; auto.
Qed.

(** X2. The report agrees with itself: the two counts of the summary add
    up to the number of serialised findings, which is the number of
    findings given, and the error count is the number of serialised
    findings whose severity reads "ERROR". *)
Theorem build_report_counts (findings : list Finding) :
  let r := build_report findings in
  (summary_errors r + summary_warnings r)%nat = length (report_findings r) /\
  length (report_findings r) = length findings /\
  length
    (filter (fun d => match get d "severity" with
                      | Some (RStr s) => (s =? "ERROR")%string
                      | _ => false
                      end)
            (report_findings r))
  = summary_errors r.
Proof.
  cbv zeta. unfold build_report, count_severity.
  cbn [summary_errors summary_warnings report_findings].
  rewrite length_map. split; [|split; [reflexivity|]].
  - induction findings as [|f r IH]; [reflexivity|].
    cbn [filter length]. destruct (severity f); cbn [Severity_eqb length];
      lia.
  - induction findings as [|f r IH]; [reflexivity|].
    cbn [map filter].
    rewrite (to_dict_severity f).
    destruct (severity f); cbn [Severity_value Severity_eqb];
      cbn; rewrite IH; reflexivity.
Qed.

End Serialisation.

(* ===================================================================== *)
(** ** The orchestrator and the module loops                              *)
(* ===================================================================== *)

Module Orchestrator.
Import Py Model Types SecopRules PlcRules Validate Examples Conformance.

(** Split [H : In f (a ++ b ++ ...)] into one case per rule and close each
    case by naming the rule. *)
Ltac trace_rule cfg H :=
  repeat (apply in_app_or in H; destruct H as [H|H]);
  try (lazymatch type of H with
       | In _ (?r cfg) =>
           left; exists r; split; [Catalog.in_total_rules | exact H]
       end).

(** X3. When [validate_config] returns, its list holds the findings of the
    rules of the catalog and nothing else: a finding is in the list exactly
    when one of the rules gives it. *)
Theorem validate_config_findings_come_from_rules
  (cfg : SecNodeConfig) (fs : list Finding) :
  validate_config cfg = Ok fs ->
  forall f,
    In f fs <->
    (exists rule, In rule total_rules /\ In f (rule cfg)) \/
    (exists forbidden,
       rule_forbidden_accessibles_by_class cfg = Ok forbidden /\
       In f forbidden).
Proof.
  intros Hv f. split.
  - revert Hv. unfold validate_config, extend, bind. cbv beta zeta.
    destruct (rule_forbidden_accessibles_by_class cfg) as [forbidden|e];
      [|discriminate].
    intros Hv. apply Catalog.Ok_inj in Hv. subst fs. intros H.
    trace_rule cfg H.
    + destruct H.
    + right. exists forbidden. split; [reflexivity | exact H].
  - intros [[rule [Hr Hf]]|[forbidden [Hr Hf]]].
    + exact (Catalog.validate_config_includes cfg fs rule Hv Hr f Hf).
    + destruct (Catalog.validate_config_includes_forbidden cfg fs Hv)
        as [forbidden' [Hr' Hincl]].
      rewrite Hr in Hr'. apply Catalog.Ok_inj in Hr'. subst forbidden'.
      now apply Hincl.
Qed.

Lemma validate_config_findings_witness :
  In (readonly_finding "m" "status"
        "Accessible 'status' must have readonly=true.")
     [readonly_finding "m" "status"
        "Accessible 'status' must have readonly=true."] <->
  (exists rule,
     In rule total_rules /\
     In (readonly_finding "m" "status"
           "Accessible 'status' must have readonly=true.")
        (rule readable_node_status_default)) \/
  (exists forbidden,
     rule_forbidden_accessibles_by_class readable_node_status_default
     = Ok forbidden /\
     In (readonly_finding "m" "status"
           "Accessible 'status' must have readonly=true.") forbidden).
Proof.
  apply (validate_config_findings_come_from_rules
           readable_node_status_default
           [readonly_finding "m" "status"
              "Accessible 'status' must have readonly=true."]).
  vm_compute. reflexivity.
Defined.

(** A rule that loops over the modules gives nothing without modules. *)
Lemma module_rule_without_modules (cfg : SecNodeConfig)
  (rule : SecNodeConfig -> list Finding) :
  modules cfg = [] -> In rule module_rules -> rule cfg = [].
Proof.
  intros Hm Hr. unfold module_rules in Hr.
  repeat (destruct Hr as [<-|Hr];
          [lazymatch goal with
           | |- ?r cfg = [] =>
               unfold r, for_each_accessible, for_each_module;
               rewrite Hm; reflexivity
           end|]).
  destruct Hr.
Qed.

Ltac in_module_rules :=
  unfold module_rules;
  repeat lazymatch goal with
         | |- In ?r (?r :: _) => left; reflexivity
         | |- In _ (_ :: _) => right
         end.

(** X4. A node without modules: [validate_config] returns the R-NODE-001
    ERROR followed by the node-level tooling findings and nothing else;
    no rule that works per module contributes. With at least one module
    R-NODE-001 gives nothing. *)
Theorem validate_config_without_modules (cfg : SecNodeConfig) :
  (modules cfg = [] ->
   validate_config cfg
   = Ok (mk "R-NODE-001" ERROR "$.modules"
            [Lit "Node must contain at least one module"]
         :: rule_xplc_node_fields_configured cfg) /\
   has_errors (mk "R-NODE-001" ERROR "$.modules"
                  [Lit "Node must contain at least one module"]
               :: rule_xplc_node_fields_configured cfg) = true) /\
  (modules cfg <> [] -> rule_non_empty_modules cfg = []).
Proof.
  split.
  - intros Hm. split; [|reflexivity].
    unfold validate_config, extend, bind. cbv beta zeta.
    assert (Hf : rule_forbidden_accessibles_by_class cfg = Ok []).
    { unfold rule_forbidden_accessibles_by_class. now rewrite Hm. }
    assert (Hn : rule_non_empty_modules cfg
                 = [mk "R-NODE-001" ERROR "$.modules"
                       [Lit "Node must contain at least one module"]]).
    { unfold rule_non_empty_modules. now rewrite Hm. }
    rewrite Hf, Hn.
    repeat match goal with
           | |- context [?r cfg] =>
               lazymatch r with
               | rule_xplc_node_fields_configured => fail
               | _ =>
                   rewrite (module_rule_without_modules cfg r Hm
                              ltac:(in_module_rules))
               end
           end.
    rewrite !app_nil_r. reflexivity.
  - intros Hm. unfold rule_non_empty_modules.
    destruct (modules cfg); [contradiction | reflexivity].
Qed.

Lemma validate_config_without_modules_witness :
  validate_config (node_of [] None)
  = Ok (mk "R-NODE-001" ERROR "$.modules"
           [Lit "Node must contain at least one module"]
        :: rule_xplc_node_fields_configured (node_of [] None)).
Proof.
  apply (proj1 (proj1 (validate_config_without_modules (node_of [] None))
                  eq_refl)).
Defined.

End Orchestrator.

(* ===================================================================== *)
(** ** Modules are validated independently                                *)
(* ===================================================================== *)

Module Locality.
Import Py Model Types SecopRules PlcRules Validate Examples Conformance.

Lemma forbidden_loop_app (mods : dict Module_) (mod_name : string)
  (m : Module_) :
  forall sofar,
    rule_forbidden_accessibles_by_class_loop
      (mods ++ [(mod_name, m)])%list sofar
    = (fs <- rule_forbidden_accessibles_by_class_loop mods sofar ;;
       found <- rule_forbidden_accessibles_by_class_body mod_name m ;;
       Ok (fs ++ found)%list).
Proof.
  induction mods as [|[n x] r IH]; intros sofar;
    cbn [app rule_forbidden_accessibles_by_class_loop bind].
  - destruct (rule_forbidden_accessibles_by_class_body mod_name m);
      reflexivity.
  - destruct (rule_forbidden_accessibles_by_class_body n x) as [fx|e];
      cbn [bind]; [apply IH | reflexivity].
Qed.

(** X5. Adding a module under a new name leaves the findings of the other
    modules as they are: for every rule that loops over the modules, the
    findings of the larger configuration are those of the smaller one
    followed by those of the new module taken alone; R-CLS-004 behaves the
    same way (and raises if it raises on either part); the node-level
    tooling rule does not change. *)
Theorem rules_are_local_to_a_module
  (cfg : SecNodeConfig) (mod_name : string) (m : Module_) :
  contains mod_name (modules cfg) = false ->
  (forall rule,
     In rule module_rules ->
     rule (with_module cfg mod_name m)
     = (rule cfg ++ rule (only_module cfg mod_name m))%list) /\
  rule_forbidden_accessibles_by_class (with_module cfg mod_name m)
  = (fs <- rule_forbidden_accessibles_by_class cfg ;;
     found <- rule_forbidden_accessibles_by_class
                (only_module cfg mod_name m) ;;
     Ok (fs ++ found)%list) /\
  rule_xplc_node_fields_configured (with_module cfg mod_name m)
  = rule_xplc_node_fields_configured cfg.
Proof.
  intros _. split; [|split].
  - intros rule Hr. unfold module_rules in Hr.
    repeat (destruct Hr as [<-|Hr];
            [lazymatch goal with
             | |- ?r _ = _ =>
                 unfold r, for_each_accessible, for_each_module;
                 cbn [modules with_module only_module];
                 rewrite flat_map_app; cbn [flat_map];
                 rewrite app_nil_r; reflexivity
             end|]).
    destruct Hr.
  - unfold rule_forbidden_accessibles_by_class.
    cbn [modules with_module only_module
         rule_forbidden_accessibles_by_class_loop].
    rewrite forbidden_loop_app.
    destruct (rule_forbidden_accessibles_by_class_loop (modules cfg) [])
      as [fs|e]; cbn [bind]; [|reflexivity].
    destruct (rule_forbidden_accessibles_by_class_body mod_name m);
      reflexivity.
  - reflexivity.
Qed.

(** A second module "n" beside "m". *)
Lemma rules_are_local_witness :
  rule_status_structure_and_codes
    (with_module readable_node "n" drivable_without_busy)
  = (rule_status_structure_and_codes readable_node ++
     rule_status_structure_and_codes
       (only_module readable_node "n" drivable_without_busy))%list.
Proof.
  apply (proj1 (rules_are_local_to_a_module readable_node "n"
                  drivable_without_busy eq_refl)).
  unfold module_rules.
  repeat lazymatch goal with
         | |- In ?r (?r :: _) => left; reflexivity
         | |- In _ (_ :: _) => right
         end.
Defined.

End Locality.

(* ===================================================================== *)
(** ** Verdicts of the protocol rules                                     *)
(* ===================================================================== *)

Module ProtocolVerdicts.
Import Py Model Types SecopRules Validate Examples Shapes Conformance.

(** X6. R-MOD-001 gives nothing exactly when [interface_classes] is one
    element among Readable, Writable, Drivable, and exactly one ERROR in
    every other case (no class, several classes, an unknown class). *)
Theorem interface_classes_single_verdict (mod_name : string) (m : Module_) :
  let found := rule_interface_classes_single_body mod_name m in
  (found = [] <->
   exists cls, interface_classes m = [cls] /\
               In cls ["Readable"; "Writable"; "Drivable"]) /\
  (found <> [] ->
   exists f, found = [f] /\ severity f = ERROR /\ rule_id f = "R-MOD-001") /\
  (length (interface_classes m) <> 1%nat ->
   found = [not_one_class mod_name]).
Proof.
  cbv zeta. unfold rule_interface_classes_single_body.
  destruct (interface_classes m) as [|cls [|c2 r]].
  - split; [|split].
    + split; [discriminate | intros [c [H _]]; discriminate].
    + intros _. eexists. repeat split.
    + reflexivity.
  - destruct (str_in cls ["Readable"; "Writable"; "Drivable"]) eqn:E;
      cbn [negb]; (split; [|split]).
    + split; [|reflexivity]. intros _. exists cls. split; [reflexivity|].
      now apply Facts.str_in_iff.
    + intros H. now contradiction H.
    + intros H. now contradiction H.
    + split; [discriminate|]. intros [c [Heq Hin]].
      injection Heq as <-. apply Facts.str_in_iff in Hin. congruence.
    + intros _. eexists. repeat split.
    + intros H. now contradiction H.
  - split; [|split].
    + split; [discriminate | intros [c [H _]]; discriminate].
    + intros _. eexists. repeat split.
    + reflexivity.
Qed.

Lemma interface_classes_single_witness :
  rule_interface_classes_single_body "m"
    (module_of ["Readable"; "Drivable"] [] None)
  = [not_one_class "m"].
Proof.
  apply (proj2 (proj2 (interface_classes_single_verdict "m"
                         (module_of ["Readable"; "Drivable"] [] None)))).
  discriminate.
Defined.

(** X7. R-MOD-002 gives nothing exactly when the module declares no
    feature and has no accessible named [offset]: every declared feature,
    HasOffset included, is an ERROR, and an [offset] accessible is an
    ERROR whatever the interface class and the datainfo; with no feature
    it is the only finding. The rule never gives a WARNING. *)
Theorem features_and_offset_verdict (mod_name : string) (m : Module_) :
  let found :=
    rule_features_and_offset_not_supported_on_plc_body mod_name m in
  (found = [] <->
   features m = [] /\ contains "offset" (accessibles m) = false) /\
  (contains "offset" (accessibles m) = true ->
   exists f, In f found /\
             path f = (mod_path mod_name ++ ".accessibles.offset")%string) /\
  (features m = [] -> contains "offset" (accessibles m) = true ->
   length found = 1%nat) /\
  (forall f, In f found -> severity f = ERROR /\ rule_id f = "R-MOD-002").
Proof.
  cbv zeta. unfold rule_features_and_offset_not_supported_on_plc_body.
  split; [|split; [|split]].
  - destruct (features m) as [|x r].
    + cbn [filter str_in existsb app].
      destruct (contains "offset" (accessibles m)); split;
        try discriminate; auto.
      intros [_ H]. discriminate.
    + split; [|intros [H _]; discriminate].
      cbn [filter str_in existsb].
      rewrite (String.eqb_sym "HasOffset" x).
      destruct (x =? "HasOffset")%string; cbn [negb orb app].
      * intros H. apply app_eq_nil in H. destruct H as [_ H].
        discriminate H.
      * discriminate.
  - intros ->. eexists. split.
    + apply in_or_app. right. apply in_or_app. right. now left.
    + reflexivity.
  - intros -> ->. reflexivity.
  - intros f Hf.
    apply in_app_or in Hf. destruct Hf as [Hf|Hf].
    + destruct (filter _ (features m)); [destruct Hf|].
      destruct Hf as [<-|[]]. split; reflexivity.
    + apply in_app_or in Hf. destruct Hf as [Hf|Hf].
      * destruct (str_in "HasOffset" (features m)); [|destruct Hf].
        destruct Hf as [<-|[]]. split; reflexivity.
      * destruct (contains "offset" (accessibles m)); [|destruct Hf].
        destruct Hf as [<-|[]]. split; reflexivity.
Qed.

Lemma features_and_offset_witness :
  length
    (rule_features_and_offset_not_supported_on_plc_body "m"
       (module_of ["Drivable"]
          [("offset", accessible (datainfo_of_type "string") true)] None))
  = 1%nat.
Proof.
  apply (proj1 (proj2 (proj2
           (features_and_offset_verdict "m"
              (module_of ["Drivable"]
                 [("offset", accessible (datainfo_of_type "string") true)]
                 None))))); reflexivity.
Defined.

Lemma allowed_types_iff (t : string) :
  In t ALLOWED_TYPES_THIS_CODEGEN <->
  str_in t PLC_UNSUPPORTED_TYPES = false /\ str_in t PROTOCOL_TYPES = true.
Proof.
  unfold ALLOWED_TYPES_THIS_CODEGEN.
  rewrite filter_In, negb_true_iff, <- Facts.str_in_iff. tauto.
Qed.

(** R-DI-001 gives nothing exactly for the types this generator allows. *)
Lemma type_supported_iff_allowed
  (mod_name acc_name : string) (acc : Accessible) :
  rule_datainfo_type_supported_body mod_name acc_name acc = [] <->
  In (strip (di_type (datainfo acc))) ALLOWED_TYPES_THIS_CODEGEN.
Proof.
  unfold rule_datainfo_type_supported_body. cbv zeta.
  rewrite allowed_types_iff.
  destruct (str_in (strip (di_type (datainfo acc))) PLC_UNSUPPORTED_TYPES).
  - split; [discriminate | intros [H _]; discriminate].
  - destruct (str_in (strip (di_type (datainfo acc))) PROTOCOL_TYPES);
      cbn [negb].
    + split; auto.
    + split; [discriminate | intros [_ H]; discriminate].
Qed.

(** X8. R-DI-001 accepts exactly the types of the protocol that this
    target supports (double, int, bool, enum, string, array, tuple,
    command), compared after trimming: for such a type it gives nothing,
    for any other string (scaled, blob, matrix, struct, or a type the
    protocol does not know) exactly one ERROR. *)
Theorem datainfo_type_supported_verdict
  (mod_name acc_name : string) (acc : Accessible) :
  let found := rule_datainfo_type_supported_body mod_name acc_name acc in
  let t := strip (di_type (datainfo acc)) in
  (found = [] <->
   In t ["double"; "int"; "bool"; "enum"; "string"; "array"; "tuple";
         "command"]) /\
  (found = [] <-> In t ALLOWED_TYPES_THIS_CODEGEN) /\
  (found <> [] ->
   exists f, found = [f] /\ severity f = ERROR /\ rule_id f = "R-DI-001").
Proof.
  cbv zeta. unfold rule_datainfo_type_supported_body.
  assert (Hall : forall t,
            In t ["double"; "int"; "bool"; "enum"; "string"; "array";
                  "tuple"; "command"] <-> In t ALLOWED_TYPES_THIS_CODEGEN).
  { intros t. reflexivity. }
  rewrite Hall, allowed_types_iff.
  destruct (str_in (strip (di_type (datainfo acc))) PLC_UNSUPPORTED_TYPES).
  - split; [|split].
    + split; [discriminate | intros [H _]; discriminate].
    + split; [discriminate | intros [H _]; discriminate].
    + intros _. eexists. repeat split.
  - destruct (str_in (strip (di_type (datainfo acc))) PROTOCOL_TYPES);
      cbn [negb]; (split; [|split]).
    + split; auto.
    + split; auto.
    + intros H. now contradiction H.
    + split; [discriminate | intros [_ H]; discriminate].
    + split; [discriminate | intros [_ H]; discriminate].
    + intros _. eexists. repeat split.
Qed.

Lemma datainfo_type_supported_witness :
  exists f,
    rule_datainfo_type_supported_body "m" "value"
      (accessible (datainfo_of_type "scaled") true) = [f] /\
    severity f = ERROR /\ rule_id f = "R-DI-001".
Proof.
  apply (proj2 (proj2 (datainfo_type_supported_verdict "m" "value"
                         (accessible (datainfo_of_type "scaled") true)))).
  discriminate.
Defined.

(** White space around a type is trimmed, whatever the white space. *)
Example supported_type_with_stray_white_space :
  rule_datainfo_type_supported_body "m" "value"
    (accessible (datainfo_of_type ("double" ++ NBSP)) true) = [] /\
  rule_datainfo_type_supported_body "m" "value"
    (accessible (datainfo_of_type (EM_SPACE ++ "int" ++ NEL)) true) = [].
Proof. vm_compute. split; reflexivity. Qed.

(** X9. R-ACC-010 accepts a command's [argument] or [result] under the
    same types as R-DI-001 accepts for an accessible: the nested check
    gives nothing exactly when the nested type, trimmed, is a supported
    type (an empty type is refused), and otherwise one ERROR. A command
    gets no finding exactly when it has no optional field besides
    [argument] and [result] and both pass the nested check. An accessible
    that is not a command gets no R-ACC-010 finding. *)
Theorem command_datainfo_shape_verdict
  (mod_name acc_name : string) (acc : Accessible) :
  (strip (di_type (datainfo acc)) <> "command" ->
   rule_command_datainfo_shape_body mod_name acc_name acc = []) /\
  (strip (di_type (datainfo acc)) = "command" ->
   (rule_command_datainfo_shape_body mod_name acc_name acc = [] <->
    (di_unit (datainfo acc) = None /\ di_min (datainfo acc) = None /\
     di_max (datainfo acc) = None /\ di_maxchars (datainfo acc) = None /\
     di_maxlen (datainfo acc) = None /\ di_members (datainfo acc) = None) /\
    check_command_sub mod_name acc_name "argument"
      (di_argument (datainfo acc)) = [] /\
    check_command_sub mod_name acc_name "result"
      (di_result (datainfo acc)) = [])) /\
  (forall sub_name d,
     check_command_sub mod_name acc_name sub_name (Some d) = [] <->
     In (strip (di_type d)) ALLOWED_TYPES_THIS_CODEGEN) /\
  (forall sub_name d,
     check_command_sub mod_name acc_name sub_name (Some d) = [] <->
     rule_datainfo_type_supported_body mod_name acc_name
       (accessible d false) = []) /\
  (forall sub_name, check_command_sub mod_name acc_name sub_name None = []) /\
  (forall f,
     In f (rule_command_datainfo_shape_body mod_name acc_name acc) ->
     severity f = ERROR /\ rule_id f = "R-ACC-010").
Proof.
  assert (Hsub : forall sub_name d,
     check_command_sub mod_name acc_name sub_name (Some d) = [] <->
     In (strip (di_type d)) ALLOWED_TYPES_THIS_CODEGEN).
  { intros sub_name d. unfold check_command_sub.
    destruct (String.eqb_spec (strip (di_type d)) "") as [->|Hne].
    - split; [discriminate|]. intros H. vm_compute in H.
      repeat (destruct H as [H|H]; [discriminate H|]). destruct H.
    - rewrite <- (Facts.str_in_iff (strip (di_type d))).
      destruct (str_in (strip (di_type d)) ALLOWED_TYPES_THIS_CODEGEN);
        cbn [negb]; split; auto; discriminate. }
  split; [|split; [|split; [|split; [|split]]]].
  - intros Hne. unfold rule_command_datainfo_shape_body.
    apply String.eqb_neq in Hne. now rewrite Hne.
  - intros He. unfold rule_command_datainfo_shape_body. cbv zeta.
    rewrite He. cbn [String.eqb Ascii.eqb Bool.eqb negb].
    destruct (di_unit (datainfo acc)), (di_min (datainfo acc)),
      (di_max (datainfo acc)), (di_maxchars (datainfo acc)),
      (di_maxlen (datainfo acc)), (di_members (datainfo acc));
      cbn [is_some orb app];
      try (split; [discriminate
                  | intros [[H1 [H2 [H3 [H4 [H5 H6]]]]] _]; discriminate]).
    split.
    + intros H. apply app_eq_nil in H. destruct H as [Ha Hr].
      repeat split; assumption.
    + intros [_ [Ha Hr]]. now rewrite Ha, Hr.
  - exact Hsub.
  - intros sub_name d. rewrite Hsub. symmetry.
    exact (type_supported_iff_allowed mod_name acc_name (accessible d false)).
  - reflexivity.
  - intros f Hf. unfold rule_command_datainfo_shape_body in Hf.
    destruct (negb (strip (di_type (datainfo acc)) =? "command")%string);
      [destruct Hf|].
    assert (Hc : forall sub_name sub,
              In f (check_command_sub mod_name acc_name sub_name sub) ->
              severity f = ERROR /\ rule_id f = "R-ACC-010").
    { intros sub_name sub H. unfold check_command_sub in H.
      destruct sub as [d|]; [|destruct H].
      destruct (strip (di_type d) =? "")%string.
      - destruct H as [<-|[]]. split; reflexivity.
      - destruct (negb (str_in (strip (di_type d))
                          ALLOWED_TYPES_THIS_CODEGEN)); [|destruct H].
        destruct H as [<-|[]]. split; reflexivity. }
    apply in_app_or in Hf. destruct Hf as [Hf|Hf].
    + match type of Hf with
      | In _ (if ?b then _ else _) => destruct b; [|destruct Hf]
      end.
      destruct Hf as [<-|[]]. split; reflexivity.
    + apply in_app_or in Hf. destruct Hf as [Hf|Hf]; eapply Hc; exact Hf.
Qed.

(** A command with an argument of type double and no result. *)
Lemma command_datainfo_shape_witness :
  rule_command_datainfo_shape_body "m" "go"
    (accessible
       (mkDataInfo "command" None None None None None None
          (Some (datainfo_of_type "double")) None) false) = [].
Proof.
  apply (proj2 (proj1 (proj2
           (command_datainfo_shape_verdict "m" "go"
              (accessible
                 (mkDataInfo "command" None None None None None None
                    (Some (datainfo_of_type "double")) None) false)))
           eq_refl)).
  split; [repeat split|]. split; [|reflexivity].
  apply (proj1 (proj2 (proj2
           (command_datainfo_shape_verdict "m" "go"
              (accessible (datainfo_of_type "double") false))))
           "argument" (datainfo_of_type "double")).
  vm_compute. tauto.
Defined.

(** White space around the types is trimmed, whatever the white space: a
    command whose type ends in a no-break space is a command, and its
    argument of type double followed by a no-break space is accepted,
    while an argument whose type is white space only has no type. *)
Example command_with_stray_white_space :
  rule_command_datainfo_shape_body "m" "go"
    (accessible
       (mkDataInfo ("command" ++ NBSP) None None None None None None
          (Some (datainfo_of_type ("double" ++ NBSP))) None) false) = [] /\
  length
    (rule_command_datainfo_shape_body "m" "go"
       (accessible
          (mkDataInfo ("command" ++ NBSP) None None None None None None
             (Some (datainfo_of_type NBSP)) None) false)) = 1%nat.
Proof. vm_compute. split; reflexivity. Qed.

End ProtocolVerdicts.

(* ===================================================================== *)
(** ** Verdicts of the datainfo rules                                     *)
(* ===================================================================== *)

Module DatainfoVerdicts.
Import Py Model Types SecopRules Validate Examples Shapes Conformance.

(** X10. R-ACC-005 and R-ACC-006 ask for a length that is there and
    positive: a [string] accessible gets the ERROR exactly when [maxchars]
    is absent or not above 0 (so 0 is refused and 1 accepted), an [array]
    accessible exactly when [maxlen] is; an accessible of another type
    gets nothing from the rule, whatever its [maxchars] or [maxlen]. *)
Theorem fixed_length_required
  (mod_name acc_name : string) (acc : Accessible) :
  let di := datainfo acc in
  (rule_string_requires_maxchars_body mod_name acc_name acc = [] <->
   di_type di <> "string" \/ exists n, di_maxchars di = Some n /\ 0 < n) /\
  (rule_array_requires_maxlen_body mod_name acc_name acc = [] <->
   di_type di <> "array" \/ exists n, di_maxlen di = Some n /\ 0 < n) /\
  (forall f,
     In f (rule_string_requires_maxchars_body mod_name acc_name acc) ->
     severity f = ERROR /\ rule_id f = "R-ACC-005") /\
  (forall f,
     In f (rule_array_requires_maxlen_body mod_name acc_name acc) ->
     severity f = ERROR /\ rule_id f = "R-ACC-006").
Proof.
  cbv zeta.
  assert (Hpos : forall o,
            missing_or_not_positive o = false <->
            exists n, o = Some n /\ 0 < n).
  { intros [n|]; cbn [missing_or_not_positive].
    - rewrite Z.leb_gt. split.
      + intros H. now exists n.
      + intros [k [Heq Hk]]. now injection Heq as ->.
    - split; [discriminate | intros [k [Heq _]]; discriminate]. }
  unfold rule_string_requires_maxchars_body, rule_array_requires_maxlen_body.
  split; [|split; [|split]].
  - rewrite <- Hpos.
    destruct (String.eqb_spec (di_type (datainfo acc)) "string") as [E|E];
      destruct (missing_or_not_positive (di_maxchars (datainfo acc)));
      cbn [andb]; split; auto; try discriminate;
      intros [H|H]; congruence.
  - rewrite <- Hpos.
    destruct (String.eqb_spec (di_type (datainfo acc)) "array") as [E|E];
      destruct (missing_or_not_positive (di_maxlen (datainfo acc)));
      cbn [andb]; split; auto; try discriminate;
      intros [H|H]; congruence.
  - intros f Hf.
    match type of Hf with
    | In _ (if ?b then _ else _) => destruct b; [|destruct Hf]
    end.
    destruct Hf as [<-|[]]. split; reflexivity.
  - intros f Hf.
    match type of Hf with
    | In _ (if ?b then _ else _) => destruct b; [|destruct Hf]
    end.
    destruct Hf as [<-|[]]. split; reflexivity.
Qed.

Lemma fixed_length_required_witness :
  rule_string_requires_maxchars_body "m" "_name"
    (accessible (mkDataInfo "string" None None None (Some 1) None None
                            None None) false) = [].
Proof.
  apply (proj2 (proj1 (fixed_length_required "m" "_name"
           (accessible (mkDataInfo "string" None None None (Some 1) None None
                                   None None) false)))).
  right. exists 1. split; [reflexivity | lia].
Defined.

Lemma SFcompare_same (a : spec_float) :
  SFcompare a a = Some Eq \/ SFcompare a a = None.
Proof.
  destruct a as [s|s| |s m e]; cbn [SFcompare]; auto.
  - destruct s; auto.
  - left. destruct s; rewrite Z.compare_refl, Pos.compare_cont_refl;
      reflexivity.
Qed.

Lemma float_lt_irrefl (a : spec_float) : float_lt a a = false.
Proof.
  unfold float_lt, SFltb. destruct (SFcompare_same a) as [-> | ->];
    reflexivity.
Qed.

Lemma float_gt_irrefl (a : spec_float) : float_gt a a = false.
Proof.
  unfold float_gt. destruct (SFcompare_same a) as [-> | ->]; reflexivity.
Qed.

Lemma in_limits_min (mod_name : string) (t l : DataInfo) :
  In (limits_min_finding mod_name)
     (match di_min t, di_min l with
      | Some tmin, Some lmin =>
          if float_lt lmin tmin then [limits_min_finding mod_name] else []
      | _, _ => []
      end) <->
  exists tmin lmin,
    di_min t = Some tmin /\ di_min l = Some lmin /\
    float_lt lmin tmin = true.
Proof.
  destruct (di_min t) as [a|], (di_min l) as [b|].
  - destruct (float_lt b a) eqn:E.
    + split; [intros _; now exists a, b | intros _; now left].
    + split; [intros [] | intros [x [y [[= <-] [[= <-] H]]]]; congruence].
  - split; [intros [] | intros [x [y [_ [H _]]]]; discriminate].
  - split; [intros [] | intros [x [y [H _]]]; discriminate].
  - split; [intros [] | intros [x [y [H _]]]; discriminate].
Qed.

Lemma in_limits_max (mod_name : string) (t l : DataInfo) :
  In (limits_max_finding mod_name)
     (match di_max t, di_max l with
      | Some tmax, Some lmax =>
          if float_gt lmax tmax then [limits_max_finding mod_name] else []
      | _, _ => []
      end) <->
  exists tmax lmax,
    di_max t = Some tmax /\ di_max l = Some lmax /\
    float_gt lmax tmax = true.
Proof.
  destruct (di_max t) as [a|], (di_max l) as [b|].
  - destruct (float_gt b a) eqn:E.
    + split; [intros _; now exists a, b | intros _; now left].
    + split; [intros [] | intros [x [y [[= <-] [[= <-] H]]]]; congruence].
  - split; [intros [] | intros [x [y [_ [H _]]]]; discriminate].
  - split; [intros [] | intros [x [y [H _]]]; discriminate].
  - split; [intros [] | intros [x [y [H _]]]; discriminate].
Qed.

Lemma limits_findings_differ (mod_name : string) :
  limits_min_finding mod_name <> limits_max_finding mod_name.
Proof. intros H. apply (f_equal message) in H. discriminate H. Qed.

(** X11. R-ACC-004 compares [target_limits] with [target] only on the
    bounds both give: the lower bound is flagged exactly when both give a
    [min] and that of the limits is below that of the target, the upper
    bound exactly when both give a [max] and that of the limits is above
    that of the target, and nothing else is flagged; so a bound that only
    one of the two gives is never flagged, limits that repeat the target's
    own bounds are never flagged, a module lacking [target] or
    [target_limits] gets nothing, and so does one whose [target] gives no
    bounds. The rule gives at most two findings, all ERRORs. *)
Theorem target_limits_within_target_verdict
  (mod_name : string) (m : Module_) :
  let found := rule_target_limits_within_target_body mod_name m in
  let accs := accessibles m in
  (get accs "target" = None \/ get accs "target_limits" = None ->
   found = []) /\
  (forall target limits,
     get accs "target" = Some target ->
     get accs "target_limits" = Some limits ->
     (In (limits_min_finding mod_name) found <->
      exists tmin lmin,
        di_min (datainfo target) = Some tmin /\
        di_min (datainfo limits) = Some lmin /\
        float_lt lmin tmin = true) /\
     (In (limits_max_finding mod_name) found <->
      exists tmax lmax,
        di_max (datainfo target) = Some tmax /\
        di_max (datainfo limits) = Some lmax /\
        float_gt lmax tmax = true) /\
     (forall f, In f found ->
        f = limits_min_finding mod_name \/ f = limits_max_finding mod_name) /\
     (di_min (datainfo target) = None \/ di_min (datainfo limits) = None ->
      ~ In (limits_min_finding mod_name) found) /\
     (di_max (datainfo target) = None \/ di_max (datainfo limits) = None ->
      ~ In (limits_max_finding mod_name) found)) /\
  (forall target limits,
     get accs "target" = Some target ->
     get accs "target_limits" = Some limits ->
     di_min (datainfo limits) = di_min (datainfo target) ->
     di_max (datainfo limits) = di_max (datainfo target) ->
     found = []) /\
  (forall target,
     get accs "target" = Some target ->
     di_min (datainfo target) = None -> di_max (datainfo target) = None ->
     found = []) /\
  (length found <= 2)%nat /\
  (forall f, In f found -> severity f = ERROR /\ rule_id f = "R-ACC-004").
Proof.
  cbv zeta. unfold rule_target_limits_within_target_body.
  split; [|split; [|split; [|split; [|split]]]].
  - intros [-> | ->]; [reflexivity|].
    destruct (get (accessibles m) "target"); reflexivity.
  - intros target limits -> ->. cbv zeta.
    fold (limits_min_finding mod_name). fold (limits_max_finding mod_name).
    assert (Hmin :
      In (limits_min_finding mod_name)
         ((match di_min (datainfo target), di_min (datainfo limits) with
           | Some tmin, Some lmin =>
               if float_lt lmin tmin then [limits_min_finding mod_name]
               else []
           | _, _ => []
           end) ++
          (match di_max (datainfo target), di_max (datainfo limits) with
           | Some tmax, Some lmax =>
               if float_gt lmax tmax then [limits_max_finding mod_name]
               else []
           | _, _ => []
           end))%list <->
      exists tmin lmin,
        di_min (datainfo target) = Some tmin /\
        di_min (datainfo limits) = Some lmin /\
        float_lt lmin tmin = true).
    { rewrite in_app_iff, in_limits_min. split; [|now left].
      intros [H|H]; [exact H|]. exfalso.
      destruct (di_max (datainfo target)); [|destruct H].
      destruct (di_max (datainfo limits)); [|destruct H].
      match type of H with
      | In _ (if ?b then _ else _) => destruct b; [|destruct H]
      end.
      destruct H as [H|[]].
      exact (limits_findings_differ mod_name (eq_sym H)). }
    assert (Hmax :
      In (limits_max_finding mod_name)
         ((match di_min (datainfo target), di_min (datainfo limits) with
           | Some tmin, Some lmin =>
               if float_lt lmin tmin then [limits_min_finding mod_name]
               else []
           | _, _ => []
           end) ++
          (match di_max (datainfo target), di_max (datainfo limits) with
           | Some tmax, Some lmax =>
               if float_gt lmax tmax then [limits_max_finding mod_name]
               else []
           | _, _ => []
           end))%list <->
      exists tmax lmax,
        di_max (datainfo target) = Some tmax /\
        di_max (datainfo limits) = Some lmax /\
        float_gt lmax tmax = true).
    { rewrite in_app_iff, in_limits_max. split; [|now right].
      intros [H|H]; [|exact H]. exfalso.
      destruct (di_min (datainfo target)); [|destruct H].
      destruct (di_min (datainfo limits)); [|destruct H].
      match type of H with
      | In _ (if ?b then _ else _) => destruct b; [|destruct H]
      end.
      destruct H as [H|[]].
      exact (limits_findings_differ mod_name H). }
    split; [exact Hmin|]. split; [exact Hmax|]. split; [|split].
    + intros f Hf. apply in_app_or in Hf. destruct Hf as [Hf|Hf].
      * destruct (di_min (datainfo target)); [|destruct Hf].
        destruct (di_min (datainfo limits)); [|destruct Hf].
        match type of Hf with
        | In _ (if ?b then _ else _) => destruct b; [|destruct Hf]
        end.
        destruct Hf as [<-|[]]. now left.
      * destruct (di_max (datainfo target)); [|destruct Hf].
        destruct (di_max (datainfo limits)); [|destruct Hf].
        match type of Hf with
        | In _ (if ?b then _ else _) => destruct b; [|destruct Hf]
        end.
        destruct Hf as [<-|[]]. now right.
    + intros Hnone Hin. apply (proj1 Hmin) in Hin.
      destruct Hin as [a [b [Ha [Hb _]]]].
      destruct Hnone as [H|H]; congruence.
    + intros Hnone Hin. apply (proj1 Hmax) in Hin.
      destruct Hin as [a [b [Ha [Hb _]]]].
      destruct Hnone as [H|H]; congruence.
  - intros target limits -> -> -> ->.
    destruct (di_min (datainfo target)) as [a|],
             (di_max (datainfo target)) as [b|];
      rewrite ?float_lt_irrefl, ?float_gt_irrefl; reflexivity.
  - intros target -> -> ->.
    destruct (get (accessibles m) "target_limits"); reflexivity.
  - destruct (get (accessibles m) "target") as [t|]; [|cbn; lia].
    destruct (get (accessibles m) "target_limits") as [l|]; [|cbn; lia].
    rewrite length_app.
    destruct (di_min (datainfo t)), (di_min (datainfo l)),
      (di_max (datainfo t)), (di_max (datainfo l));
      repeat match goal with
             | |- context [if ?b then _ else _] => destruct b
             end; cbn [length]; lia.
  - intros f Hf.
    destruct (get (accessibles m) "target") as [t|]; [|destruct Hf].
    destruct (get (accessibles m) "target_limits") as [l|]; [|destruct Hf].
    apply in_app_or in Hf. destruct Hf as [Hf|Hf].
    + destruct (di_min (datainfo t)); [|destruct Hf].
      destruct (di_min (datainfo l)); [|destruct Hf].
      match type of Hf with
      | In _ (if ?b then _ else _) => destruct b; [|destruct Hf]
      end.
      destruct Hf as [<-|[]]. split; reflexivity.
    + destruct (di_max (datainfo t)); [|destruct Hf].
      destruct (di_max (datainfo l)); [|destruct Hf].
      match type of Hf with
      | In _ (if ?b then _ else _) => destruct b; [|destruct Hf]
      end.
      destruct Hf as [<-|[]]. split; reflexivity.
Qed.

(** Limits [-5, 10] on a target in [0, 10]: the lower bound is flagged. *)
Lemma target_limits_within_target_witness :
  In (limits_min_finding "m")
     (rule_target_limits_within_target_body "m"
        (module_of ["Writable"]
           [("target", accessible (ranged_double 0 10) false);
            ("target_limits", accessible (ranged_double (-5) 10) false)]
           None)).
Proof.
  apply (proj2 (proj1 (proj1 (proj2
           (target_limits_within_target_verdict "m"
              (module_of ["Writable"]
                 [("target", accessible (ranged_double 0 10) false);
                  ("target_limits",
                   accessible (ranged_double (-5) 10) false)]
                 None)))
           (accessible (ranged_double 0 10) false)
           (accessible (ranged_double (-5) 10) false)
           eq_refl eq_refl))).
  exists (float_of_Z 0), (float_of_Z (-5)).
  repeat split; reflexivity.
Defined.

(** Limits that give only a [min] on a target that gives only a [max], and
    the other way round: whatever the numbers, nothing is flagged. *)
Example one_sided_bounds_are_not_flagged :
  rule_target_limits_within_target_body "m"
    (module_of ["Writable"]
       [("target",
         accessible (mkDataInfo "double" None None (Some (float_of_Z 10))
                       None None None None None) false);
        ("target_limits",
         accessible (mkDataInfo "double" None (Some (float_of_Z 50)) None
                       None None None None None) false)]
       None) = [] /\
  rule_target_limits_within_target_body "m"
    (module_of ["Writable"]
       [("target",
         accessible (mkDataInfo "double" None (Some (float_of_Z 0)) None
                       None None None None None) false);
        ("target_limits",
         accessible (mkDataInfo "double" None None (Some (float_of_Z 50))
                       None None None None None) false)]
       None) = [].
Proof. vm_compute. split; reflexivity. Qed.

(** X12. R-ACC-008 concerns Writable and Drivable modules that have both
    [value] and [target]: it gives nothing exactly when the type of
    [target] and, if present, the type of [target_limits] equal the type
    of [value] (all trimmed). A module that is only Readable, or that
    lacks [value] or [target], gets nothing from it. *)
Theorem target_type_matches_value_verdict
  (mod_name : string) (m : Module_) :
  let found := rule_target_datainfo_type_matches_value_body mod_name m in
  let accs := accessibles m in
  let type_of (a : Accessible) := strip (di_type (datainfo a)) in
  (_is_writable m = false -> found = []) /\
  (get accs "value" = None \/ get accs "target" = None -> found = []) /\
  (forall value target,
     _is_writable m = true ->
     get accs "value" = Some value -> get accs "target" = Some target ->
     (found = [] <->
      type_of target = type_of value /\
      forall limits, get accs "target_limits" = Some limits ->
                     type_of limits = type_of value)) /\
  (forall f, In f found -> severity f = ERROR /\ rule_id f = "R-ACC-008").
Proof.
  cbv zeta. unfold rule_target_datainfo_type_matches_value_body.
  split; [|split; [|split]].
  - intros ->. reflexivity.
  - destruct (negb (_is_writable m)); [reflexivity|].
    intros [-> | ->]; [reflexivity|].
    destruct (get (accessibles m) "value"); reflexivity.
  - intros value target -> -> ->. cbn [negb].
    destruct (String.eqb_spec (strip (di_type (datainfo target)))
                              (strip (di_type (datainfo value)))) as [Et|Et];
      cbn [negb app].
    + destruct (get (accessibles m) "target_limits") as [l|].
      * destruct (String.eqb_spec (strip (di_type (datainfo l)))
                                  (strip (di_type (datainfo value))))
          as [El|El]; cbn [negb].
        -- split; [|reflexivity]. intros _. split; [exact Et|].
           intros limits [= <-]. exact El.
        -- split; [discriminate|]. intros [_ H]. exfalso.
           apply El. now apply H.
      * split; [|reflexivity]. intros _. split; [exact Et|].
        intros limits H. discriminate.
    + split; [discriminate|]. intros [H _]. contradiction.
  - intros f Hf.
    destruct (negb (_is_writable m)); [destruct Hf|].
    destruct (get (accessibles m) "value"); [|destruct Hf].
    destruct (get (accessibles m) "target"); [|destruct Hf].
    apply in_app_or in Hf. destruct Hf as [Hf|Hf].
    + match type of Hf with
      | In _ (if ?b then _ else _) => destruct b; [|destruct Hf]
      end.
      destruct Hf as [<-|[]]. split; reflexivity.
    + destruct (get (accessibles m) "target_limits"); [|destruct Hf].
      match type of Hf with
      | In _ (if ?b then _ else _) => destruct b; [|destruct Hf]
      end.
      destruct Hf as [<-|[]]. split; reflexivity.
Qed.

(** A Drivable module whose [value] and [target] are both double. *)
Lemma target_type_matches_value_witness :
  rule_target_datainfo_type_matches_value_body "m" drivable_without_busy
  = [].
Proof.
  apply (proj2 (proj1 (proj2 (proj2
           (target_type_matches_value_verdict "m" drivable_without_busy)))
           (accessible (datainfo_of_type "double") true)
           (accessible (datainfo_of_type "double") false)
           eq_refl eq_refl eq_refl)).
  split; [reflexivity|].
  intros limits H. vm_compute in H. discriminate H.
Defined.

(** The types are compared trimmed, whatever the white space: a target of
    type double followed by a no-break space matches a value of type
    double, and a target of type int does not. *)
Example target_type_with_stray_white_space :
  rule_target_datainfo_type_matches_value_body "m"
    (module_of ["Writable"]
       [("value", accessible (datainfo_of_type "double") true);
        ("target", accessible (datainfo_of_type ("double" ++ NBSP)) false)]
       None) = [] /\
  length
    (rule_target_datainfo_type_matches_value_body "m"
       (module_of ["Writable"]
          [("value", accessible (datainfo_of_type "double") true);
           ("target", accessible (datainfo_of_type "int") false)]
          None)) = 1%nat.
Proof. vm_compute. split; reflexivity. Qed.

(** X13. R-ACC-002 gives nothing exactly when [members] has the shape the
    type asks for (a dict for enum and array, a list for tuple); for any
    other type it gives nothing whatever [members] holds. Otherwise it
    gives one ERROR. *)
Theorem members_by_type_verdict
  (mod_name acc_name : string) (acc : Accessible) :
  let found := rule_accessible_members_by_type_body mod_name acc_name acc in
  let di := datainfo acc in
  (found = [] <-> members_shape_ok di = true) /\
  (di_type di <> "enum" -> di_type di <> "tuple" -> di_type di <> "array" ->
   found = []) /\
  (found <> [] ->
   exists f, found = [f] /\ severity f = ERROR /\ rule_id f = "R-ACC-002").
Proof.
  cbv zeta.
  unfold rule_accessible_members_by_type_body, members_shape_ok.
  split; [|split].
  - destruct (di_type (datainfo acc) =? "enum")%string;
      [|destruct (di_type (datainfo acc) =? "tuple")%string;
        [|destruct (di_type (datainfo acc) =? "array")%string]];
      try (destruct (is_members_dict (di_members (datainfo acc))));
      try (destruct (is_members_list (di_members (datainfo acc))));
      cbn [negb]; split; auto; discriminate.
  - intros H1 H2 H3.
    apply String.eqb_neq in H1, H2, H3. now rewrite H1, H2, H3.
  - destruct (di_type (datainfo acc) =? "enum")%string;
      [|destruct (di_type (datainfo acc) =? "tuple")%string;
        [|destruct (di_type (datainfo acc) =? "array")%string]];
      try (destruct (is_members_dict (di_members (datainfo acc))));
      try (destruct (is_members_list (di_members (datainfo acc))));
      cbn [negb]; intros H; try (now contradiction H);
      eexists; repeat split.
Qed.

Lemma members_by_type_witness :
  rule_accessible_members_by_type_body "m" "value"
    (accessible (datainfo_of_type "double") true) = [].
Proof.
  apply (proj1 (proj2 (members_by_type_verdict "m" "value"
                         (accessible (datainfo_of_type "double") true))));
    discriminate.
Defined.

End DatainfoVerdicts.

(* ===================================================================== *)
(** ** Verdicts of the tooling rules                                      *)
(* ===================================================================== *)

Module ToolingVerdicts.
Import Py Model Types SecopRules PlcRules Validate Examples Shapes.
Import Conformance.

(** Take [H : In f (...)] apart along the appends, conditionals and
    matches of a rule body; each finding reached is substituted for [f]. *)
Ltac crack H :=
  lazymatch type of H with
  | In _ [] => destruct H
  | In _ [_] => destruct H as [H|[]]; subst
  | In _ (_ ++ _) =>
      apply in_app_or in H; destruct H as [H|H]; crack H
  | In _ (if ?b then _ else _) => destruct b eqn:?; crack H
  | In _ (match ?x with _ => _ end) => destruct x eqn:?; crack H
  | In _ (flat_map _ (_ :: _)) => cbn [flat_map] in H; crack H
  | In _ (flat_map _ []) => destruct H
  end.

Lemma only_warnings_do_not_block (findings : list Finding) :
  (forall f, In f findings -> severity f = WARNING) ->
  has_errors findings = false.
Proof.
  intros H. unfold has_errors. induction findings as [|g r IH];
    [reflexivity|].
  cbn [existsb]. rewrite (H g (or_introl eq_refl)). cbn [Severity_eqb orb].
  apply IH. intros f Hf. apply H. now right.
Qed.

(** X14. The advisory rules never block: whatever the configuration, the
    rules on custom commands (R-ACC-001), on checkable accessibles
    (R-ACC-009) and on tooling that is not configured (R-PLC-010, -020,
    -021, -026, -040) give WARNINGs only, so [has_errors] is false on what
    each of them returns. *)
Theorem advisory_rules_never_block
  (cfg : SecNodeConfig) (rule : SecNodeConfig -> list Finding) :
  In rule advisory_rules ->
  (forall f, In f (rule cfg) -> severity f = WARNING) /\
  has_errors (rule cfg) = false.
Proof.
  intros Hr.
  assert (Hw : forall f, In f (rule cfg) -> severity f = WARNING).
  { unfold advisory_rules in Hr.
    destruct Hr as [<-|[<-|[<-|[<-|[<-|[<-|[<-|[]]]]]]]]; intros f Hf.
    - apply Facts.in_for_each_accessible in Hf.
      destruct Hf as [mn [m [an [a [_ [_ Hf]]]]]].
      unfold rule_custom_command_accessibles_warn_body in Hf.
      crack Hf; reflexivity.
    - apply Facts.in_for_each_accessible in Hf.
      destruct Hf as [mn [m [an [a [_ [_ Hf]]]]]].
      unfold rule_checkable_requires_manual_plc_body in Hf.
      crack Hf; reflexivity.
    - unfold rule_xplc_node_fields_configured in Hf.
      crack Hf; reflexivity.
    - apply Facts.in_for_each_module in Hf. destruct Hf as [mn [m [_ Hf]]].
      unfold rule_xplc_module_timestamp_tag_configured_body in Hf.
      crack Hf; reflexivity.
    - apply Facts.in_for_each_module in Hf. destruct Hf as [mn [m [_ Hf]]].
      unfold rule_xplc_status_hw_error_fields_configured_body in Hf.
      crack Hf; reflexivity.
    - apply Facts.in_for_each_module in Hf. destruct Hf as [mn [m [_ Hf]]].
      unfold rule_xplc_target_change_possible_expr_configured_body in Hf.
      crack Hf; reflexivity.
    - apply Facts.in_for_each_module in Hf. destruct Hf as [mn [m [_ Hf]]].
      unfold rule_xplc_clear_errors_cmd_stmt_optional_body in Hf.
      crack Hf; reflexivity. }
  split; [exact Hw | exact (only_warnings_do_not_block _ Hw)].
Qed.

Lemma advisory_rules_witness :
  has_errors (rule_checkable_requires_manual_plc readable_node) = false.
Proof.
  apply (proj2 (advisory_rules_never_block readable_node
                  rule_checkable_requires_manual_plc
                  (or_intror (or_introl eq_refl)))).
Defined.

(** X15. The reach fields are judged by the module's class: on a module
    that is not Drivable the rule gives ERRORs only (one per reach field
    present, none if neither is), on a Drivable module WARNINGs only (for
    a missing timeout, and for a missing tolerance unless the target is an
    enum). Without an [x-plc.target] section it gives nothing. *)
Theorem reach_fields_by_class (mod_name : string) (m : Module_) :
  let found := rule_xplc_target_reach_fields_body mod_name m in
  (xplc_target m = None -> found = []) /\
  (_is_drivable (interface_classes m) = false ->
   forall f, In f found -> severity f = ERROR /\ rule_id f = "R-PLC-024") /\
  (_is_drivable (interface_classes m) = true ->
   forall f, In f found -> severity f = WARNING /\ rule_id f = "R-PLC-025") /\
  (forall tg,
     xplc_target m = Some tg ->
     _is_drivable (interface_classes m) = false ->
     (found = [] <->
      reach_timeout_s tg = None /\ reach_abs_tolerance tg = None)) /\
  (forall tg,
     xplc_target m = Some tg ->
     _is_drivable (interface_classes m) = true ->
     (found = [] <->
      reach_timeout_s tg <> None /\
      (stripped_type_of (accessibles m) "target" = "enum" \/
       reach_abs_tolerance tg <> None))).
Proof.
  cbv zeta. unfold rule_xplc_target_reach_fields_body.
  split; [|split; [|split; [|split]]].
  - intros ->. reflexivity.
  - intros Hd f Hf. rewrite Hd in Hf.
    destruct (xplc_target m) as [tg|]; [|destruct Hf].
    cbn [negb] in Hf. rewrite !andb_true_r, app_nil_r in Hf.
    crack Hf; split; reflexivity.
  - intros Hd f Hf. rewrite Hd in Hf.
    destruct (xplc_target m) as [tg|]; [|destruct Hf].
    rewrite !andb_false_r in Hf. cbn [app negb] in Hf.
    crack Hf; split; reflexivity.
  - intros tg -> ->. cbn [negb]. rewrite !andb_true_r, app_nil_r.
    destruct (reach_timeout_s tg), (reach_abs_tolerance tg);
      cbn [is_some app]; split;
      try discriminate; try (intros [H1 H2]; discriminate); auto.
  - intros tg -> ->. cbn [negb]. rewrite !andb_false_r. cbn [app].
    destruct (String.eqb_spec (stripped_type_of (accessibles m) "target")
                              "enum") as [E|E];
      destruct (reach_timeout_s tg), (reach_abs_tolerance tg);
      cbn [is_some negb andb app]; split;
      try discriminate;
      try (intros _; split; [discriminate | auto; right; discriminate]);
      try (intros [H1 H2]; try (now contradiction H1);
           destruct H2 as [H2|H2]; congruence);
      auto.
Qed.

Lemma reach_fields_witness :
  rule_xplc_target_reach_fields_body "m" enum_target_module = [].
Proof.
  apply (proj2 (proj1 (proj2 (proj2 (proj2
           (reach_fields_by_class "m" enum_target_module))))
           enum_target_tooling eq_refl eq_refl)).
  split; reflexivity.
Defined.

(** The target's type is compared trimmed, whatever the white space: a
    Drivable module with a timeout whose target is of type enum followed
    by a no-break space needs no tolerance. *)
Example reach_fields_with_stray_white_space :
  rule_xplc_target_reach_fields_body "m"
    (module_of ["Drivable"]
       [("target", accessible enum_nbsp_datainfo false)]
       (Some {| timestamp_tag := None; xp_value := None; xp_status := None;
                xp_target :=
                  Some {| write_stmt := None; tgt_enum_tag := None;
                          change_possible_expr := None;
                          reach_timeout_s := Some 60;
                          reach_abs_tolerance := None |};
                xp_clear_errors := None |})) = [].
Proof. vm_compute. reflexivity. Qed.

(** X16. R-PLC-001 gives nothing exactly when every tooling section that
    is present (value, status, target, clear_errors) has its accessible;
    in particular a module without a tooling block, or with all four
    accessibles, gets nothing. Its findings are ERRORs, at most four. *)
Theorem xplc_keys_exist_verdict (mod_name : string) (m : Module_) :
  let found := rule_xplc_keys_exist_in_secop_accessibles_body mod_name m in
  (mod_x_plc m = None -> found = []) /\
  (forall xplc,
     mod_x_plc m = Some xplc ->
     (found = [] <->
      forall key, In key ["value"; "status"; "target"; "clear_errors"] ->
                  xplc_has xplc key = true ->
                  contains key (accessibles m) = true)) /\
  (length found <= 4)%nat /\
  (forall f, In f found -> severity f = ERROR /\ rule_id f = "R-PLC-001").
Proof.
  cbv zeta. unfold rule_xplc_keys_exist_in_secop_accessibles_body.
  split; [|split; [|split]].
  - intros ->. reflexivity.
  - intros xplc ->. unfold xplc_to_acc. cbn [flat_map].
    split.
    + intros H key Hin Hhas.
      destruct (contains key (accessibles m)) eqn:Ec; [reflexivity|].
      exfalso.
      destruct Hin as [<-|[<-|[<-|[<-|[]]]]];
        rewrite Hhas, Ec in H; cbn [negb app] in H;
        repeat match type of H with
               | context [if ?b then _ else _] => destruct b
               end; discriminate H.
    + intros H.
      destruct (xplc_has xplc "value") eqn:E1;
        [rewrite (H "value" (or_introl eq_refl) E1)|];
        (destruct (xplc_has xplc "status") eqn:E2;
         [rewrite (H "status" ltac:(simpl; tauto) E2)|]);
        (destruct (xplc_has xplc "target") eqn:E3;
         [rewrite (H "target" ltac:(simpl; tauto) E3)|]);
        (destruct (xplc_has xplc "clear_errors") eqn:E4;
         [rewrite (H "clear_errors" ltac:(simpl; tauto) E4)|]);
        reflexivity.
  - destruct (mod_x_plc m) as [xplc|]; [|cbn; lia].
    unfold xplc_to_acc. cbn [flat_map]. rewrite !length_app.
    repeat match goal with
           | |- context [if ?b then _ else _] => destruct b
           end; cbn [length]; lia.
  - intros f Hf.
    destruct (mod_x_plc m) as [xplc|]; [|destruct Hf].
    unfold xplc_to_acc in Hf. cbn [flat_map] in Hf.
    crack Hf; split; reflexivity.
Qed.

Lemma xplc_keys_exist_witness :
  rule_xplc_keys_exist_in_secop_accessibles_body "m" enum_target_module = [].
Proof.
  apply (proj2 (proj1 (proj2 (xplc_keys_exist_verdict "m" enum_target_module))
                  enum_target_xplc eq_refl)).
  intros key [<-|[<-|[<-|[<-|[]]]]] H; try reflexivity; discriminate H.
Defined.

End ToolingVerdicts.

(* ===================================================================== *)
(** ** Verdicts of the value mapping and of clear_errors                  *)
(* ===================================================================== *)

Module MappingVerdicts.
Import Py Model Types SecopRules PlcRules Validate Examples Shapes.
Import Conformance.

Lemma has_text_iff {C} (section : option C) (field : C -> option string) :
  has_text section field = true <-> field_given section field.
Proof.
  split; [|apply Facts.has_text_given].
  unfold has_text, field_given. destruct section as [c|]; [|discriminate].
  rewrite Facts.is_empty_or_empty. intros H. exists c.
  split; [reflexivity|]. now apply negb_true_iff in H.
Qed.

(** X17. R-PLC-030/031 on a module with a tooling block and a [value]
    accessible: for an enum value it gives nothing exactly when
    [read_expr] is not given while [enum_tag] is given and
    [enum_member_map] is not empty; for a value of another type exactly
    when [read_expr] is given and neither [enum_tag] nor a non-empty
    [enum_member_map] is. A module without tooling block or without
    [value] gets nothing. *)
Theorem value_mapping_verdict (mod_name : string) (m : Module_) :
  let found := rule_xplc_value_mapping_by_type_body mod_name m in
  (mod_x_plc m = None \/ get (accessibles m) "value" = None ->
   found = []) /\
  (forall xplc value,
     mod_x_plc m = Some xplc -> get (accessibles m) "value" = Some value ->
     let v_cfg := xp_value xplc in
     (strip (di_type (datainfo value)) = "enum" ->
      (found = [] <->
       ~ field_given v_cfg read_expr /\
       field_given v_cfg val_enum_tag /\ has_map v_cfg = true)) /\
     (strip (di_type (datainfo value)) <> "enum" ->
      (found = [] <->
       field_given v_cfg read_expr /\
       ~ field_given v_cfg val_enum_tag /\ has_map v_cfg = false))).
Proof.
  cbv zeta. unfold rule_xplc_value_mapping_by_type_body.
  split.
  - intros [-> | ->]; [reflexivity|].
    destruct (mod_x_plc m); reflexivity.
  - intros xplc value -> ->.
    rewrite <- !has_text_iff.
    split.
    + intros ->. rewrite String.eqb_refl.
      destruct (has_text (xp_value xplc) read_expr),
               (has_text (xp_value xplc) val_enum_tag),
               (has_map (xp_value xplc));
        cbn [andb negb app]; split;
        try discriminate; try (intros [H1 [H2 H3]]; congruence);
        intros _; repeat split; congruence.
    + intros Hne. apply String.eqb_neq in Hne. rewrite Hne.
      destruct (has_text (xp_value xplc) read_expr),
               (has_text (xp_value xplc) val_enum_tag),
               (has_map (xp_value xplc));
        cbn [orb negb app]; split;
        try discriminate; try (intros [H1 [H2 H3]]; congruence);
        intros _; repeat split; congruence.
Qed.

(** A Readable module with a double [value] and its [read_expr]. *)
Lemma value_mapping_witness :
  rule_xplc_value_mapping_by_type_body "m"
    (module_of ["Readable"] (readable_accessibles base_codes)
       (Some {| timestamp_tag := None;
                xp_value := Some {| read_expr := Some "G_rValue";
                                    val_enum_tag := None;
                                    enum_member_map := None |};
                xp_status := None; xp_target := None;
                xp_clear_errors := None |})) = [].
Proof.
  refine (proj2 (proj2 (proj2
            (value_mapping_verdict "m"
               (module_of ["Readable"] (readable_accessibles base_codes)
                  (Some {| timestamp_tag := None;
                           xp_value := Some {| read_expr := Some "G_rValue";
                                               val_enum_tag := None;
                                               enum_member_map := None |};
                           xp_status := None; xp_target := None;
                           xp_clear_errors := None |})))
            {| timestamp_tag := None;
               xp_value := Some {| read_expr := Some "G_rValue";
                                   val_enum_tag := None;
                                   enum_member_map := None |};
               xp_status := None; xp_target := None;
               xp_clear_errors := None |}
            (accessible (datainfo_of_type "double") true)
            eq_refl eq_refl) _) _).
  - vm_compute. discriminate.
  - split; [|split].
    + eexists. split; reflexivity.
    + intros [c [H Hc]]. injection H as <-. discriminate Hc.
    + reflexivity.
Defined.

(** A [read_expr] of white space only is not given, whatever the white
    space: the rule asks for it. *)
Example read_expr_of_white_space :
  rule_xplc_value_mapping_by_type_body "m"
    (module_of ["Readable"] (readable_accessibles base_codes)
       (Some {| timestamp_tag := None;
                xp_value := Some {| read_expr := Some NBSP;
                                    val_enum_tag := None;
                                    enum_member_map := None |};
                xp_status := None; xp_target := None;
                xp_clear_errors := None |}))
  = [not_configured "R-PLC-031" "$.modules.m.x-plc.value.read_expr"
       "x-plc.value.read_expr" ["SecopMapFromPlc"]].
Proof. vm_compute. reflexivity. Qed.

(** X18. R-PLC-040 follows the [clear_errors] accessible, not the tooling
    block: a module without that accessible gets nothing; a module with
    it gets exactly one WARNING unless a [cmd_stmt] is given, and this
    also when the module has no tooling block at all. *)
Theorem clear_errors_cmd_stmt_verdict (mod_name : string) (m : Module_) :
  let found := rule_xplc_clear_errors_cmd_stmt_optional_body mod_name m in
  let section :=
    match mod_x_plc m with
    | Some xplc => xp_clear_errors xplc
    | None => None
    end in
  (contains "clear_errors" (accessibles m) = false -> found = []) /\
  (contains "clear_errors" (accessibles m) = true ->
   (found = [] <-> field_given section cmd_stmt) /\
   (found <> [] ->
    exists f, found = [f] /\ severity f = WARNING /\
              rule_id f = "R-PLC-040") /\
   (mod_x_plc m = None ->
    found = [clear_errors_finding mod_name
               (mod_path mod_name ++ ".x-plc.clear_errors")])).
Proof.
  cbv zeta. unfold rule_xplc_clear_errors_cmd_stmt_optional_body.
  split.
  - intros ->. reflexivity.
  - intros ->. cbn [negb]. unfold field_given.
    destruct (mod_x_plc m) as [xplc|].
    + destruct (xp_clear_errors xplc) as [ce|].
      * destruct (_is_empty (cmd_stmt ce)) eqn:E; split; [|split| |split].
        -- split; [discriminate|]. intros [c [Heq H]].
           injection Heq as <-. congruence.
        -- intros _. eexists. repeat split.
        -- discriminate.
        -- split; [|reflexivity]. intros _. now exists ce.
        -- intros H. now contradiction H.
        -- discriminate.
      * split; [|split].
        -- split; [discriminate|]. intros [c [Heq _]]. discriminate.
        -- intros _. eexists. repeat split.
        -- discriminate.
    + split; [|split].
      * split; [discriminate|]. intros [c [Heq _]]. discriminate.
      * intros _. eexists. repeat split.
      * reflexivity.
Qed.

Lemma clear_errors_cmd_stmt_witness :
  rule_xplc_clear_errors_cmd_stmt_optional_body "m"
    (module_of ["Readable"]
       [("clear_errors", accessible (datainfo_of_type "command") false)]
       None)
  = [clear_errors_finding "m" (mod_path "m" ++ ".x-plc.clear_errors")].
Proof.
  apply (proj2 (proj2 (proj2
           (clear_errors_cmd_stmt_verdict "m"
              (module_of ["Readable"]
                 [("clear_errors",
                   accessible (datainfo_of_type "command") false)]
                 None))
           eq_refl))).
  reflexivity.
Defined.

(** A [cmd_stmt] of white space only is not given, whatever the white
    space: the rule gives its WARNING. *)
Example cmd_stmt_of_white_space :
  rule_xplc_clear_errors_cmd_stmt_optional_body "m"
    (module_of ["Readable"]
       [("clear_errors", accessible (datainfo_of_type "command") false)]
       (Some {| timestamp_tag := None; xp_value := None; xp_status := None;
                xp_target := None;
                xp_clear_errors := Some {| cmd_stmt := Some NBSP |} |}))
  = [clear_errors_finding "m" (mod_path "m" ++ ".x-plc.clear_errors.cmd_stmt")].
Proof. vm_compute. reflexivity. Qed.

End MappingVerdicts.

(* ===================================================================== *)
(** ** The status rule as a whole                                         *)
(* ===================================================================== *)

Module StatusVerdicts.
Import Py Model Types SecopRules Validate Examples Shapes Conformance.

Lemma app_nil_iff {A} (a b : list A) :
  (a ++ b)%list = [] <-> a = [] /\ b = [].
Proof.
  split; [apply app_eq_nil|]. intros [-> ->]. reflexivity.
Qed.

Lemma expected_code_ok (mod_name : string) (enum_members : dict json)
  (key : string) (code : Z) :
  check_expected_code mod_name enum_members key code = [] <->
  maps_to enum_members key code.
Proof.
  unfold check_expected_code, contains, maps_to.
  destruct (get enum_members key) as [v|]; cbn [is_some negb opt_eq_int].
  - destruct (eq_int v code) eqn:E; cbn [negb]; split.
    + intros _. now exists v.
    + reflexivity.
    + discriminate.
    + intros [w [Heq Hw]]. injection Heq as <-. congruence.
  - split; [discriminate | intros [w [Heq _]]; discriminate].
Qed.

Lemma disabled_code_ok (mod_name : string) (enum_members : dict json) :
  check_disabled_code mod_name enum_members = [] <->
  contains "DISABLED" enum_members = false \/
  maps_to enum_members "DISABLED" 0.
Proof.
  unfold check_disabled_code, contains, maps_to.
  destruct (get enum_members "DISABLED") as [v|];
    cbn [is_some andb opt_eq_int].
  - destruct (eq_int v 0) eqn:E; cbn [negb]; split.
    + intros _. right. now exists v.
    + reflexivity.
    + discriminate.
    + intros [H|[w [Heq Hw]]]; [discriminate|].
      injection Heq as <-. congruence.
  - split; [now left | reflexivity].
Qed.

Lemma extra_keys_ok (mod_name : string) (enum_members : dict json) :
  check_extra_keys mod_name enum_members = [] <->
  extra_labels enum_members = [].
Proof.
  destruct (StatusCodes.check_extra_keys_cases mod_name enum_members)
    as [H1 H2].
  split; [|exact H1].
  intros H. destruct (extra_labels enum_members) as [|k r] eqn:E;
    [reflexivity|].
  rewrite H2 in H; [discriminate H | discriminate].
Qed.

(** X19. Whatever the module, the status rule does one of three things:
    nothing, when there is no [status] accessible; exactly one R-STAT-001
    ERROR and nothing else, when [status] is not a tuple of an enum (with
    a members dict) and a string; the checks of the codes, when it is. A
    malformed status therefore never gets a finding about codes. *)
Theorem status_structure_verdict (mod_name : string) (m : Module_) :
  let found := rule_status_structure_and_codes_body mod_name m in
  (get (accessibles m) "status" = None -> found = []) /\
  (forall enum_members,
     status_tuple m enum_members ->
     found = check_status_codes mod_name m enum_members) /\
  (get (accessibles m) "status" <> None ->
   ~ (exists enum_members, status_tuple m enum_members) ->
   exists f, found = [f] /\ severity f = ERROR /\ rule_id f = "R-STAT-001").
Proof.
  cbv zeta. split; [|split].
  - intros H. unfold rule_status_structure_and_codes_body. now rewrite H.
  - apply StatusCodes.body_on_status_tuple.
  - intros Hsome Hnot. unfold rule_status_structure_and_codes_body.
    destruct (get (accessibles m) "status") as [status|] eqn:Hs;
      [|now contradiction Hsome].
    destruct (String.eqb_spec (di_type (datainfo status)) "tuple")
      as [Ht|Ht]; cbn [negb]; [|eexists; repeat split].
    destruct (di_members (datainfo status)) as [[d|l]|] eqn:Hm;
      try (eexists; repeat split; fail).
    destruct l as [|m0 [|m1 [|m2 r]]];
      try (eexists; repeat split; fail).
    destruct (opt_eq_str (get m0 "type") "enum") eqn:He; cbn [negb];
      [|eexists; repeat split].
    destruct (opt_eq_str (get m1 "type") "string") eqn:Hstr; cbn [negb];
      [|eexists; repeat split].
    destruct (get m0 "members") as [[| | | | | |e]|] eqn:Hd;
      try (eexists; repeat split; fail).
    exfalso. apply Hnot. exists e, status, m0, m1. auto 10.
Qed.

Lemma status_structure_witness :
  exists f,
    rule_status_structure_and_codes_body "m"
      (module_of ["Readable"]
         [("status", accessible (datainfo_of_type "double") true)] None)
    = [f] /\ severity f = ERROR /\ rule_id f = "R-STAT-001".
Proof.
  apply (proj2 (proj2
           (status_structure_verdict "m"
              (module_of ["Readable"]
                 [("status", accessible (datainfo_of_type "double") true)]
                 None)))).
  - discriminate.
  - intros [e [st [m0 [m1 [Hg [Ht _]]]]]].
    injection Hg as <-. discriminate Ht.
Defined.

(** X20. For a module whose [status] is a tuple of (enum, string), the
    status rule gives no finding at all exactly when the enum conforms:
    IDLE, WARN and ERROR mapped to 100, 200 and 400; BUSY mapped to 300 on
    a Drivable module and no BUSY on any other; DISABLED, if a member,
    mapped to 0; and no further label. *)
Theorem status_conforming_iff_no_finding
  (mod_name : string) (m : Module_) (enum_members : dict json) :
  status_tuple m enum_members ->
  (rule_status_structure_and_codes_body mod_name m = [] <->
   conforming_status_enum m enum_members).
Proof.
  intros Hshape.
  rewrite (StatusCodes.body_on_status_tuple mod_name m enum_members Hshape).
  rewrite StatusCodes.check_status_codes_parts.
  unfold conforming_status_enum, check_forbidden_busy.
  rewrite !app_nil_iff, !expected_code_ok, disabled_code_ok, extra_keys_ok.
  destruct (_is_drivable m); cbn [negb andb].
  - rewrite expected_code_ok. tauto.
  - destruct (contains "BUSY" enum_members); split;
      intros H; decompose [and] H; repeat split;
      auto; try discriminate; try reflexivity.
Qed.

Lemma status_conforming_witness :
  rule_status_structure_and_codes_body "m"
    (drivable_module (base_codes ++ [("BUSY", JInt 300)])%list) = [].
Proof.
  apply (proj2 (status_conforming_iff_no_finding "m"
                  (drivable_module (base_codes ++ [("BUSY", JInt 300)])%list)
                  (base_codes ++ [("BUSY", JInt 300)])%list
                  (StatusCodes.drivable_module_status_tuple _))).
  unfold conforming_status_enum, maps_to.
  repeat split;
    try (eexists; split; [reflexivity | reflexivity]).
  left. reflexivity.
Defined.

(** X21. The tooling rules read the status enum through
    [_status_enum_members], which checks the first member of the tuple
    only. It returns the enum of every status the status rule accepts as
    tuple(enum, string); when it returns none, the status rule has given
    no finding about codes (its findings, if any, are R-STAT-001); and
    when it returns an enum that the status rule does not accept, the
    status rule gives the one R-STAT-001 ERROR on members[1]. *)
Theorem status_enum_members_agrees (mod_name : string) (m : Module_) :
  let found := rule_status_structure_and_codes_body mod_name m in
  (forall enum_members,
     status_tuple m enum_members ->
     PlcRules._status_enum_members m = Some enum_members) /\
  (PlcRules._status_enum_members m = None ->
   forall f, In f found -> rule_id f = "R-STAT-001") /\
  (forall enum_members,
     PlcRules._status_enum_members m = Some enum_members ->
     status_tuple m enum_members \/
     found = [mk "R-STAT-001" ERROR
                (mod_path mod_name ++
                 ".accessibles.status.datainfo.members[1]")
                [Lit "status.members[1] must be a string definition"]]).
Proof.
  cbv zeta.
  unfold PlcRules._status_enum_members, rule_status_structure_and_codes_body.
  split; [|split].
  - intros e [status [m0 [m1 [Hg [Ht [Hm [He [Hs Hd]]]]]]]].
    rewrite Hg, Ht, Hm, He, Hd. reflexivity.
  - destruct (get (accessibles m) "status") as [status|];
      [|intros _ g []].
    destruct (negb (di_type (datainfo status) =? "tuple")%string);
      [intros _ g [<-|[]]; reflexivity|].
    destruct (di_members (datainfo status)) as [[d|l]|];
      try (intros _ g [<-|[]]; reflexivity).
    destruct l as [|m0 [|m1 [|m2 r]]];
      try (intros _ g [<-|[]]; reflexivity).
    destruct (negb (opt_eq_str (get m0 "type") "enum"));
      [intros _ g [<-|[]]; reflexivity|].
    destruct (get m0 "members") as [[| | | | | |e]|];
      try discriminate;
      destruct (negb (opt_eq_str (get m1 "type") "string"));
      intros _ g [<-|[]]; reflexivity.
  - intros e.
    destruct (get (accessibles m) "status") as [status|] eqn:Hg;
      [|discriminate].
    destruct (String.eqb_spec (di_type (datainfo status)) "tuple")
      as [Ht|Ht]; cbn [negb]; [|discriminate].
    destruct (di_members (datainfo status)) as [[d|l]|] eqn:Hm;
      try discriminate.
    destruct l as [|m0 [|m1 [|m2 r]]]; try discriminate.
    destruct (opt_eq_str (get m0 "type") "enum") eqn:He; cbn [negb];
      [|discriminate].
    destruct (get m0 "members") as [[| | | | | |e']|] eqn:Hd;
      try discriminate.
    intros [= <-].
    destruct (opt_eq_str (get m1 "type") "string") eqn:Hs; cbn [negb].
    + left. exists status, m0, m1. auto 10.
    + right. reflexivity.
Qed.

Lemma status_enum_members_witness :
  PlcRules._status_enum_members disabled_module
  = Some (("DISABLED", JInt 0) :: base_codes).
Proof.
  apply (proj1 (status_enum_members_agrees "m" disabled_module)).
  exists (accessible (status_datainfo (("DISABLED", JInt 0) :: base_codes))
            true),
         [("type", JStr "enum");
          ("members", JDict (("DISABLED", JInt 0) :: base_codes))],
         [("type", JStr "string")].
  repeat split.
Defined.

End StatusVerdicts.

(* ===================================================================== *)
(** ** Required and allowed accessibles; empty tooling fields             *)
(* ===================================================================== *)

Module Compatibility.
Import Py Model Types SecopRules PlcRules Validate Examples Shapes.
Import Conformance.

Lemma flat_map_nil {A B} (g : A -> list B) (l : list A) :
  (forall x, In x l -> g x = []) -> flat_map g l = [].
Proof.
  induction l as [|x r IH]; intros H; [reflexivity|].
  cbn [flat_map]. rewrite (H x (or_introl eq_refl)).
  apply IH. intros y Hy. apply H. now right.
Qed.

Lemma required_body_nil (mod_name : string) (m : Module_) :
  (forall k, In k (_required_accessibles_for_module m) ->
             contains k (accessibles m) = true) ->
  rule_required_accessibles_body mod_name m = [].
Proof.
  intros Hall.
  destruct (rule_required_accessibles_body mod_name m) as [|f r] eqn:E;
    [reflexivity|].
  exfalso.
  assert (Hf : In f (rule_required_accessibles_body mod_name m))
    by (rewrite E; now left).
  apply RequiredAccessibles.found_cases in Hf.
  destruct Hf as [[_ [Hr Hm]]|[[_ [Hw Hc]]|[_ [Hd Hc]]]].
  - destruct (missing_of (accessibles m)) as [|k0 r0] eqn:Em;
      [now contradiction Hm|].
    assert (Hk : In k0 (missing_of (accessibles m)))
      by (rewrite Em; now left).
    apply RequiredAccessibles.in_missing_of in Hk. destruct Hk as [Hk Hc].
    rewrite Hall in Hc; [discriminate|].
    apply RequiredAccessibles.in_required. left. auto.
  - rewrite Hall in Hc; [discriminate|].
    apply RequiredAccessibles.in_required. right. left. auto.
  - rewrite Hall in Hc; [discriminate|].
    apply RequiredAccessibles.in_required. right. right. auto.
Qed.

(** X22. The two rules on accessible names fit together. For a module
    with one recognized class, every name R-CLS-001/002/003 require is a
    name R-CLS-004 allows for that class, and the allowed names grow along
    Readable, Writable, Drivable; so a module that defines exactly its
    required accessibles (plus any underscore-prefixed ones) gets no
    finding from either rule. *)
Theorem required_accessibles_are_allowed
  (mod_name cls : string) (m : Module_) :
  interface_classes m = [cls] ->
  In cls ["Readable"; "Writable"; "Drivable"] ->
  (exists allowed,
     get allowed_by_class cls = Some allowed /\
     forall k, In k (_required_accessibles_for_module m) -> In k allowed) /\
  (forall allowed_r allowed_w allowed_d,
     get allowed_by_class "Readable" = Some allowed_r ->
     get allowed_by_class "Writable" = Some allowed_w ->
     get allowed_by_class "Drivable" = Some allowed_d ->
     incl allowed_r allowed_w /\ incl allowed_w allowed_d) /\
  ((forall k, In k (_required_accessibles_for_module m) ->
              contains k (accessibles m) = true) ->
   (forall k, contains k (accessibles m) = true ->
              In k (_required_accessibles_for_module m) \/
              startswith k "_" = true) ->
   rule_required_accessibles_body mod_name m = [] /\
   rule_forbidden_accessibles_by_class_body mod_name m = Ok []).
Proof.
  intros Hcls Hin.
  assert (Hreq : exists allowed,
            get allowed_by_class cls = Some allowed /\
            forall k, In k (_required_accessibles_for_module m) ->
                      In k allowed).
  { unfold _required_accessibles_for_module, _is_readable, _is_writable,
      SecopRules._is_drivable, _has_class. rewrite Hcls.
    destruct Hin as [<-|[<-|[<-|[]]]]; eexists; (split; [reflexivity|]);
      vm_compute; intros k H; tauto. }
  split; [exact Hreq|]. split.
  - intros ar aw ad [= <-] [= <-] [= <-]. split; intros k H; cbn in *; tauto.
  - intros Hall Honly. split.
    + exact (required_body_nil mod_name m Hall).
    + destruct Hreq as [allowed [Hget Hsub]].
      unfold rule_forbidden_accessibles_by_class_body.
      rewrite Hcls, Hget. f_equal. apply flat_map_nil.
      intros k Hk. apply Facts.contains_keys in Hk.
      destruct (startswith k "_") eqn:Es; [reflexivity|].
      destruct (Honly k Hk) as [Hr|Hu]; [|congruence].
      apply Hsub, Facts.str_in_iff in Hr. now rewrite Hr.
Qed.

Lemma required_accessibles_are_allowed_witness :
  rule_required_accessibles_body "m"
    (module_of ["Readable"] (readable_accessibles base_codes) None) = [] /\
  rule_forbidden_accessibles_by_class_body "m"
    (module_of ["Readable"] (readable_accessibles base_codes) None) = Ok [].
Proof.
  apply (proj2 (proj2
           (required_accessibles_are_allowed "m" "Readable"
              (module_of ["Readable"] (readable_accessibles base_codes) None)
              eq_refl (or_introl eq_refl)))).
  - intros k [<-|[<-|[<-|[]]]]; reflexivity.
  - intros k Hk. left. apply Facts.contains_keys in Hk.
    destruct Hk as [<-|[<-|[<-|[]]]]; cbn; tauto.
Defined.

Lemma lstrip_empty_below (n : nat) (s : string) :
  (String.length s <= n)%nat -> (lstrip s = "" <-> all_space s = true).
Proof.
  revert s. induction n as [|n IH]; intros s Hn.
  - destruct s; [split; reflexivity | cbn in Hn; lia].
  - destruct s as [|c r]; [split; reflexivity|].
    cbn [String.length] in Hn. cbn [lstrip all_space].
    destruct (isspace c); [apply IH; lia|].
    destruct r as [|d r2]; [split; discriminate|].
    cbn [String.length] in Hn.
    destruct (isspace2 c d); [apply IH; lia|].
    destruct r2 as [|e r3]; [split; discriminate|].
    cbn [String.length] in Hn.
    destruct (isspace3 c d e); cbn [andb]; [apply IH; lia|].
    split; discriminate.
Qed.

Lemma lstrip_empty_iff (s : string) : lstrip s = "" <-> all_space s = true.
Proof. exact (lstrip_empty_below (String.length s) s (le_n _)). Qed.

Lemma lstrip_idempotent_below (n : nat) (s : string) :
  (String.length s <= n)%nat -> lstrip (lstrip s) = lstrip s.
Proof.
  revert s. induction n as [|n IH]; intros s Hn.
  - destruct s; [reflexivity | cbn in Hn; lia].
  - destruct s as [|c r]; [reflexivity|].
    cbn [String.length] in Hn. cbn [lstrip].
    destruct (isspace c) eqn:E1; [apply IH; lia|].
    destruct r as [|d r2]; [cbn [lstrip]; now rewrite E1|].
    cbn [String.length] in Hn.
    destruct (isspace2 c d) eqn:E2; [apply IH; lia|].
    destruct r2 as [|e r3]; [cbn [lstrip]; now rewrite E1, E2|].
    cbn [String.length] in Hn.
    destruct (isspace3 c d e) eqn:E3; [apply IH; lia|].
    cbn [lstrip]. now rewrite E1, E2, E3.
Qed.

Lemma rstrip_empty_iff (s : string) : rstrip s = "" <-> lstrip s = "".
Proof.
  destruct s as [|c r]; [split; reflexivity|].
  cbn [rstrip]. unfold blank.
  destruct (String.eqb_spec (lstrip (String c r)) "") as [E|E].
  - split; [intros _; exact E | reflexivity].
  - split; [discriminate | intros H; contradiction].
Qed.

Lemma strip_empty_iff (s : string) : strip s = "" <-> all_space s = true.
Proof.
  unfold strip. split; intros H.
  - apply lstrip_empty_iff.
    rewrite <- (lstrip_idempotent_below (String.length s) s (le_n _)).
    now apply rstrip_empty_iff.
  - apply rstrip_empty_iff.
    rewrite (lstrip_idempotent_below (String.length s) s (le_n _)).
    now apply lstrip_empty_iff.
Qed.

Lemma forall_below_pow2_spec (n : nat) :
  forall f, forall_below_pow2 n f = true ->
  forall x, (x < 2 ^ N.of_nat n)%N -> f x = true.
Proof.
  induction n as [|n IH]; intros f H x Hx.
  - cbn in Hx. assert (x = 0%N) by lia. now subst.
  - cbn [forall_below_pow2] in H. apply andb_true_iff in H.
    destruct H as [H0 H1].
    rewrite Nat2N.inj_succ, N.pow_succ_r' in Hx.
    destruct (N.even x) eqn:E.
    + apply N.even_spec in E. destruct E as [y ->].
      apply (IH _ H0). lia.
    + assert (O : N.odd x = true) by (rewrite <- N.negb_even, E; reflexivity).
      apply N.odd_spec in O. destruct O as [y ->].
      apply (IH _ H1). lia.
Qed.

(** The code points of one, two and three bytes, by evaluation. *)
Lemma empty_agrees_three_bytes (cp : N) :
  (cp < 65536)%N ->
  _is_empty (Some (utf8 cp)) = is_whitespace_code_point cp.
Proof.
  intros Hcp. apply Bool.eqb_prop.
  apply (forall_below_pow2_spec 16 empty_agrees);
    [vm_compute; reflexivity | exact Hcp].
Qed.

(** The code points of four bytes: the first byte is F0..F4, which starts
    no white-space character. *)
Lemma empty_agrees_four_bytes (cp : N) :
  (65536 <= cp < 1114112)%N ->
  _is_empty (Some (utf8 cp)) = is_whitespace_code_point cp.
Proof.
  intros [Hlo Hhi].
  assert (Hw : is_whitespace_code_point cp = false).
  { unfold is_whitespace_code_point, whitespace_code_points.
    cbn [existsb].
    repeat (rewrite (proj2 (N.eqb_neq cp _)) by lia; cbn [orb]).
    reflexivity. }
  rewrite Hw. unfold utf8.
  rewrite (proj2 (N.ltb_ge cp 128)) by lia.
  rewrite (proj2 (N.ltb_ge cp 2048)) by lia.
  rewrite (proj2 (N.ltb_ge cp 65536)) by lia.
  assert (Hq : (cp / 262144 < 5)%N)
    by (apply N.Div0.div_lt_upper_bound; lia).
  generalize (ascii_of_N (128 + (cp / 4096) mod 64)).
  generalize (ascii_of_N (128 + (cp / 64) mod 64)).
  generalize (ascii_of_N (128 + cp mod 64)).
  intros c4 c3 c2.
  remember (cp / 262144)%N as q eqn:Eq. clear Eq.
  assert (Hc : (q = 0 \/ q = 1 \/ q = 2 \/ q = 3 \/ q = 4)%N) by lia.
  destruct Hc as [->|[->|[->|[->| ->]]]]; reflexivity.
Qed.

(** X23. For the tooling rules a text field is empty when it is [None] or
    consists of white space only (the empty string included), and given
    otherwise; white space is Python's class, so the no-break space, the
    next-line character, the em space and the ideographic space count and
    the zero-width space does not: the text of one code point is empty
    exactly for the white-space code points. The two tests the rules use,
    [_is_empty(x)] and [bool((x or "").strip())], always agree: one is the
    negation of the other on every field of a section that is present, and
    an absent section has no text. *)
Theorem is_empty_iff_blank :
  _is_empty None = true /\
  (forall s, _is_empty (Some s) = true <-> all_space s = true) /\
  (forall cp, (cp < 1114112)%N ->
     _is_empty (Some (utf8 cp)) = is_whitespace_code_point cp) /\
  (_is_empty (Some NBSP) = true /\ _is_empty (Some NEL) = true /\
   _is_empty (Some EM_SPACE) = true /\
   _is_empty (Some IDEOGRAPHIC_SPACE) = true /\
   _is_empty (Some ZERO_WIDTH_SPACE) = false /\
   strip (NBSP ++ "enum" ++ IDEOGRAPHIC_SPACE) = "enum") /\
  (forall (C : Type) (field : C -> option string) (c : C),
     has_text (Some c) field = negb (_is_empty (field c))) /\
  (forall (C : Type) (field : C -> option string),
     has_text (None : option C) field = false).
Proof.
  split; [reflexivity|]. split; [|split; [|split; [|split]]].
  - intros s. unfold _is_empty. rewrite String.eqb_eq. apply strip_empty_iff.
  - intros cp Hcp. destruct (N.ltb_spec cp 65536) as [Hlt|Hge].
    + now apply empty_agrees_three_bytes.
    + apply empty_agrees_four_bytes. lia.
  - vm_compute. repeat split; reflexivity.
  - intros C field c. unfold has_text.
    now rewrite Facts.is_empty_or_empty.
  - reflexivity.
Qed.

Lemma is_empty_iff_blank_witness :
  _is_empty (Some (NBSP ++ " " ++ EM_SPACE)) = true /\
  _is_empty (Some (utf8 8203)) = is_whitespace_code_point 8203.
Proof.
  split.
  - apply (proj2 (proj1 (proj2 is_empty_iff_blank)
                    (NBSP ++ " " ++ EM_SPACE))).
    reflexivity.
  - apply (proj1 (proj2 (proj2 is_empty_iff_blank)) 8203%N). reflexivity.
Defined.

End Compatibility.
